(** * pipx metadata file: a shallow embedding of [src/pipx/pipx_metadata_file.py]

    The module persists, for one virtual-environment directory, a record of
    the installed main package and of the injected packages, as a JSON file
    [pipx_metadata.json].  This development embeds the module's classes and
    functions ([JsonEncoderHandlesPath], [_json_decoder_object_hook],
    [PackageInfo], [PipxMetadata] and its methods) and proves properties of
    them.

    Conventions of the embedding.
    - A Python object that can travel through [json] is a [value]; a
      [pathlib.Path] is the one non-JSON object the module handles.
    - A Python [dict] keeps insertion order: it is an association list whose
      keys are pairwise distinct; [==] on dicts ignores the order.
    - A call that may raise returns an [outcome]; a method of [PipxMetadata]
      is a state transformer over the instance and the outside world (file
      system and log), which returns the state also when it raises, so that
      a partly executed method shows.
    - [json.dump] and [json.load] are modelled on the document tree: the
      text of a file is determined by its tree (key order included) once
      [indent] and the separators are fixed, as they are in [write].  The
      one text without a tree is that of a file which a failed write left
      empty or cut short. *)

From Stdlib Require Import ZArith String Ascii.
From Stdlib Require OrderedTypeEx.
From stdpp Require Import base option list strings gmap sorting.

Local Open Scope string_scope.
Local Open Scope list_scope.

(** ** Python strings *)

Module PyStr.

(** [needle in hay] for two strings. *)
Fixpoint contains (needle hay : string) : bool :=
  String.prefix needle hay
  || match hay with
     | EmptyString => false
     | String _ hay' => contains needle hay'
     end.

(** [new] after every character of [s]. *)
Fixpoint follow_each (new s : string) : string :=
  match s with
  | EmptyString => EmptyString
  | String c s' => String c (new +:+ follow_each new s')
  end.

(** Left-to-right scan of [s.replace(old, new)] for a non-empty [old];
    [skip] counts the characters of a match still to be dropped. *)
Fixpoint replace_from (old new : string) (skip : nat) (s : string) : string :=
  match s with
  | EmptyString => EmptyString
  | String c s' =>
      match skip with
      | S k => replace_from old new k s'
      | O =>
          if String.prefix old s
          then new +:+ replace_from old new (String.length old - 1) s'
          else String c (replace_from old new 0 s')
      end
  end.

(** [s.replace(old, new)]: every non-overlapping occurrence, leftmost
    first; an empty [old] matches before every character and at the end. *)
Definition replace (s old new : string) : string :=
  match old with
  | EmptyString => new +:+ follow_each new s
  | String _ _ => replace_from old new 0 s
  end.

Definition nl : string := String (ascii_of_nat 10) EmptyString.

Fixpoint spaces (n : nat) : string :=
  match n with
  | O => EmptyString
  | S k => String " "%char (spaces k)
  end.

End PyStr.

(** ** Python dictionaries with string keys *)

Module PyDict.
Section Dict.
Context {A : Type}.

Definition t : Type := list (string * A).

(** [d.get(k)] *)
Fixpoint get (k : string) (d : t) : option A :=
  match d with
  | [] => None
  | (k', v) :: d' => if String.eqb k k' then Some v else get k d'
  end.

(** [k in d] *)
Definition mem (k : string) (d : t) : bool :=
  match get k d with Some _ => true | None => false end.

(** [d[k] = v]: a present key keeps its place, a new key goes last. *)
Fixpoint set (k : string) (v : A) (d : t) : t :=
  match d with
  | [] => [(k, v)]
  | (k', v') :: d' =>
      if String.eqb k k' then (k, v) :: d' else (k', v') :: set k v d'
  end.

(** [dict(pairs)] *)
Definition of_pairs (pairs : list (string * A)) : t :=
  fold_left (fun acc kv => set kv.1 kv.2 acc) pairs [].

Definition keys (d : t) : list string := map fst d.

(** Insertion of an item into a list of items sorted by key. *)
Fixpoint insert_item (kv : string * A) (d : t) : t :=
  match d with
  | [] => [kv]
  | kv' :: d' =>
      if String.leb kv.1 kv'.1 then kv :: d else kv' :: insert_item kv d'
  end.

(** [sorted(d.items())]: keys are distinct, so the order is that of the
    keys, compared as Python compares strings. *)
Fixpoint sorted_items (d : t) : t :=
  match d with
  | [] => []
  | kv :: d' => insert_item kv (sorted_items d')
  end.

(** [d1 == d2], given the comparison of the values. *)
Definition eqb (veqb : A -> A -> bool) (d1 d2 : t) : bool :=
  Nat.eqb (length d1) (length d2)
  && forallb (fun kv =>
                match get kv.1 d2 with
                | Some v2 => veqb kv.2 v2
                | None => false
                end) d1.
End Dict.
Global Arguments t : clear implicits.
End PyDict.

(** ** Python values *)

(** The objects that occur in the module's data: what [json.load] can
    return (numbers without a fraction only), and [pathlib.Path].  A path is
    represented by its string form [str(p)]. *)
Unset Elimination Schemes.
Inductive value : Type :=
| VNone
| VBool (b : bool)
| VInt (n : Z)
| VStr (s : string)
| VList (items : list value)
| VDict (items : list (string * value))
| VPath (p : string).
Set Elimination Schemes.

(** Induction on values, with the hypothesis for every element of a list and
    for every value of a dictionary. *)
Section ValueInduction.
Variable P : value -> Prop.
Hypothesis HNone : P VNone.
Hypothesis HBool : forall b, P (VBool b).
Hypothesis HInt : forall n, P (VInt n).
Hypothesis HStr : forall s, P (VStr s).
Hypothesis HList : forall l, Forall P l -> P (VList l).
Hypothesis HDict : forall d, Forall (fun kv => P kv.2) d -> P (VDict d).
Hypothesis HPath : forall p, P (VPath p).

Fixpoint value_ind (v : value) : P v :=
  match v with
  | VNone => HNone
  | VBool b => HBool b
  | VInt n => HInt n
  | VStr s => HStr s
  | VList l =>
      HList l
        ((fix elements (l : list value) : Forall P l :=
            match l with
            | [] => List.Forall_nil P
            | x :: r => List.Forall_cons P x r (value_ind x) (elements r)
            end) l)
  | VDict d =>
      HDict d
        ((fix items (d : list (string * value)) : Forall (fun kv => P kv.2) d :=
            match d with
            | [] => List.Forall_nil _
            | kv :: r => List.Forall_cons _ kv r (value_ind kv.2) (items r)
            end) d)
  | VPath p => HPath p
  end.
End ValueInduction.

(** Truth value of an object, as [if] and [not] take it. *)
Definition truthy (v : value) : bool :=
  match v with
  | VNone => false
  | VBool b => b
  | VInt n => negb (Z.eqb n 0)
  | VStr s => negb (String.eqb s "")
  | VList l => match l with [] => false | _ => true end
  | VDict d => match d with [] => false | _ => true end
  | VPath _ => true
  end.

(** [v is None] *)
Definition is_None (v : value) : bool :=
  match v with VNone => true | _ => false end.

(** [v == s] for a string [s]. *)
Definition eq_str (v : value) (s : string) : bool :=
  match v with VStr s' => String.eqb s' s | _ => false end.

Definition Z_of_bool (b : bool) : Z := if b then 1%Z else 0%Z.

(** [a == b] *)
Fixpoint value_eqb (a b : value) : bool :=
  match a, b with
  | VNone, VNone => true
  | VBool x, VBool y => Bool.eqb x y
  | VBool x, VInt n | VInt n, VBool x => Z.eqb (Z_of_bool x) n
  | VInt m, VInt n => Z.eqb m n
  | VStr s, VStr s' => String.eqb s s'
  | VPath p, VPath p' => String.eqb p p'
  | VList l, VList l' =>
      (fix all2 (l l' : list value) : bool :=
         match l, l' with
         | [], [] => true
         | x :: r, y :: r' => value_eqb x y && all2 r r'
         | _, _ => false
         end) l l'
  | VDict d, VDict d' =>
      Nat.eqb (length d) (length d')
      && (fix each (d : list (string * value)) : bool :=
            match d with
            | [] => true
            | (k, v) :: r =>
                match PyDict.get k d' with
                | Some v' => value_eqb v v'
                | None => false
                end && each r
            end) d
  | _, _ => false
  end.

(** ** Exceptions and outcomes *)

Inductive exn : Type :=
| PipxError (message : string)
| KeyError (key : string)
| TypeError
| AttributeError
| ValueError
| OSError.

Inductive outcome (A : Type) : Type :=
| Return (a : A)
| Raise (e : exn).
Global Arguments Return {A} a.
Global Arguments Raise {A} e.

Global Instance outcome_ret : MRet outcome := fun A a => Return a.
Global Instance outcome_bind : MBind outcome :=
  fun A B f m => match m with Return a => f a | Raise e => Raise e end.

(** [obj[key]] with a string key. *)
Definition subscript (obj : value) (key : string) : outcome value :=
  match obj with
  | VDict d =>
      match PyDict.get key d with
      | Some v => Return v
      | None => Raise (KeyError key)
      end
  | _ => Raise TypeError
  end.

(** [obj[key] = v] with a string key. *)
Definition setitem (obj : value) (key : string) (v : value) : outcome value :=
  match obj with
  | VDict d => Return (VDict (PyDict.set key v d))
  | _ => Raise TypeError
  end.

(** [obj.get(key, default)] *)
Definition get_method (obj : value) (key : string) (dflt : value) : outcome value :=
  match obj with
  | VDict d => Return (default dflt (PyDict.get key d))
  | _ => Raise AttributeError
  end.

(** [obj.items()] *)
Definition items_method (obj : value) : outcome (list (string * value)) :=
  match obj with
  | VDict d => Return d
  | _ => Raise AttributeError
  end.

(** ** What the module imports

    [pathlib], the built-in [str], and from pipx itself [pipx.util.pipx_wrap]
    and [pipx.emojis.hazard] are used by the module and defined elsewhere:
    they are parameters of the embedding. *)
Class Externals : Type := {
  (** [str(Path(s))]: the string form of the path that [s] denotes *)
  Path_str : string -> string;
  (** [Path(p).name]: the final component of a path *)
  Path_name : string -> string;
  (** [str(obj)] for an object that is neither a string nor a path *)
  builtin_str : value -> string;
  (** [pipx_wrap(text, subsequent_indent)] *)
  pipx_wrap : string -> string -> string;
  hazard : string
}.

(** A POSIX instance, for concrete runs: path strings are taken as already
    in normal form, the name of a path is what follows its last slash, a
    text is left unwrapped and [hazard] is empty, as it is on a terminal
    without emoji.  No run below looks at the string form of a number or of
    a container, for which [str_of] gives a placeholder. *)
Module Posix.

Fixpoint name_from (acc s : string) : string :=
  match s with
  | EmptyString => acc
  | String c s' =>
      if Ascii.eqb c "/"%char then name_from EmptyString s'
      else name_from (acc +:+ String c EmptyString) s'
  end.

Definition name (p : string) : string :=
  if String.eqb p "." then EmptyString else name_from EmptyString p.

Definition str_of (v : value) : string :=
  match v with
  | VNone => "None"
  | VBool true => "True"
  | VBool false => "False"
  | VStr s => s
  | VPath p => p
  | _ => "<object>"
  end.

Definition externals : Externals := {|
  Path_str := fun s => s;
  Path_name := name;
  builtin_str := str_of;
  pipx_wrap := fun text _ => text;
  hazard := ""
|}.

End Posix.

(** ** JSON documents *)

Unset Elimination Schemes.
Inductive json : Type :=
| JNull
| JBool (b : bool)
| JInt (n : Z)
| JStr (s : string)
| JArr (elements : list json)
| JObj (members : list (string * json)).
Set Elimination Schemes.

(** Induction on documents, with the hypothesis for every element of an
    array and for every member of an object. *)
Section JsonInduction.
Variable P : json -> Prop.
Hypothesis HNull : P JNull.
Hypothesis HBool : forall b, P (JBool b).
Hypothesis HInt : forall n, P (JInt n).
Hypothesis HStr : forall s, P (JStr s).
Hypothesis HArr : forall l, Forall P l -> P (JArr l).
Hypothesis HObj : forall m, Forall (fun kj => P kj.2) m -> P (JObj m).

Fixpoint json_ind (j : json) : P j :=
  match j with
  | JNull => HNull
  | JBool b => HBool b
  | JInt n => HInt n
  | JStr s => HStr s
  | JArr l =>
      HArr l
        ((fix elements (l : list json) : Forall P l :=
            match l with
            | [] => List.Forall_nil P
            | x :: r => List.Forall_cons P x r (json_ind x) (elements r)
            end) l)
  | JObj m =>
      HObj m
        ((fix members (m : list (string * json)) : Forall (fun kj => P kj.2) m :=
            match m with
            | [] => List.Forall_nil _
            | kj :: r => List.Forall_cons _ kj r (json_ind kj.2) (members r)
            end) m)
  end.
End JsonInduction.

Definition PIPX_INFO_FILENAME : string := "pipx_metadata.json".

(** [JsonEncoderHandlesPath.default].  The encoder calls it on an object it
    does not understand by default; among the values of this embedding that
    is a path and nothing else, so the [isinstance] test holds at every call
    and [super().default(obj)] is not reached.  The result is a dictionary
    of two strings. *)
Definition JsonEncoderHandlesPath_default (obj : string) : list (string * string) :=
  [("__type__", "Path"); ("__Path__", obj)].

(** [json.dump(v, fh, indent=4, sort_keys=True, cls=JsonEncoderHandlesPath)],
    as the document written to [fh]. *)
Fixpoint json_dump (v : value) : json :=
  match v with
  | VNone => JNull
  | VBool b => JBool b
  | VInt n => JInt n
  | VStr s => JStr s
  | VList l => JArr (map json_dump l)
  | VDict d =>
      JObj (PyDict.sorted_items (map (fun kv => (kv.1, json_dump kv.2)) d))
  | VPath p =>
      JObj (PyDict.sorted_items
              (map (fun kv => (kv.1, JStr kv.2)) (JsonEncoderHandlesPath_default p)))
  end.

Section Decoding.
Context `{Externals}.

(** [Path(obj)] *)
Definition Path (obj : value) : outcome value :=
  match obj with
  | VStr s => Return (VPath (Path_str s))
  | VPath p => Return (VPath p)
  | _ => Raise TypeError
  end.

Definition _json_decoder_object_hook (json_dict : list (string * value)) : outcome value :=
  if eq_str (default VNone (PyDict.get "__type__" json_dict)) "Path"
     && PyDict.mem "__Path__" json_dict
  then x ← subscript (VDict json_dict) "__Path__"; Path x
  else Return (VDict json_dict).

(** [json.load(fh, object_hook=_json_decoder_object_hook)] on the document
    in [fh]: every object, innermost first, becomes a dictionary (a repeated
    key keeps its last value) and is replaced by what the hook returns. *)
Fixpoint json_load (j : json) : outcome value :=
  match j with
  | JNull => Return VNone
  | JBool b => Return (VBool b)
  | JInt n => Return (VInt n)
  | JStr s => Return (VStr s)
  | JArr l =>
      items ← (fix elements (l : list json) : outcome (list value) :=
                 match l with
                 | [] => Return []
                 | j :: r =>
                     v ← json_load j; vs ← elements r; Return (v :: vs)
                 end) l;
      Return (VList items)
  | JObj m =>
      pairs ← (fix members (m : list (string * json)) : outcome (list (string * value)) :=
                 match m with
                 | [] => Return []
                 | (k, j) :: r =>
                     v ← json_load j; kvs ← members r; Return ((k, v) :: kvs)
                 end) m;
      _json_decoder_object_hook (PyDict.of_pairs pairs)
  end.

End Decoding.

(** ** [PackageInfo] *)

(** A frozen dataclass.  The annotations of the fields are not checked when
    an instance is made, so a field holds whatever value the call supplied;
    the annotations are the predicate [PackageInfo_typed] below. *)
Record PackageInfo : Type := {
  package : value;
  package_or_url : value;
  pip_args : value;
  include_dependencies : value;
  include_apps : value;
  apps : value;
  app_paths : value;
  apps_of_dependencies : value;
  app_paths_of_dependencies : value;
  package_version : value;
  man_pages : value;
  man_paths : value;
  man_pages_of_dependencies : value;
  man_paths_of_dependencies : value;
  suffix : value;
  pinned : value
}.

Definition PackageInfo_fields : list string :=
  [ "package"; "package_or_url"; "pip_args"; "include_dependencies";
    "include_apps"; "apps"; "app_paths"; "apps_of_dependencies";
    "app_paths_of_dependencies"; "package_version"; "man_pages"; "man_paths";
    "man_pages_of_dependencies"; "man_paths_of_dependencies"; "suffix";
    "pinned" ].

(** A keyword argument of a field that has no default. *)
Definition required (kwargs : list (string * value)) (field : string) : outcome value :=
  match PyDict.get field kwargs with
  | Some v => Return v
  | None => Raise TypeError
  end.

(** [PackageInfo] called with the keyword arguments [kwargs] (two stars in
    the source): [kwargs] is a mapping, every key is the name of a field,
    the ten fields without a default are given; [TypeError] otherwise. *)
Definition PackageInfo_new (kwargs : value) : outcome PackageInfo :=
  match kwargs with
  | VDict d =>
      if forallb (fun k => bool_decide (k ∈ PackageInfo_fields)) (PyDict.keys d)
      then
        package ← required d "package";
        package_or_url ← required d "package_or_url";
        pip_args ← required d "pip_args";
        include_dependencies ← required d "include_dependencies";
        include_apps ← required d "include_apps";
        apps ← required d "apps";
        app_paths ← required d "app_paths";
        apps_of_dependencies ← required d "apps_of_dependencies";
        app_paths_of_dependencies ← required d "app_paths_of_dependencies";
        package_version ← required d "package_version";
        Return {|
          package := package;
          package_or_url := package_or_url;
          pip_args := pip_args;
          include_dependencies := include_dependencies;
          include_apps := include_apps;
          apps := apps;
          app_paths := app_paths;
          apps_of_dependencies := apps_of_dependencies;
          app_paths_of_dependencies := app_paths_of_dependencies;
          package_version := package_version;
          man_pages := default (VList []) (PyDict.get "man_pages" d);
          man_paths := default (VList []) (PyDict.get "man_paths" d);
          man_pages_of_dependencies :=
            default (VList []) (PyDict.get "man_pages_of_dependencies" d);
          man_paths_of_dependencies :=
            default (VDict []) (PyDict.get "man_paths_of_dependencies" d);
          suffix := default (VStr "") (PyDict.get "suffix" d);
          pinned := default (VBool false) (PyDict.get "pinned" d)
        |}
      else Raise TypeError
  | _ => Raise TypeError
  end.

(** [dataclasses.asdict]: the fields in their order, the values copied. *)
Definition asdict (p : PackageInfo) : value :=
  VDict
    [ ("package", package p);
      ("package_or_url", package_or_url p);
      ("pip_args", pip_args p);
      ("include_dependencies", include_dependencies p);
      ("include_apps", include_apps p);
      ("apps", apps p);
      ("app_paths", app_paths p);
      ("apps_of_dependencies", apps_of_dependencies p);
      ("app_paths_of_dependencies", app_paths_of_dependencies p);
      ("package_version", package_version p);
      ("man_pages", man_pages p);
      ("man_paths", man_paths p);
      ("man_pages_of_dependencies", man_pages_of_dependencies p);
      ("man_paths_of_dependencies", man_paths_of_dependencies p);
      ("suffix", suffix p);
      ("pinned", pinned p) ].

(** ** [PipxMetadata] *)

Record PipxMetadata : Type := {
  venv_dir : string;
  main_package : PackageInfo;
  python_version : value;
  source_interpreter : value;
  venv_args : value;
  injected_packages : list (string * PackageInfo)
}.

(** What a file holds once a write into it has failed: the whole document,
    or text that is no JSON document (nothing at all, or the beginning of
    one). *)
Inductive text : Type :=
| Whole (doc : json)
| Cut.

(** The outside world: for each pair of a directory and a file name, the
    state of that file, and the records handed to the module's logger.

    [Creatable] is a missing file that can be created, [File] a file that
    holds a document and may or may not be read and opened for writing.
    [Failing] is a path that can be opened for writing, while the writing
    then fails with [OSError] (no space left on the device, say): [held] is
    what is there now, nothing or a file with its text and whether it may be
    read; [whole] tells whether the error comes once the whole text is in
    the file (an error of the close) or before. *)
Inductive node : Type :=
| Creatable
| File (readable writable : bool) (content : json)
| Failing (held : option (bool * text)) (whole : bool).

Inductive log_record : Type :=
| LogDebug (message : string)
| LogWarning (message : string).

Record world : Type := {
  fs : gmap (string * string) node;
  log : list log_record
}.

(** [open(path, "rb")] and the text of the file read as a document.
    Opening fails with [OSError] when there is no file at [path] or it may
    not be read; on text that is no JSON document [json.load] raises
    [json.JSONDecodeError], a [ValueError]. *)
Definition open_rb (w : world) (path : string * string) : outcome json :=
  match fs w !! path with
  | Some (File true _ content) => Return content
  | Some (Failing (Some (true, Whole content)) _) => Return content
  | Some (Failing (Some (true, Cut)) _) => Raise ValueError
  | _ => Raise OSError
  end.

(** [with open(path, "w") as fh:] writing [content]: the outcome of the block
    and the world it leaves.  Opening fails with [OSError] when the file may
    not be written, or is missing and cannot be created, and then the files
    are as they were.  Mode ["w"] empties the file as it opens it, before
    anything is written: when the writing, the flush or the close then fails,
    the block raises [OSError] as well, and the file is left with the text
    that got there, which is no document unless all of it did. *)
Definition with_open_w (w : world) (path : string * string) (content : json)
  : outcome unit * world :=
  match fs w !! path with
  | Some (File readable true _) =>
      (Return tt,
       {| fs := <[path := File readable true content]> (fs w); log := log w |})
  | Some Creatable =>
      (Return tt,
       {| fs := <[path := File true true content]> (fs w); log := log w |})
  | Some (Failing held whole) =>
      (Raise OSError,
       {| fs := <[path := Failing
                            (Some (match held with Some (r, _) => r | None => true end,
                                   if whole then Whole content else Cut))
                            whole]> (fs w);
          log := log w |})
  | _ => (Raise OSError, w)
  end.

(** The world that the block leaves when it goes through. *)
Definition open_w (w : world) (path : string * string) (content : json) : outcome world :=
  match with_open_w w path content with
  | (Return _, w') => Return w'
  | (Raise e, _) => Raise e
  end.

(** A method: runs on the instance and the world, returns both, also when it
    raises. *)
Definition method (A : Type) : Type :=
  PipxMetadata * world -> outcome A * (PipxMetadata * world).

Global Instance method_ret : MRet method := fun A a st => (Return a, st).
Global Instance method_bind : MBind method :=
  fun A B f m st =>
    match m st with
    | (Return a, st') => f a st'
    | (Raise e, st') => (Raise e, st')
    end.

(** An expression that may raise, evaluated inside a method. *)
Definition lift {A : Type} (o : outcome A) : method A := fun st => (o, st).
Definition raise {A : Type} (e : exn) : method A := lift (Raise e).
Definition self : method PipxMetadata := fun st => (Return st.1, st).
Definition assign (update : PipxMetadata -> PipxMetadata) : method unit :=
  fun st => (Return tt, (update st.1, st.2)).
(** The world after one more record went to the logger. *)
Definition logged (r : log_record) (w : world) : world :=
  {| fs := fs w; log := log w ++ [r] |}.
Definition logger (r : log_record) : method unit :=
  fun st => (Return tt, (st.1, logged r st.2)).

(** [try: body / except OSError: handler] *)
Definition except_OSError {A : Type} (body handler : method A) : method A :=
  fun st =>
    match body st with
    | (Raise OSError, st') => handler st'
    | r => r
    end.

Definition set_main_package (p : PackageInfo) (m : PipxMetadata) : PipxMetadata :=
  {| venv_dir := venv_dir m; main_package := p;
     python_version := python_version m;
     source_interpreter := source_interpreter m;
     venv_args := venv_args m; injected_packages := injected_packages m |}.
Definition set_python_version (v : value) (m : PipxMetadata) : PipxMetadata :=
  {| venv_dir := venv_dir m; main_package := main_package m;
     python_version := v;
     source_interpreter := source_interpreter m;
     venv_args := venv_args m; injected_packages := injected_packages m |}.
Definition set_source_interpreter (v : value) (m : PipxMetadata) : PipxMetadata :=
  {| venv_dir := venv_dir m; main_package := main_package m;
     python_version := python_version m;
     source_interpreter := v;
     venv_args := venv_args m; injected_packages := injected_packages m |}.
Definition set_venv_args (v : value) (m : PipxMetadata) : PipxMetadata :=
  {| venv_dir := venv_dir m; main_package := main_package m;
     python_version := python_version m;
     source_interpreter := source_interpreter m;
     venv_args := v; injected_packages := injected_packages m |}.
Definition set_injected_packages (d : list (string * PackageInfo)) (m : PipxMetadata)
  : PipxMetadata :=
  {| venv_dir := venv_dir m; main_package := main_package m;
     python_version := python_version m;
     source_interpreter := source_interpreter m;
     venv_args := venv_args m; injected_packages := d |}.

(** [x in s] for a string [s]: the left operand must be a string. *)
Definition str_in (x : value) (s : string) : outcome bool :=
  match x with
  | VStr x' => Return (PyStr.contains x' s)
  | _ => Raise TypeError
  end.

(** [s.replace(old, new)]: [old] must be a string. *)
Definition replace_method (s : string) (old : value) (new : string) : outcome string :=
  match old with
  | VStr old' => Return (PyStr.replace s old' new)
  | _ => Raise TypeError
  end.

Section Methods.
Context `{Externals}.

(** A replacement field of an f-string. *)
Definition format (v : value) : string :=
  match v with
  | VStr s => s
  | VPath p => p
  | _ => builtin_str v
  end.

Definition __METADATA_VERSION__ : string := "0.5".

(** The assignments of [__init__] that precede the optional [read]. *)
Definition init_fields (venv_dir : string) : PipxMetadata := {|
  venv_dir := venv_dir;
  main_package := {|
    package := VNone;
    package_or_url := VNone;
    pip_args := VList [];
    include_dependencies := VBool false;
    include_apps := VBool true;
    apps := VList [];
    app_paths := VList [];
    apps_of_dependencies := VList [];
    app_paths_of_dependencies := VDict [];
    man_pages := VList [];
    man_paths := VList [];
    man_pages_of_dependencies := VList [];
    man_paths_of_dependencies := VDict [];
    package_version := VStr "";
    suffix := VStr "";
    pinned := VBool false
  |};
  python_version := VNone;
  source_interpreter := VNone;
  venv_args := VList [];
  injected_packages := []
|}.

Definition to_dict (m : PipxMetadata) : value :=
  VDict
    [ ("main_package", asdict (main_package m));
      ("python_version", python_version m);
      ("source_interpreter", source_interpreter m);
      ("venv_args", venv_args m);
      ("injected_packages",
        VDict (map (fun nd => (nd.1, asdict nd.2)) (injected_packages m)));
      ("pipx_metadata_version", VStr __METADATA_VERSION__) ].

(** The text given to [PipxError] for an unknown version. *)
Definition unknown_version_message (name version : string) : string :=
  PyStr.nl +:+ PyStr.spaces 16 +:+ name +:+ ": Unknown metadata version"
  +:+ PyStr.nl +:+ PyStr.spaces 16 +:+ version +:+ ". Perhaps it was"
  +:+ PyStr.nl +:+ PyStr.spaces 16 +:+ "installed with a later version of pipx."
  +:+ PyStr.nl +:+ PyStr.spaces 16.

(** The stored version is looked up once here; the source looks it up again
    in every test, with the same result.  In the branch of version 0.1 the
    dictionary [main_package_data] is the very object held by
    [metadata_dict], so that the assignment of its suffix shows there. *)
Definition _convert_legacy_metadata (metadata_dict : value) : method value :=
  m ← self;
  lift (
    version ← subscript metadata_dict "pipx_metadata_version";
    current ← str_in version __METADATA_VERSION__;
    if (current : bool) then Return metadata_dict
    else if eq_str version "0.4" then
      setitem metadata_dict "pinned" (VBool false)
    else if eq_str version "0.2" || eq_str version "0.3" then
      setitem metadata_dict "source_interpreter" VNone
    else if eq_str version "0.1" then
      main_package_data ← subscript metadata_dict "main_package";
      package ← subscript main_package_data "package";
      metadata_dict ←
        (if negb (eq_str package (Path_name (venv_dir m))) then
           suffix ← replace_method (Path_name (venv_dir m)) package "";
           main_package_data ← setitem main_package_data "suffix" (VStr suffix);
           setitem metadata_dict "main_package" main_package_data
         else Return metadata_dict);
      setitem metadata_dict "source_interpreter" VNone
    else
      Raise (PipxError
               (unknown_version_message (Path_name (venv_dir m)) (format version)))).

(** The dictionary comprehension of [from_dict]: for every item in order,
    the key, then the value, then the insertion. *)
Fixpoint injected_comprehension (items : list (string * value))
    (acc : list (string * PackageInfo)) : outcome (list (string * PackageInfo)) :=
  match items with
  | [] => Return acc
  | (name, data) :: rest =>
      sfx ← get_method data "suffix" (VStr "");
      info ← PackageInfo_new data;
      injected_comprehension rest (PyDict.set (name +:+ format sfx) info acc)
  end.

Definition from_dict (input_dict : value) : method unit :=
  input_dict ← _convert_legacy_metadata input_dict;
  p ← lift (subscript input_dict "main_package" ≫= PackageInfo_new);
  assign (set_main_package p);;
  v ← lift (subscript input_dict "python_version");
  assign (set_python_version v);;
  v ← lift (c ← get_method input_dict "source_interpreter" VNone;
            if truthy c then subscript input_dict "source_interpreter" ≫= Path
            else Return VNone);
  assign (set_source_interpreter v);;
  v ← lift (subscript input_dict "venv_args");
  assign (set_venv_args v);;
  d ← lift (items ← subscript input_dict "injected_packages" ≫= items_method;
            injected_comprehension items []);
  assign (set_injected_packages d).

Definition corrupt_message : string :=
  "Internal Error: PipxMetadata is corrupt, cannot write.".

(** The record of [logger.debug] in [_validate_before_write]. *)
Definition corrupt_record (m : PipxMetadata) : log_record :=
  LogDebug ("PipxMetadata corrupt:" +:+ PyStr.nl +:+ builtin_str (to_dict m)).

Definition _validate_before_write : method unit :=
  m ← self;
  if is_None (package (main_package m))
     || is_None (package_or_url (main_package m))
     || negb (truthy (include_apps (main_package m)))
  then
    logger (corrupt_record m);;
    raise (PipxError corrupt_message)
  else mret tt.

(** The text of the warning of [write], before [pipx_wrap]. *)
Definition write_warning_text (venv_dir : string) : string :=
  PyStr.nl +:+ PyStr.spaces 20 +:+ hazard +:+ "  Unable to write "
  +:+ PIPX_INFO_FILENAME +:+ " to"
  +:+ PyStr.nl +:+ PyStr.spaces 20 +:+ venv_dir
  +:+ ".  This may cause future pipx operations"
  +:+ PyStr.nl +:+ PyStr.spaces 20 +:+ "involving " +:+ Path_name venv_dir
  +:+ " to fail or behave"
  +:+ PyStr.nl +:+ PyStr.spaces 20 +:+ "incorrectly."
  +:+ PyStr.nl +:+ PyStr.spaces 20.

(** The text of the warning of [read], before [pipx_wrap]. *)
Definition read_warning_text (venv_dir : string) : string :=
  PyStr.nl +:+ PyStr.spaces 24 +:+ hazard +:+ "  Unable to read "
  +:+ PIPX_INFO_FILENAME +:+ " in"
  +:+ PyStr.nl +:+ PyStr.spaces 24 +:+ venv_dir
  +:+ ".  This may cause this or future pipx"
  +:+ PyStr.nl +:+ PyStr.spaces 24 +:+ "operations involving "
  +:+ Path_name venv_dir +:+ " to fail or"
  +:+ PyStr.nl +:+ PyStr.spaces 24 +:+ "behave incorrectly."
  +:+ PyStr.nl +:+ PyStr.spaces 24.

(** [with open(path, "w", encoding="utf-8") as fh: json.dump(obj, fh, ...)] *)
Definition dump_to (path : string * string) (obj : value) : method unit :=
  fun st =>
    match with_open_w st.2 path (json_dump obj) with
    | (r, w') => (r, (st.1, w'))
    end.

(** [with open(path, "rb") as fh: json.load(fh, object_hook=...)] *)
Definition load_from (path : string * string) : method value :=
  fun st =>
    match open_rb st.2 path with
    | Return doc => (json_load doc, st)
    | Raise e => (Raise e, st)
    end.

(** The records of [logger.warning] in [write] and in [read]. *)
Definition write_warning (m : PipxMetadata) : log_record :=
  LogWarning (pipx_wrap (write_warning_text (venv_dir m)) (PyStr.spaces 4)).
Definition read_warning (m : PipxMetadata) : log_record :=
  LogWarning (pipx_wrap (read_warning_text (venv_dir m)) (PyStr.spaces 4)).

Definition write : method unit :=
  _validate_before_write;;
  m ← self;
  except_OSError
    (dump_to (venv_dir m, PIPX_INFO_FILENAME) (to_dict m))
    (logger (write_warning m)).

Definition read (verbose : bool) : method unit :=
  m ← self;
  except_OSError
    (input_dict ← load_from (venv_dir m, PIPX_INFO_FILENAME);
     from_dict input_dict)
    (if verbose then logger (read_warning m) else mret tt).

(** [PipxMetadata(venv_dir, read)]: the instance, unless [read] raises. *)
Definition __init__ (venv_dir : string) (read' : bool) (w : world)
  : outcome PipxMetadata * world :=
  if read' then
    match read false (init_fields venv_dir, w) with
    | (Return _, (m, w')) => (Return m, w')
    | (Raise e, (_, w')) => (Raise e, w')
    end
  else (Return (init_fields venv_dir), w).

End Methods.

(** ** The data model as predicates *)

Definition is_str (v : value) : bool :=
  match v with VStr _ => true | _ => false end.

Definition is_bool (v : value) : bool :=
  match v with VBool _ => true | _ => false end.

(** [Optional[T]] *)
Definition is_optional (T : value -> bool) (v : value) : bool :=
  is_None v || T v.

(** [List[T]] *)
Definition is_list_of (T : value -> bool) (v : value) : bool :=
  match v with VList l => forallb T l | _ => false end.

(** [Dict[str, T]]: the keys of a dictionary are pairwise distinct. *)
Definition is_dict_of (T : value -> bool) (v : value) : bool :=
  match v with
  | VDict d => bool_decide (NoDup (PyDict.keys d)) && forallb (fun kv => T kv.2) d
  | _ => false
  end.

(** What [json.dump] followed by [json.load] leaves of a value when nothing
    in it is taken for an encoded path: the dictionaries come back in the
    order of their keys. *)
Fixpoint sorted_copy (v : value) : value :=
  match v with
  | VList l => VList (map sorted_copy l)
  | VDict d =>
      VDict (PyDict.sorted_items (map (fun kv => (kv.1, sorted_copy kv.2)) d))
  | _ => v
  end.

(** The condition under which the decoder hook turns a dictionary into a
    path. *)
Definition tagged (d : list (string * value)) : bool :=
  eq_str (default VNone (PyDict.get "__type__" d)) "Path"
  && PyDict.mem "__Path__" d.

(** All objects of a document have their keys in ascending order. *)
Fixpoint keys_sorted (j : json) : Prop :=
  match j with
  | JArr l => (fix all (l : list json) : Prop :=
                 match l with [] => True | j :: r => keys_sorted j /\ all r end) l
  | JObj m =>
      Sorted (fun k k' => String.leb k k' = true) (map fst m)
      /\ (fix all (m : list (string * json)) : Prop :=
            match m with [] => True | kj :: r => keys_sorted kj.2 /\ all r end) m
  | _ => True
  end.

Section DataModel.
Context `{Externals}.

(** A [Path] object: its string form is that of the path it denotes. *)
Definition is_path (v : value) : bool :=
  match v with VPath p => String.eqb (Path_str p) p | _ => false end.

(** A value that [json.dump] and [json.load] carry over: its paths are path
    objects, its dictionaries have distinct keys and none of them has the
    shape of an encoded path. *)
Fixpoint storable (v : value) : bool :=
  match v with
  | VList l => forallb storable l
  | VDict d =>
      bool_decide (NoDup (PyDict.keys d))
      && negb (tagged d)
      && forallb (fun kv => storable kv.2) d
  | VPath _ => is_path v
  | _ => true
  end.

(** The annotations of the fields of [PackageInfo]. *)
Definition PackageInfo_typed (p : PackageInfo) : bool :=
  is_optional is_str (package p)
  && is_optional is_str (package_or_url p)
  && is_list_of is_str (pip_args p)
  && is_bool (include_dependencies p)
  && is_bool (include_apps p)
  && is_list_of is_str (apps p)
  && is_list_of is_path (app_paths p)
  && is_list_of is_str (apps_of_dependencies p)
  && is_dict_of (is_list_of is_path) (app_paths_of_dependencies p)
  && is_str (package_version p)
  && is_list_of is_str (man_pages p)
  && is_list_of is_path (man_paths p)
  && is_list_of is_str (man_pages_of_dependencies p)
  && is_dict_of (is_list_of is_path) (man_paths_of_dependencies p)
  && is_str (suffix p)
  && is_bool (pinned p).

(** The annotations of the attributes of [PipxMetadata]. *)
Definition PipxMetadata_typed (m : PipxMetadata) : bool :=
  PackageInfo_typed (main_package m)
  && is_optional is_str (python_version m)
  && is_optional is_path (source_interpreter m)
  && is_list_of is_str (venv_args m)
  && bool_decide (NoDup (PyDict.keys (injected_packages m)))
  && forallb (fun np => PackageInfo_typed np.2) (injected_packages m).

End DataModel.

(** The fields of an instance, in order. *)
Definition astuple (p : PackageInfo) : list value :=
  [ package p; package_or_url p; pip_args p; include_dependencies p;
    include_apps p; apps p; app_paths p; apps_of_dependencies p;
    app_paths_of_dependencies p; package_version p; man_pages p; man_paths p;
    man_pages_of_dependencies p; man_paths_of_dependencies p; suffix p;
    pinned p ].

(** [p == q] for two instances of the dataclass. *)
Definition PackageInfo_eqb (p q : PackageInfo) : bool :=
  value_eqb (VList (astuple p)) (VList (astuple q)).

(** Two stores are equal field for field. *)
Definition PipxMetadata_eqb (m m' : PipxMetadata) : bool :=
  String.eqb (venv_dir m) (venv_dir m')
  && PackageInfo_eqb (main_package m) (main_package m')
  && value_eqb (python_version m) (python_version m')
  && value_eqb (source_interpreter m) (source_interpreter m')
  && value_eqb (venv_args m) (venv_args m')
  && PyDict.eqb PackageInfo_eqb (injected_packages m) (injected_packages m').

(** The instance with every field replaced by its sorted copy. *)
Definition PackageInfo_copy (p : PackageInfo) : PackageInfo := {|
  package := sorted_copy (package p);
  package_or_url := sorted_copy (package_or_url p);
  pip_args := sorted_copy (pip_args p);
  include_dependencies := sorted_copy (include_dependencies p);
  include_apps := sorted_copy (include_apps p);
  apps := sorted_copy (apps p);
  app_paths := sorted_copy (app_paths p);
  apps_of_dependencies := sorted_copy (apps_of_dependencies p);
  app_paths_of_dependencies := sorted_copy (app_paths_of_dependencies p);
  package_version := sorted_copy (package_version p);
  man_pages := sorted_copy (man_pages p);
  man_paths := sorted_copy (man_paths p);
  man_pages_of_dependencies := sorted_copy (man_pages_of_dependencies p);
  man_paths_of_dependencies := sorted_copy (man_paths_of_dependencies p);
  suffix := sorted_copy (suffix p);
  pinned := sorted_copy (pinned p)
|}.

(** The store with every value replaced by its sorted copy, the injected
    packages in the order of their keys. *)
Definition PipxMetadata_copy (m : PipxMetadata) : PipxMetadata := {|
  venv_dir := venv_dir m;
  main_package := PackageInfo_copy (main_package m);
  python_version := sorted_copy (python_version m);
  source_interpreter := sorted_copy (source_interpreter m);
  venv_args := sorted_copy (venv_args m);
  injected_packages :=
    map (fun np => (np.1, PackageInfo_copy np.2))
      (PyDict.sorted_items (injected_packages m))
|}.

(** Every injected package has the empty suffix. *)
Definition injected_unsuffixed (m : PipxMetadata) : bool :=
  forallb (fun np => eq_str (suffix np.2) "") (injected_packages m).

(** The injected packages as [from_dict] files them when it loads what
    [to_dict] gave: in the order of the stored keys, each under its stored
    key followed by its suffix, a later one replacing an earlier one of the
    same key. *)
Definition rekeyed `{Externals} (injected : list (string * PackageInfo))
  : list (string * PackageInfo) :=
  fold_left
    (fun acc np => PyDict.set (np.1 +:+ format (suffix np.2)) (PackageInfo_copy np.2) acc)
    (PyDict.sorted_items injected) [].

(** The fields of [PackageInfo] that have no default. *)
Definition PackageInfo_required : list string :=
  [ "package"; "package_or_url"; "pip_args"; "include_dependencies";
    "include_apps"; "apps"; "app_paths"; "apps_of_dependencies";
    "app_paths_of_dependencies"; "package_version" ].

(** The keyword arguments [d] fit the signature of [PackageInfo]: every key
    names a field and every field without a default is given. *)
Definition fits_PackageInfo (d : list (string * value)) : bool :=
  forallb (fun k => bool_decide (k ∈ PackageInfo_fields)) (PyDict.keys d)
  && forallb (fun k => PyDict.mem k d) PackageInfo_required.

(** Every dictionary in the value has distinct keys and none has the shape
    of an encoded path. *)
Fixpoint decoded (v : value) : bool :=
  match v with
  | VList l => forallb decoded l
  | VDict d =>
      bool_decide (NoDup (PyDict.keys d))
      && negb (tagged d)
      && forallb (fun kv => decoded kv.2) d
  | _ => true
  end.

(** The main package passes the test of [_validate_before_write]. *)
Definition main_package_valid (m : PipxMetadata) : bool :=
  negb (is_None (package (main_package m)))
  && negb (is_None (package_or_url (main_package m)))
  && truthy (include_apps (main_package m)).

(** A version that [_convert_legacy_metadata] refuses: the first test,
    [version in ("0.5")], does not let it through, and it is none of the four
    older versions. *)
Definition refused (version : string) : bool :=
  negb (PyStr.contains version __METADATA_VERSION__)
  && negb (bool_decide (version ∈ ["0.4"; "0.3"; "0.2"; "0.1"])).


(** The file at [path] is there and can be read and written, or is missing
    and can be created. *)
Definition available (w : world) (path : string * string) : bool :=
  match fs w !! path with
  | Some Creatable | Some (File true true _) => true
  | _ => false
  end.

(** ** Concrete stores, records and worlds *)

Module Examples.

Definition venv : string := "/home/user/.local/pipx/venvs/foo".
Definition venv_special : string := "/home/user/.local/pipx/venvs/foo-special".

Definition foo_info : PackageInfo := {|
  package := VStr "foo";
  package_or_url := VStr "foo==1.2";
  pip_args := VList [VStr "--quiet"];
  include_dependencies := VBool true;
  include_apps := VBool true;
  apps := VList [VStr "foo"];
  app_paths := VList [VPath "/home/user/.local/pipx/venvs/foo/bin/foo"];
  apps_of_dependencies := VList [VStr "zed"; VStr "dep"];
  app_paths_of_dependencies :=
    VDict [ ("zed", VList [VPath "/home/user/.local/pipx/venvs/foo/bin/zed"]);
            ("dep", VList [VPath "/home/user/.local/pipx/venvs/foo/bin/dep"]) ];
  package_version := VStr "1.2";
  man_pages := VList [VStr "man1/foo.1"];
  man_paths := VList [VPath "/home/user/.local/pipx/venvs/foo/share/man/man1/foo.1"];
  man_pages_of_dependencies := VList [VStr "man1/dep.1"];
  man_paths_of_dependencies :=
    VDict [ ("dep", VList [VPath "/home/user/.local/pipx/venvs/foo/share/man/man1/dep.1"]) ];
  suffix := VStr "";
  pinned := VBool false
|}.

(** An injected package with the given suffix. *)
Definition bar_info (sfx : string) : PackageInfo := {|
  package := VStr "bar";
  package_or_url := VStr "bar";
  pip_args := VList [];
  include_dependencies := VBool false;
  include_apps := VBool true;
  apps := VList [VStr "bar"];
  app_paths := VList [VPath "/home/user/.local/pipx/venvs/foo/bin/bar"];
  apps_of_dependencies := VList [];
  app_paths_of_dependencies := VDict [];
  package_version := VStr "0.9";
  man_pages := VList [];
  man_paths := VList [];
  man_pages_of_dependencies := VList [];
  man_paths_of_dependencies := VDict [];
  suffix := VStr sfx;
  pinned := VBool false
|}.

(** An injected package that would not pass the test made of the main
    package: no package name, no specifier, no applications exposed. *)
Definition blank_info : PackageInfo := {|
  package := VNone;
  package_or_url := VNone;
  pip_args := VList [];
  include_dependencies := VBool false;
  include_apps := VBool false;
  apps := VList [];
  app_paths := VList [];
  apps_of_dependencies := VList [];
  app_paths_of_dependencies := VDict [];
  package_version := VStr "";
  man_pages := VList [];
  man_paths := VList [];
  man_pages_of_dependencies := VList [];
  man_paths_of_dependencies := VDict [];
  suffix := VStr "";
  pinned := VBool false
|}.

Definition store (injected : list (string * PackageInfo)) : PipxMetadata := {|
  venv_dir := venv;
  main_package := foo_info;
  python_version := VStr "3.12.1";
  source_interpreter := VPath "/usr/bin/python3";
  venv_args := VList [VStr "--system-site-packages"];
  injected_packages := injected
|}.

(** The directory is there and holds no metadata file. *)
Definition no_file : world :=
  {| fs := {[ (venv, PIPX_INFO_FILENAME) := Creatable ]}; log := [] |}.

(** Nothing can be opened. *)
Definition nothing : world := {| fs := ∅; log := [] |}.

(** The directory [dir] holds the metadata file with the document [doc]. *)
Definition holding (dir : string) (doc : json) : world :=
  {| fs := {[ (dir, PIPX_INFO_FILENAME) := File true true doc ]}; log := [] |}.


(** The main package as versions 0.1 and 0.2 stored it. *)
Definition main_package_0_1 : list (string * value) :=
  [ ("package", VStr "foo");
    ("package_or_url", VStr "foo");
    ("pip_args", VList []);
    ("include_dependencies", VBool false);
    ("include_apps", VBool true);
    ("apps", VList [VStr "foo"]);
    ("app_paths", VList [VPath "/home/user/.local/pipx/venvs/foo-special/bin/foo"]);
    ("apps_of_dependencies", VList []);
    ("app_paths_of_dependencies", VDict []);
    ("package_version", VStr "1.0") ].

Definition record_0_1 : list (string * value) :=
  [ ("main_package", VDict main_package_0_1);
    ("python_version", VStr "3.8.2");
    ("venv_args", VList []);
    ("injected_packages", VDict []);
    ("pipx_metadata_version", VStr "0.1") ].

(** The main package as version 0.4 stored it: every field but [pinned]. *)
Definition main_package_0_4 : list (string * value) :=
  main_package_0_1
  ++ [ ("man_pages", VList []);
       ("man_paths", VList []);
       ("man_pages_of_dependencies", VList []);
       ("man_paths_of_dependencies", VDict []);
       ("suffix", VStr "") ].

(** A stored record with a main package of all fields but [pinned], under
    the given version. *)
Definition record (version : string) : list (string * value) :=
  [ ("main_package", VDict main_package_0_4);
    ("python_version", VStr "3.11.4");
    ("source_interpreter", VPath "/usr/bin/python3");
    ("venv_args", VList []);
    ("injected_packages", VDict []);
    ("pipx_metadata_version", VStr version) ].

(** A record of the current version that lacks the key python_version, and
    the instance made of its main package. *)
Definition record_without_python_version : list (string * value) :=
  [ ("main_package", VDict main_package_0_4);
    ("source_interpreter", VNone);
    ("venv_args", VList []);
    ("injected_packages", VDict []);
    ("pipx_metadata_version", VStr "0.5") ].

Definition info_0_4 : PackageInfo := {|
  package := VStr "foo";
  package_or_url := VStr "foo";
  pip_args := VList [];
  include_dependencies := VBool false;
  include_apps := VBool true;
  apps := VList [VStr "foo"];
  app_paths := VList [VPath "/home/user/.local/pipx/venvs/foo-special/bin/foo"];
  apps_of_dependencies := VList [];
  app_paths_of_dependencies := VDict [];
  package_version := VStr "1.0";
  man_pages := VList [];
  man_paths := VList [];
  man_pages_of_dependencies := VList [];
  man_paths_of_dependencies := VDict [];
  suffix := VStr "";
  pinned := VBool false
|}.

(** A document with an encoded path and a repeated key. *)
Definition document : json :=
  JObj [ ("interpreter",
           JObj [("__type__", JStr "Path"); ("__Path__", JStr "/usr/bin/python3")]);
         ("level", JInt 1);
         ("level", JInt 2) ].

End Examples.

(** * Properties *)

Ltac unfold_method :=
  unfold mbind, mret, method_bind, method_ret, outcome_bind, outcome_ret,
    lift, raise, self, assign, logger, except_OSError in *.

(** ** Files *)

Ltac by_node w path :=
  destruct (fs w !! path) as [[|? [|] ?|[[? ?]|] ?]|].

Lemma with_open_w_raises (w : world) (path : string * string) (doc : json) (e : exn) :
  (with_open_w w path doc).1 = Raise e -> e = OSError.
Proof.
  unfold with_open_w. by_node w path; simpl; congruence.
Qed.

Lemma with_open_w_log (w : world) (path : string * string) (doc : json) :
  log (with_open_w w path doc).2 = log w.
Proof.
  unfold with_open_w. by_node w path; reflexivity.
Qed.

Lemma with_open_w_other (w : world) (path other : string * string) (doc : json) :
  other <> path -> fs (with_open_w w path doc).2 !! other = fs w !! other.
Proof.
  intros Hne. unfold with_open_w.
  by_node w path; cbn [fst snd fs]; try apply lookup_insert_ne; congruence.
Qed.

(** The block depends on the files only, and leaves the log alone. *)
Lemma with_open_w_logged (r : log_record) (w : world) (path : string * string)
    (doc : json) :
  with_open_w (logged r w) path doc
  = ((with_open_w w path doc).1, logged r (with_open_w w path doc).2).
Proof.
  unfold with_open_w, logged. cbn [fs log].
  by_node w path; reflexivity.
Qed.

(** Writing the same document once more ends as the first time and changes
    nothing: a file that was written can be written again, and a failure
    comes again and leaves the same text. *)
Lemma with_open_w_again (w : world) (path : string * string) (doc : json) :
  with_open_w (with_open_w w path doc).2 path doc = with_open_w w path doc.
Proof.
  unfold with_open_w at 2 3.
  destruct (fs w !! path) as [[|r [|] c|held whole]|] eqn:Hn; cbn [snd];
    unfold with_open_w; cbn [fs log];
    rewrite ?lookup_insert_eq, ?insert_insert_eq, ?Hn; reflexivity.
Qed.

Lemma open_w_with (w : world) (path : string * string) (doc : json) :
  with_open_w w path doc
  = match open_w w path doc with
    | Return w' => (Return tt, w')
    | Raise _ => (Raise OSError, (with_open_w w path doc).2)
    end.
Proof.
  unfold open_w, with_open_w. by_node w path; reflexivity.
Qed.

Lemma open_w_raises (w : world) (path : string * string) (doc : json) (e : exn) :
  open_w w path doc = Raise e -> e = OSError.
Proof.
  unfold open_w, with_open_w. by_node w path; congruence.
Qed.

Lemma open_rb_raises (w : world) (path : string * string) (e : exn) :
  open_rb w path = Raise e -> e = OSError \/ e = ValueError.
Proof.
  unfold open_rb.
  destruct (fs w !! path) as [[|[|] wr c|[[[|] [c|]]|] whole]|]; intros [=]; auto.
Qed.

Lemma open_w_log (w w' : world) (path : string * string) (doc : json) :
  open_w w path doc = Return w' -> log w' = log w.
Proof.
  unfold open_w, with_open_w.
  by_node w path; intros Hw; inversion Hw; reflexivity.
Qed.

Lemma open_w_content (w w' : world) (path : string * string) (doc : json) :
  open_w w path doc = Return w' ->
  exists r, fs w' !! path = Some (File r true doc).
Proof.
  unfold open_w, with_open_w.
  by_node w path; intros Hw; inversion Hw; simpl;
    eexists; apply lookup_insert_eq.
Qed.

(** A file that was written can be written again, and the second writing of
    the same document changes nothing. *)
Lemma open_w_again (w w' : world) (path : string * string) (doc : json) :
  open_w w path doc = Return w' -> open_w w' path doc = Return w'.
Proof.
  unfold open_w, with_open_w.
  by_node w path; intros Hw; inversion Hw; simpl;
    rewrite lookup_insert_eq, insert_insert_eq; reflexivity.
Qed.

Lemma available_open_w (w : world) (path : string * string) (doc : json) :
  available w path = true ->
  open_w w path doc
  = Return {| fs := <[path := File true true doc]> (fs w); log := log w |}.
Proof.
  unfold available, open_w, with_open_w.
  destruct (fs w !! path) as [[|[|] [|] c|held whole]|]; congruence.
Qed.

(** ** Strings *)

Lemma append_assoc (a b c : string) : (a +:+ b) +:+ c = a +:+ (b +:+ c).
Proof.
  induction a as [|x a IH]; [reflexivity|].
  change (String x ((a +:+ b) +:+ c) = String x (a +:+ (b +:+ c))).
  rewrite IH. reflexivity.
Qed.

Lemma append_nil_r (s : string) : s +:+ "" = s.
Proof.
  induction s as [|c s IH]; [reflexivity|].
  change (String c (s +:+ "") = String c s). rewrite IH. reflexivity.
Qed.

Lemma length_append (a b : string) :
  String.length (a +:+ b) = String.length a + String.length b.
Proof.
  induction a as [|x a IH]; [reflexivity|].
  change (S (String.length (a +:+ b)) = S (String.length a + String.length b)).
  rewrite IH. reflexivity.
Qed.

Lemma length_zero (s : string) : String.length s = 0 -> s = "".
Proof. destruct s; [reflexivity | discriminate]. Qed.

(** ** Dictionaries *)

Lemma forallb_elem_of {A : Type} (f : A -> bool) (l : list A) :
  forallb f l = true <-> forall x, x ∈ l -> f x = true.
Proof.
  rewrite forallb_forall. split; intros Hf x Hx; apply Hf, list_elem_of_In, Hx.
Qed.

Section DictLemmas.
Context {A : Type}.
Implicit Types (d : list (string * A)) (k : string) (v : A).

Lemma get_set_eq k v d : PyDict.get k (PyDict.set k v d) = Some v.
Proof.
  induction d as [|[k' v'] d IH]; simpl.
  - rewrite String.eqb_refl. reflexivity.
  - destruct (String.eqb k k') eqn:E; simpl; rewrite ?E, ?String.eqb_refl; auto.
Qed.

Lemma get_set_ne k k' v d :
  k <> k' -> PyDict.get k (PyDict.set k' v d) = PyDict.get k d.
Proof.
  intros Hne. apply String.eqb_neq in Hne.
  induction d as [|[k'' v''] d IH]; simpl.
  - rewrite Hne. reflexivity.
  - destruct (String.eqb k' k'') eqn:E; simpl.
    + apply String.eqb_eq in E. subst k''. rewrite Hne. reflexivity.
    + rewrite IH. reflexivity.
Qed.

Lemma get_None_not_in k d :
  PyDict.get k d = None <-> k ∉ PyDict.keys d.
Proof.
  induction d as [|[k' v'] d IH]; simpl.
  - split; [intros _; apply not_elem_of_nil | reflexivity].
  - rewrite not_elem_of_cons. destruct (String.eqb k k') eqn:E.
    + apply String.eqb_eq in E. split; [discriminate | intros [? _]; contradiction].
    + apply String.eqb_neq in E. rewrite IH. tauto.
Qed.

Lemma get_Some_in k v d : PyDict.get k d = Some v -> (k, v) ∈ d.
Proof.
  induction d as [|[k' v'] d IH]; simpl; [discriminate|].
  destruct (String.eqb k k') eqn:E.
  - apply String.eqb_eq in E. intros [= ->]. subst. apply list_elem_of_here.
  - intros Hg. apply list_elem_of_further, IH, Hg.
Qed.

Lemma in_get_Some k v d :
  NoDup (PyDict.keys d) -> (k, v) ∈ d -> PyDict.get k d = Some v.
Proof.
  induction d as [|[k' v'] d IH]; simpl; intros Hnd Hin.
  - apply elem_of_nil in Hin. contradiction.
  - apply NoDup_cons in Hnd as [Hk' Hnd].
    apply elem_of_cons in Hin as [[= -> ->]|Hin].
    + rewrite String.eqb_refl. reflexivity.
    + destruct (String.eqb k k') eqn:E; [|auto].
      apply String.eqb_eq in E. subst k'. exfalso. apply Hk'.
      change k with (k, v).1. apply list_elem_of_fmap_2, Hin.
Qed.

(** Under distinct keys a lookup does not depend on the order of the items. *)
Lemma get_Permutation k d d' :
  NoDup (PyDict.keys d) -> d ≡ₚ d' -> PyDict.get k d = PyDict.get k d'.
Proof.
  intros Hnd Hp.
  assert (Hnd' : NoDup (PyDict.keys d')).
  { unfold PyDict.keys in *. rewrite <- Hp. exact Hnd. }
  destruct (PyDict.get k d) as [v|] eqn:E.
  - symmetry. apply in_get_Some; [exact Hnd'|].
    rewrite <- Hp. apply get_Some_in, E.
  - symmetry. apply get_None_not_in. apply get_None_not_in in E.
    unfold PyDict.keys in *. rewrite <- Hp. exact E.
Qed.

Lemma set_fresh k v d :
  k ∉ PyDict.keys d -> PyDict.set k v d = d ++ [(k, v)].
Proof.
  induction d as [|[k' v'] d IH]; simpl; intros Hk; [reflexivity|].
  apply not_elem_of_cons in Hk as [Hne Hk].
  apply String.eqb_neq in Hne. rewrite Hne, (IH Hk). reflexivity.
Qed.

Lemma of_pairs_from (acc l : list (string * A)) :
  NoDup (PyDict.keys (acc ++ l)) ->
  fold_left (fun acc kv => PyDict.set kv.1 kv.2 acc) l acc = acc ++ l.
Proof.
  revert acc. induction l as [|[k v] l IH]; intros acc Hnd; simpl.
  - rewrite app_nil_r. reflexivity.
  - assert (Hk : k ∉ PyDict.keys acc).
    { unfold PyDict.keys in *. rewrite fmap_app in Hnd.
      apply NoDup_app in Hnd as (_ & Hdis & _).
      intros Hin. apply (Hdis k Hin). simpl. apply list_elem_of_here. }
    rewrite (set_fresh k v acc Hk).
    rewrite IH; rewrite <- app_assoc; [reflexivity | exact Hnd].
Qed.

(** A list of items with distinct keys is the dictionary made of it. *)
Lemma of_pairs_NoDup (l : list (string * A)) :
  NoDup (PyDict.keys l) -> PyDict.of_pairs l = l.
Proof. intros Hnd. unfold PyDict.of_pairs. apply (of_pairs_from [] l Hnd). Qed.

Lemma insert_item_Permutation (kv : string * A) d :
  PyDict.insert_item kv d ≡ₚ kv :: d.
Proof.
  induction d as [|kv' d IH]; simpl; [reflexivity|].
  destruct (String.leb kv.1 kv'.1); [reflexivity|].
  rewrite IH. apply Permutation_swap.
Qed.

Lemma sorted_items_Permutation d : PyDict.sorted_items d ≡ₚ d.
Proof.
  induction d as [|kv d IH]; simpl; [reflexivity|].
  rewrite insert_item_Permutation, IH. reflexivity.
Qed.

Lemma sorted_items_keys_NoDup d :
  NoDup (PyDict.keys d) -> NoDup (PyDict.keys (PyDict.sorted_items d)).
Proof.
  unfold PyDict.keys. rewrite (sorted_items_Permutation d). auto.
Qed.

Lemma get_sorted_items k d :
  NoDup (PyDict.keys d) ->
  PyDict.get k (PyDict.sorted_items d) = PyDict.get k d.
Proof.
  intros Hnd. symmetry. apply get_Permutation; [exact Hnd|].
  symmetry. apply sorted_items_Permutation.
Qed.

End DictLemmas.

(** Filing items one after the other under computed keys. *)
Section Filing.
Context {A B : Type} (f : B -> string) (g : B -> A).
Implicit Types (l : list B) (acc : list (string * A)).

Lemma mem_keys (k : string) acc : PyDict.mem k acc = true <-> k ∈ PyDict.keys acc.
Proof.
  unfold PyDict.mem. pose proof (get_None_not_in k acc) as Hn.
  destruct (PyDict.get k acc).
  - split; [intros _ | reflexivity].
    destruct (decide (k ∈ PyDict.keys acc)) as [Hin|Hnin]; [exact Hin|].
    apply Hn in Hnin. discriminate.
  - split; [discriminate|]. intros Hin. exfalso. apply (proj1 Hn); [reflexivity | exact Hin].
Qed.

Lemma set_length (k : string) (v : A) acc :
  length (PyDict.set k v acc)
  = if PyDict.mem k acc then length acc else S (length acc).
Proof.
  unfold PyDict.mem. induction acc as [|[k' v'] acc IH]; simpl; [reflexivity|].
  destruct (String.eqb k k'); simpl; [reflexivity|].
  rewrite IH. destruct (PyDict.get k acc); reflexivity.
Qed.

Lemma filing_length l acc :
  length (fold_left (fun acc b => PyDict.set (f b) (g b) acc) l acc)
  <= length acc + length l.
Proof.
  revert acc. induction l as [|b l IH]; intros acc; simpl; [lia|].
  specialize (IH (PyDict.set (f b) (g b) acc)). rewrite set_length in IH.
  destruct (PyDict.mem (f b) acc); lia.
Qed.

(** When no item was lost, every item was filed under a new key. *)
Lemma filing_full l acc :
  length (fold_left (fun acc b => PyDict.set (f b) (g b) acc) l acc)
  = length acc + length l ->
  fold_left (fun acc b => PyDict.set (f b) (g b) acc) l acc
  = acc ++ map (fun b => (f b, g b)) l.
Proof.
  revert acc. induction l as [|b l IH]; intros acc; simpl; intros Hlen.
  - rewrite app_nil_r. reflexivity.
  - pose proof (filing_length l (PyDict.set (f b) (g b) acc)) as Hle.
    pose proof (set_length (f b) (g b) acc) as Hset.
    destruct (PyDict.mem (f b) acc) eqn:Hmem; [lia|].
    assert (Hfresh : f b ∉ PyDict.keys acc).
    { intros Hin. apply mem_keys in Hin. congruence. }
    rewrite (set_fresh _ _ _ Hfresh) in *.
    rewrite IH by (rewrite length_app; simpl; lia).
    rewrite <- app_assoc. reflexivity.
Qed.

Lemma filing_fresh l acc :
  NoDup (PyDict.keys acc ++ map f l) ->
  fold_left (fun acc b => PyDict.set (f b) (g b) acc) l acc
  = acc ++ map (fun b => (f b, g b)) l.
Proof.
  revert acc. induction l as [|b l IH]; intros acc Hnd; simpl.
  - rewrite app_nil_r. reflexivity.
  - assert (Hfresh : f b ∉ PyDict.keys acc).
    { apply NoDup_app in Hnd as (_ & Hdis & _).
      intros Hin. apply (Hdis _ Hin). apply list_elem_of_here. }
    rewrite (set_fresh _ _ _ Hfresh).
    rewrite IH.
    + rewrite <- app_assoc. reflexivity.
    + unfold PyDict.keys in *. rewrite fmap_app, <- app_assoc. exact Hnd.
Qed.

End Filing.

Lemma sum_list_with_fmap {A B : Type} (h : A -> B) (f : B -> nat) (l : list A) :
  sum_list_with f (h <$> l) = sum_list_with (fun a => f (h a)) l.
Proof.
  induction l as [|a l IH]; [reflexivity|].
  change (f (h a) + sum_list_with f (h <$> l)
          = f (h a) + sum_list_with (fun a => f (h a)) l).
  rewrite IH. reflexivity.
Qed.

Lemma sum_list_with_equal {A : Type} (f g : A -> nat) (l : list A) :
  (forall a, f a = g a) -> sum_list_with f l = sum_list_with g l.
Proof.
  intros Hfg. induction l as [|a l IH]; [reflexivity|].
  change (f a + sum_list_with f l = g a + sum_list_with g l).
  rewrite IH, Hfg. reflexivity.
Qed.

Lemma sum_list_with_plus {A : Type} (f g : A -> nat) (l : list A) :
  sum_list_with (fun a => f a + g a) l = sum_list_with f l + sum_list_with g l.
Proof.
  induction l as [|a l IH]; [reflexivity|].
  change (f a + g a + sum_list_with (fun a => f a + g a) l
          = f a + sum_list_with f l + (g a + sum_list_with g l)).
  rewrite IH. lia.
Qed.

(** Sorting looks at the keys only. *)
Lemma sorted_items_map {A B : Type} (f : A -> B) (d : list (string * A)) :
  PyDict.sorted_items (map (fun kv => (kv.1, f kv.2)) d)
  = map (fun kv => (kv.1, f kv.2)) (PyDict.sorted_items d).
Proof.
  induction d as [|kv d IH]; simpl; [reflexivity|].
  rewrite IH. generalize (PyDict.sorted_items d). intros l.
  induction l as [|kv' l IHl]; simpl; [reflexivity|].
  destruct (String.leb kv.1 kv'.1); simpl; [reflexivity|].
  rewrite IHl. reflexivity.
Qed.

Lemma get_map {A B : Type} (f : A -> B) (k : string) (d : list (string * A)) :
  PyDict.get k (map (fun kv => (kv.1, f kv.2)) d) = f <$> PyDict.get k d.
Proof.
  induction d as [|[k' v] d IH]; simpl; [reflexivity|].
  destruct (String.eqb k k'); [reflexivity | exact IH].
Qed.

Lemma keys_map {A B : Type} (f : A -> B) (d : list (string * A)) :
  PyDict.keys (map (fun kv => (kv.1, f kv.2)) d) = PyDict.keys d.
Proof.
  unfold PyDict.keys. rewrite map_map. reflexivity.
Qed.

(** ** Sorted keys *)

Section SortedKeys.
Context {A : Type}.
Implicit Types (d : list (string * A)) (kv : string * A).

Let le (k k' : string) : Prop := String.leb k k' = true.

Lemma insert_item_HdRel (k : string) kv d :
  le k kv.1 -> HdRel le k (PyDict.keys d) ->
  HdRel le k (PyDict.keys (PyDict.insert_item kv d)).
Proof.
  intros Hk Hd. destruct d as [|kv' d]; simpl.
  - constructor. exact Hk.
  - destruct (String.leb kv.1 kv'.1); simpl; constructor.
    + exact Hk.
    + inversion Hd; assumption.
Qed.

Lemma insert_item_Sorted kv d :
  Sorted le (PyDict.keys d) -> Sorted le (PyDict.keys (PyDict.insert_item kv d)).
Proof.
  induction d as [|kv' d IH]; simpl; intros Hs.
  - repeat constructor.
  - destruct (String.leb kv.1 kv'.1) eqn:E; simpl.
    + constructor; [exact Hs | constructor; exact E].
    + inversion Hs as [|? ? Hs' Hhd]; subst.
      constructor; [apply IH, Hs'|].
      apply insert_item_HdRel; [|exact Hhd].
      destruct (String.leb_total kv'.1 kv.1) as [Hle|Hle]; [exact Hle|].
      congruence.
Qed.

Lemma sorted_items_Sorted d : Sorted le (PyDict.keys (PyDict.sorted_items d)).
Proof.
  induction d as [|kv d IH]; simpl; [constructor | apply insert_item_Sorted, IH].
Qed.

End SortedKeys.

Lemma keys_sorted_elements (l : list json) :
  (fix all (l : list json) : Prop :=
     match l with [] => True | j :: r => keys_sorted j /\ all r end) l
  <-> Forall keys_sorted l.
Proof.
  induction l as [|j l IH]; [split; [constructor | trivial]|].
  rewrite Forall_cons, IH. reflexivity.
Qed.

Lemma keys_sorted_members (m : list (string * json)) :
  (fix all (m : list (string * json)) : Prop :=
     match m with [] => True | kj :: r => keys_sorted kj.2 /\ all r end) m
  <-> Forall (fun kj => keys_sorted kj.2) m.
Proof.
  induction m as [|kj m IH]; [split; [constructor | trivial]|].
  rewrite Forall_cons, IH. reflexivity.
Qed.

(** [json.dump] with [sort_keys=True] writes every object in the order of
    its keys. *)
Lemma json_dump_keys_sorted (v : value) : keys_sorted (json_dump v).
Proof.
  induction v as [| | | |l IH|d IH|p] using value_ind; simpl; try exact I.
  - apply keys_sorted_elements. apply Forall_fmap.
    eapply Forall_impl; [exact IH | auto].
  - split; [apply sorted_items_Sorted|].
    apply keys_sorted_members.
    rewrite (sorted_items_Permutation _).
    apply Forall_fmap. eapply Forall_impl; [exact IH | auto].
  - split; [repeat constructor | auto].
Qed.

Section Properties.
Context `{Externals}.

(** ** Validation and writing *)

Lemma validate_condition (m : PipxMetadata) :
  is_None (package (main_package m))
  || is_None (package_or_url (main_package m))
  || negb (truthy (include_apps (main_package m)))
  = negb (main_package_valid m).
Proof.
  unfold main_package_valid.
  destruct (is_None (package (main_package m))),
    (is_None (package_or_url (main_package m))),
    (truthy (include_apps (main_package m))); reflexivity.
Qed.

Lemma main_package_valid_iff (m : PipxMetadata) :
  main_package_valid m = false <->
  package (main_package m) = VNone
  \/ package_or_url (main_package m) = VNone
  \/ truthy (include_apps (main_package m)) = false.
Proof.
  unfold main_package_valid.
  destruct (package (main_package m)), (package_or_url (main_package m)),
    (truthy (include_apps (main_package m))); simpl; split;
    solve [ auto | intros [?|[?|?]]; congruence | congruence ].
Qed.

Lemma validate_invalid (m : PipxMetadata) (w : world) :
  main_package_valid m = false ->
  _validate_before_write (m, w)
  = (Raise (PipxError corrupt_message), (m, logged (corrupt_record m) w)).
Proof.
  intros Hv. unfold _validate_before_write. unfold_method. simpl.
  rewrite validate_condition, Hv. reflexivity.
Qed.

Lemma validate_valid (m : PipxMetadata) (w : world) :
  main_package_valid m = true ->
  _validate_before_write (m, w) = (Return tt, (m, w)).
Proof.
  intros Hv. unfold _validate_before_write. unfold_method. simpl.
  rewrite validate_condition, Hv. reflexivity.
Qed.

Lemma write_invalid (m : PipxMetadata) (w : world) :
  main_package_valid m = false ->
  write (m, w)
  = (Raise (PipxError corrupt_message), (m, logged (corrupt_record m) w)).
Proof.
  intros Hv. unfold write. unfold_method.
  rewrite (validate_invalid m w Hv). reflexivity.
Qed.

Lemma write_valid (m : PipxMetadata) (w : world) :
  main_package_valid m = true ->
  write (m, w)
  = match with_open_w w (venv_dir m, PIPX_INFO_FILENAME) (json_dump (to_dict m)) with
    | (Return _, w') => (Return tt, (m, w'))
    | (Raise _, w') => (Return tt, (m, logged (write_warning m) w'))
    end.
Proof.
  intros Hv. unfold write. unfold_method.
  rewrite (validate_valid m w Hv). unfold dump_to. simpl.
  destruct (with_open_w w _ _) as [[[]|e] w'] eqn:Hopen; [reflexivity|].
  apply (f_equal fst) in Hopen. apply with_open_w_raises in Hopen.
  subst e. reflexivity.
Qed.

(** The same, by the world that a block that goes through leaves. *)
Lemma write_valid_open_w (m : PipxMetadata) (w : world) :
  main_package_valid m = true ->
  write (m, w)
  = match open_w w (venv_dir m, PIPX_INFO_FILENAME) (json_dump (to_dict m)) with
    | Return w' => (Return tt, (m, w'))
    | Raise _ =>
        (Return tt,
         (m, logged (write_warning m)
               (with_open_w w (venv_dir m, PIPX_INFO_FILENAME)
                  (json_dump (to_dict m))).2))
    end.
Proof.
  intros Hv. rewrite (write_valid m w Hv).
  rewrite open_w_with at 1.
  destruct (open_w w _ _); reflexivity.
Qed.

(** ** C5, C6, C9, C10: the gate before writing, and writing *)

(** C5. [write] raises the internal error "PipxMetadata is corrupt" exactly
    when the package of the main package is [None], or its package_or_url is
    [None], or its include_apps is false ([not include_apps] in the source:
    for the Boolean that the field holds, [truthy] is its value).  When
    [write] raises, the error is that one, the files are as they were and so
    is the store: the test comes before any file is opened. *)
Theorem write_validation_gate (m : PipxMetadata) (w : world) :
  ((write (m, w)).1 = Raise (PipxError corrupt_message) <->
   package (main_package m) = VNone
   \/ package_or_url (main_package m) = VNone
   \/ truthy (include_apps (main_package m)) = false)
  /\ (forall e : exn,
        (write (m, w)).1 = Raise e ->
        e = PipxError corrupt_message
        /\ fs (write (m, w)).2.2 = fs w
        /\ (write (m, w)).2.1 = m).
Proof.
  rewrite <- main_package_valid_iff.
  destruct (main_package_valid m) eqn:Hv.
  - rewrite (write_valid m w Hv).
    destruct (with_open_w w _ _) as [[[]|e'] w']; simpl; split;
      first [ split; discriminate | intros e He; discriminate ].
  - rewrite (write_invalid m w Hv). simpl. split.
    + split; reflexivity.
    + intros e He. inversion He. auto.
Qed.



(** C10. Only the main package is tested: when it passes, the gate lets the
    store through and [write] does not raise, whatever the injected packages
    are; and the outcome of the gate is the same for any other injected
    packages. *)
Theorem validation_ignores_injected (m : PipxMetadata) (w : world) :
  main_package_valid m = true ->
  _validate_before_write (m, w) = (Return tt, (m, w))
  /\ (write (m, w)).1 = Return tt
  /\ forall injected : list (string * PackageInfo),
       (_validate_before_write (set_injected_packages injected m, w)).1 = Return tt
       /\ (write (set_injected_packages injected m, w)).1 = Return tt.
Proof.
  intros Hv.
  assert (Hany : forall m', main_package_valid m' = true ->
                   (write (m', w)).1 = Return tt).
  { intros m' Hv'. rewrite (write_valid m' w Hv').
    destruct (with_open_w w _ _) as [[[]|e'] w']; reflexivity. }
  split; [apply validate_valid; exact Hv|].
  split; [apply Hany; exact Hv|].
  intros injected.
  assert (Hv' : main_package_valid (set_injected_packages injected m) = true)
    by exact Hv.
  split; [rewrite (validate_valid _ w Hv'); reflexivity | apply Hany; exact Hv'].
Qed.

(** ** C3, C8: reading when the file cannot be opened *)

Lemma read_unavailable (verbose : bool) (m : PipxMetadata) (w : world) :
  open_rb w (venv_dir m, PIPX_INFO_FILENAME) = Raise OSError ->
  read verbose (m, w)
  = (Return tt, (m, if verbose then logged (read_warning m) w else w)).
Proof.
  intros Hopen. unfold read, load_from. unfold_method. simpl.
  rewrite Hopen. destruct verbose; reflexivity.
Qed.

(** C8. A store made for a directory whose metadata file cannot be opened
    (it is missing, for one) is made without an error and holds the values
    that [__init__] assigns. *)
Theorem init_without_file (dir : string) (w : world) :
  open_rb w (dir, PIPX_INFO_FILENAME) = Raise OSError ->
  exists m : PipxMetadata,
    __init__ dir true w = (Return m, w)
    /\ m = init_fields dir
    /\ venv_dir m = dir
    /\ package (main_package m) = VNone
    /\ package_or_url (main_package m) = VNone
    /\ include_apps (main_package m) = VBool true
    /\ package_version (main_package m) = VStr ""
    /\ pip_args (main_package m) = VList []
    /\ include_dependencies (main_package m) = VBool false
    /\ apps (main_package m) = VList []
    /\ app_paths (main_package m) = VList []
    /\ apps_of_dependencies (main_package m) = VList []
    /\ app_paths_of_dependencies (main_package m) = VDict []
    /\ man_pages (main_package m) = VList []
    /\ man_paths (main_package m) = VList []
    /\ man_pages_of_dependencies (main_package m) = VList []
    /\ man_paths_of_dependencies (main_package m) = VDict []
    /\ suffix (main_package m) = VStr ""
    /\ pinned (main_package m) = VBool false
    /\ python_version m = VNone
    /\ source_interpreter m = VNone
    /\ venv_args m = VList []
    /\ injected_packages m = [].
Proof.
  intros Hopen. exists (init_fields dir).
  unfold __init__.
  rewrite (read_unavailable false (init_fields dir) w Hopen).
  repeat split.
Qed.

(** ** C2, C4, C7: stored versions *)

Lemma convert_state (d : value) (st : PipxMetadata * world) :
  (_convert_legacy_metadata d st).2 = st.
Proof. destruct st. reflexivity. Qed.

(** What [from_dict] assigns when it returns, and that it returns when every
    step does. *)
Lemma from_dict_returns (d : value) (m : PipxMetadata) (w : world)
    (st : PipxMetadata * world) :
  from_dict d (m, w) = (Return tt, st) <->
  exists (d' : value) (p : PackageInfo) (pv si va : value)
         (inj : list (string * PackageInfo)),
    (_convert_legacy_metadata d (m, w)).1 = Return d'
    /\ (subscript d' "main_package" ≫= PackageInfo_new) = Return p
    /\ subscript d' "python_version" = Return pv
    /\ (c ← get_method d' "source_interpreter" VNone;
        if truthy c then subscript d' "source_interpreter" ≫= Path
        else Return VNone) = Return si
    /\ subscript d' "venv_args" = Return va
    /\ (items ← subscript d' "injected_packages" ≫= items_method;
        injected_comprehension items []) = Return inj
    /\ st = ({| venv_dir := venv_dir m; main_package := p;
                python_version := pv; source_interpreter := si;
                venv_args := va; injected_packages := inj |}, w).
Proof.
  unfold from_dict.
  unfold mbind at 1. unfold method_bind.
  pose proof (convert_state d (m, w)) as Hst.
  destruct (_convert_legacy_metadata d (m, w)) as [[d'|e] st0]; simpl in Hst;
    subst st0; simpl.
  2: { split; [discriminate | intros (? & ? & ? & ? & ? & ? & [=] & _)]. }
  unfold_method. simpl.
  repeat match goal with
         | |- context [match ?x with Return _ => _ | Raise _ => _ end] =>
             let E := fresh "E" in
             destruct x eqn:E;
             [| split;
                [ discriminate
                | intros (? & ? & ? & ? & ? & ? & Hc & H1 & H2 & H3 & H4 & H5 & _);
                  injection Hc as <-; congruence ] ]
         end.
  split.
  - intros [= <-]. do 6 eexists. repeat split; eassumption.
  - intros (d0 & p0 & pv0 & si0 & va0 & inj0 & [= <-] & H1 & H2 & H3 & H4 & H5 & ->).
    unfold set_injected_packages, set_venv_args, set_source_interpreter,
      set_python_version, set_main_package. simpl.
    congruence.
Qed.

(** The main package is assigned first: it is there whatever a later step
    does. *)
Lemma from_dict_main_package (d d' : value) (m : PipxMetadata) (w : world)
    (p : PackageInfo) :
  (_convert_legacy_metadata d (m, w)).1 = Return d' ->
  (subscript d' "main_package" ≫= PackageInfo_new) = Return p ->
  main_package (from_dict d (m, w)).2.1 = p.
Proof.
  intros Hc Hp. unfold from_dict.
  unfold mbind at 1. unfold method_bind.
  pose proof (convert_state d (m, w)) as Hst.
  destruct (_convert_legacy_metadata d (m, w)) as [[d0|e] st0]; simpl in Hst, Hc;
    subst st0; [|discriminate].
  injection Hc as ->.
  unfold_method. simpl. unfold mbind, outcome_bind in Hp. rewrite Hp.
  repeat match goal with
         | |- context [match ?x with Return _ => _ | Raise _ => _ end] =>
             destruct x; simpl
         end; reflexivity.
Qed.

Lemma refused_eq_str (version : string) :
  refused version = true ->
  PyStr.contains version __METADATA_VERSION__ = false
  /\ eq_str (VStr version) "0.4" = false
  /\ eq_str (VStr version) "0.3" = false
  /\ eq_str (VStr version) "0.2" = false
  /\ eq_str (VStr version) "0.1" = false.
Proof.
  unfold refused. intros Hr.
  apply andb_true_iff in Hr as [Hc Hn].
  apply negb_true_iff in Hc. apply negb_true_iff in Hn.
  apply bool_decide_eq_false in Hn.
  split; [exact Hc|].
  simpl. repeat split; apply String.eqb_neq; intros ->; apply Hn;
    repeat first [apply list_elem_of_here | apply list_elem_of_further].
Qed.

Lemma convert_refused (md : list (string * value)) (version : string)
    (m : PipxMetadata) (w : world) :
  PyDict.get "pipx_metadata_version" md = Some (VStr version) ->
  refused version = true ->
  _convert_legacy_metadata (VDict md) (m, w)
  = (Raise (PipxError (unknown_version_message (Path_name (venv_dir m)) version)),
     (m, w)).
Proof.
  intros Hv Hr. apply refused_eq_str in Hr as (Hc & H4 & H3 & H2 & H1).
  unfold _convert_legacy_metadata. unfold_method. unfold subscript.
  rewrite Hv. unfold str_in. rewrite Hc, H4, H3, H2, H1. reflexivity.
Qed.

(** For such a version [from_dict] raises the error that names the
    environment and the version, and assigns nothing. *)
Lemma from_dict_refused (md : list (string * value)) (version : string)
    (m : PipxMetadata) (w : world) :
  PyDict.get "pipx_metadata_version" md = Some (VStr version) ->
  refused version = true ->
  from_dict (VDict md) (m, w)
  = (Raise (PipxError (unknown_version_message (Path_name (venv_dir m)) version)),
     (m, w)).
Proof.
  intros Hv Hr. unfold from_dict.
  unfold mbind at 1. unfold method_bind.
  rewrite (convert_refused md version m w Hv Hr). reflexivity.
Qed.

(** So does [read] of a file that holds such a record. *)
Lemma read_refused (doc : json) (md : list (string * value)) (version : string)
    (verbose : bool) (m : PipxMetadata) (w : world) :
  open_rb w (venv_dir m, PIPX_INFO_FILENAME) = Return doc ->
  json_load doc = Return (VDict md) ->
  PyDict.get "pipx_metadata_version" md = Some (VStr version) ->
  refused version = true ->
  read verbose (m, w)
  = (Raise (PipxError (unknown_version_message (Path_name (venv_dir m)) version)),
     (m, w)).
Proof.
  intros Ho Hl Hv Hr. unfold read, load_from.
  unfold mbind at 1. unfold method_bind. unfold self at 1. simpl.
  unfold except_OSError. unfold mbind at 1. unfold method_bind. simpl.
  rewrite Ho, Hl. rewrite (from_dict_refused md version m w Hv Hr). reflexivity.
Qed.

Lemma unknown_version_message_names (name version : string) :
  exists a b c : string,
    unknown_version_message name version = a +:+ name +:+ b +:+ version +:+ c.
Proof.
  unfold unknown_version_message.
  eexists (PyStr.nl +:+ PyStr.spaces 16),
    (": Unknown metadata version" +:+ PyStr.nl +:+ PyStr.spaces 16), _.
  rewrite !append_assoc. reflexivity.
Qed.

Lemma PackageInfo_new_defaults (d : list (string * value)) (p : PackageInfo) :
  PackageInfo_new (VDict d) = Return p ->
  suffix p = default (VStr "") (PyDict.get "suffix" d)
  /\ pinned p = default (VBool false) (PyDict.get "pinned" d).
Proof.
  unfold PackageInfo_new, required. unfold mbind, outcome_bind.
  destruct (forallb _ _); [|discriminate].
  repeat match goal with
         | |- context [match PyDict.get ?k d with Some _ => _ | None => _ end] =>
             destruct (PyDict.get k d)
         end; try discriminate.
  all: intros [= <-]; split; reflexivity.
Qed.

(** C7. For a stored record of version 0.4 whose main package has no key
    [pinned], the conversion returns; the instance made of the main package,
    when its keys allow to make one, has [pinned] false and is what
    [from_dict] assigns; and whenever [from_dict] returns, the main package
    of the store has [pinned] false. *)
Theorem legacy_0_4_pinned (m : PipxMetadata) (w : world)
    (md mp : list (string * value)) :
  PyDict.get "pipx_metadata_version" md = Some (VStr "0.4") ->
  PyDict.get "main_package" md = Some (VDict mp) ->
  PyDict.get "pinned" mp = None ->
  _convert_legacy_metadata (VDict md) (m, w)
  = (Return (VDict (PyDict.set "pinned" (VBool false) md)), (m, w))
  /\ (forall p : PackageInfo,
        PackageInfo_new (VDict mp) = Return p ->
        pinned p = VBool false
        /\ main_package (from_dict (VDict md) (m, w)).2.1 = p)
  /\ (forall st : PipxMetadata * world,
        from_dict (VDict md) (m, w) = (Return tt, st) ->
        pinned (main_package st.1) = VBool false).
Proof.
  intros Hv Hmp Hpin.
  assert (Hc : _convert_legacy_metadata (VDict md) (m, w)
               = (Return (VDict (PyDict.set "pinned" (VBool false) md)), (m, w))).
  { unfold _convert_legacy_metadata. unfold_method. unfold subscript.
    rewrite Hv. reflexivity. }
  assert (Hmp' : subscript (VDict (PyDict.set "pinned" (VBool false) md)) "main_package"
                 = Return (VDict mp)).
  { unfold subscript. rewrite get_set_ne by discriminate. rewrite Hmp. reflexivity. }
  assert (Hp : forall p, PackageInfo_new (VDict mp) = Return p -> pinned p = VBool false).
  { intros p Hnew. apply PackageInfo_new_defaults in Hnew as [_ ->].
    rewrite Hpin. reflexivity. }
  split; [exact Hc|]. split.
  - intros p Hnew. split; [apply Hp, Hnew|].
    apply (from_dict_main_package _ (VDict (PyDict.set "pinned" (VBool false) md))).
    + rewrite Hc. reflexivity.
    + unfold mbind, outcome_bind. rewrite Hmp'. exact Hnew.
  - intros st Hst.
    apply from_dict_returns in Hst
      as (d' & p & pv & si & va & inj & Hd' & Hnew & _ & _ & _ & _ & ->).
    rewrite Hc in Hd'. injection Hd' as <-.
    unfold mbind, outcome_bind in Hnew. rewrite Hmp' in Hnew.
    simpl. apply Hp, Hnew.
Qed.

(** C4. For a stored record of version 0.1 whose main package has a package
    name other than the name of the environment directory, the conversion
    returns a record in which the suffix of the main package is the
    directory name with every occurrence of the package name taken out
    ([str.replace]) and in which source_interpreter is [None]; for the
    package foo in a directory named foo-special that suffix is -special.
    The instance made of the converted main package has that suffix and is
    what [from_dict] assigns; whenever [from_dict] returns, the store has
    that suffix and no source interpreter. *)
Theorem legacy_0_1_suffix (m : PipxMetadata) (w : world)
    (md mp : list (string * value)) (pkg : string) :
  PyDict.get "pipx_metadata_version" md = Some (VStr "0.1") ->
  PyDict.get "main_package" md = Some (VDict mp) ->
  PyDict.get "package" mp = Some (VStr pkg) ->
  pkg <> Path_name (venv_dir m) ->
  let sfx := PyStr.replace (Path_name (venv_dir m)) pkg "" in
  (exists md' mp' : list (string * value),
     _convert_legacy_metadata (VDict md) (m, w) = (Return (VDict md'), (m, w))
     /\ PyDict.get "main_package" md' = Some (VDict mp')
     /\ PyDict.get "suffix" mp' = Some (VStr sfx)
     /\ PyDict.get "source_interpreter" md' = Some VNone
     /\ forall p : PackageInfo,
          PackageInfo_new (VDict mp') = Return p ->
          suffix p = VStr sfx
          /\ main_package (from_dict (VDict md) (m, w)).2.1 = p)
  /\ (forall st : PipxMetadata * world,
        from_dict (VDict md) (m, w) = (Return tt, st) ->
        suffix (main_package st.1) = VStr sfx
        /\ source_interpreter st.1 = VNone)
  /\ (pkg = "foo" -> Path_name (venv_dir m) = "foo-special" -> sfx = "-special").
Proof.
  intros Hv Hmp Hpkg Hne sfx.
  set (mp' := PyDict.set "suffix" (VStr sfx) mp).
  set (md' := PyDict.set "source_interpreter" VNone
                (PyDict.set "main_package" (VDict mp') md)).
  assert (Hc : _convert_legacy_metadata (VDict md) (m, w)
               = (Return (VDict md'), (m, w))).
  { unfold _convert_legacy_metadata. unfold_method. unfold subscript.
    rewrite Hv, Hmp, Hpkg.
    change (str_in (VStr "0.1") __METADATA_VERSION__) with (@Return bool false).
    change (eq_str (VStr "0.1") "0.4") with false.
    change (eq_str (VStr "0.1") "0.2" || eq_str (VStr "0.1") "0.3") with false.
    change (eq_str (VStr "0.1") "0.1") with true.
    cbn [fst snd].
    assert (Hneq : eq_str (VStr pkg) (Path_name (venv_dir m)) = false)
      by (apply String.eqb_neq; exact Hne).
    rewrite Hneq. reflexivity. }
  assert (Hmp' : PyDict.get "main_package" md' = Some (VDict mp')).
  { unfold md'. rewrite get_set_ne by discriminate. apply get_set_eq. }
  assert (Hsfx : PyDict.get "suffix" mp' = Some (VStr sfx)) by apply get_set_eq.
  assert (Hsi : PyDict.get "source_interpreter" md' = Some VNone) by apply get_set_eq.
  assert (Hp : forall p, PackageInfo_new (VDict mp') = Return p -> suffix p = VStr sfx).
  { intros p Hnew. apply PackageInfo_new_defaults in Hnew as [-> _].
    rewrite Hsfx. reflexivity. }
  split; [|split].
  - exists md', mp'. repeat split; try assumption.
    + apply Hp. assumption.
    + apply (from_dict_main_package _ (VDict md')).
      * rewrite Hc. reflexivity.
      * unfold mbind, outcome_bind, subscript. rewrite Hmp'. assumption.
  - intros st Hst.
    apply from_dict_returns in Hst
      as (d' & p & pv & si & va & inj & Hd' & Hnew & _ & Hsi' & _ & _ & ->).
    rewrite Hc in Hd'. injection Hd' as <-.
    unfold mbind, outcome_bind, subscript, get_method in Hnew, Hsi'.
    rewrite Hmp' in Hnew. rewrite Hsi in Hsi'. simpl in Hsi'.
    simpl. split; [apply Hp, Hnew | congruence].
  - intros -> Hname. unfold sfx. rewrite Hname. reflexivity.
Qed.

(** C9. For a store that passes the gate, two calls of [write] in a row both
    return, leave the store as it is, and the second leaves the files as the
    first left them; when the file can be opened and written, it holds after
    the first call and after the second the same document, the dump of
    [to_dict], whatever it held before, and that document has the keys of
    every object in ascending order. *)
Theorem write_twice_same_content (m : PipxMetadata) (w : world) :
  main_package_valid m = true ->
  let path := (venv_dir m, PIPX_INFO_FILENAME) in
  let doc := json_dump (to_dict m) in
  let st1 := (write (m, w)).2 in
  let st2 := (write st1).2 in
  (write (m, w)).1 = Return tt /\ st1.1 = m
  /\ (write st1).1 = Return tt /\ st2.1 = m
  /\ fs st2.2 = fs st1.2
  /\ (forall w' : world,
        open_w w path doc = Return w' ->
        exists r : bool,
          fs st1.2 !! path = Some (File r true doc)
          /\ fs st2.2 !! path = Some (File r true doc))
  /\ keys_sorted doc.
Proof.
  intros Hv path doc st1 st2. subst st2 st1.
  rewrite (write_valid_open_w m w Hv). fold path doc.
  destruct (open_w w path doc) as [w1|e] eqn:Hopen; cbn [fst snd].
  - rewrite (write_valid_open_w m w1 Hv). fold path doc.
    rewrite (open_w_again w w1 path doc Hopen). cbn [fst snd].
    do 5 (split; [reflexivity|]). split; [|apply json_dump_keys_sorted].
    intros w' [= <-].
    destruct (open_w_content w w1 path doc Hopen) as [r Hr]. eauto.
  - rewrite (write_valid m _ Hv). fold path doc.
    assert (Hfail : (with_open_w w path doc).1 = Raise OSError)
      by (rewrite open_w_with, Hopen; reflexivity).
    rewrite with_open_w_logged, with_open_w_again, Hfail. cbn [fst snd].
    do 5 (split; [reflexivity|]). split; [|apply json_dump_keys_sorted].
    intros w' [=].
Qed.

(** ** C1: the way through the file and back *)

Lemma eq_str_sorted_copy (v : value) (s : string) :
  eq_str (sorted_copy v) s = eq_str v s.
Proof. destruct v; reflexivity. Qed.

Lemma tagged_sorted_copy (d : list (string * value)) :
  NoDup (PyDict.keys d) ->
  tagged (map (fun kv => (kv.1, sorted_copy kv.2)) (PyDict.sorted_items d))
  = tagged d.
Proof.
  intros Hnd. unfold tagged, PyDict.mem.
  rewrite !get_map, !(get_sorted_items _ d Hnd).
  destruct (PyDict.get "__type__" d) as [v|], (PyDict.get "__Path__" d) as [v'|];
    simpl; rewrite ?eq_str_sorted_copy; reflexivity.
Qed.

Lemma json_load_elements (l : list value) :
  Forall (fun v => json_load (json_dump v) = Return (sorted_copy v)) l ->
  (fix elements (l : list json) : outcome (list value) :=
     match l with
     | [] => Return []
     | j :: r => v ← json_load j; vs ← elements r; Return (v :: vs)
     end) (map json_dump l)
  = Return (map sorted_copy l).
Proof.
  induction 1 as [|v l Hv _ IH]; [reflexivity|].
  cbn [map]. rewrite Hv. unfold mbind, outcome_bind in *. rewrite IH. reflexivity.
Qed.

Lemma json_load_members (d : list (string * value)) :
  Forall (fun kv => json_load (json_dump kv.2) = Return (sorted_copy kv.2)) d ->
  (fix members (m : list (string * json)) : outcome (list (string * value)) :=
     match m with
     | [] => Return []
     | (k, j) :: r => v ← json_load j; kvs ← members r; Return ((k, v) :: kvs)
     end) (map (fun kv => (kv.1, json_dump kv.2)) d)
  = Return (map (fun kv => (kv.1, sorted_copy kv.2)) d).
Proof.
  induction 1 as [|[k v] d Hv _ IH]; [reflexivity|].
  cbn [map fst snd] in *. rewrite Hv. unfold mbind, outcome_bind in *.
  rewrite IH. reflexivity.
Qed.

(** What was dumped is loaded as its sorted copy. *)
Lemma json_load_dump (v : value) :
  storable v = true -> json_load (json_dump v) = Return (sorted_copy v).
Proof.
  induction v as [| | | |l IH|d IH|p] using value_ind; try reflexivity.
  - intros Hs. cbn [storable] in Hs.
    cbn [json_dump json_load sorted_copy].
    rewrite json_load_elements; [reflexivity|].
    rewrite forallb_elem_of in Hs.
    rewrite Forall_forall in IH |- *.
    intros x Hx. apply IH; [exact Hx|]. apply Hs, Hx.
  - intros Hs. cbn [storable] in Hs.
    apply andb_true_iff in Hs as [Hs Hall].
    apply andb_true_iff in Hs as [Hnd Htag].
    apply bool_decide_eq_true in Hnd. apply negb_true_iff in Htag.
    cbn [json_dump json_load sorted_copy].
    rewrite !sorted_items_map.
    rewrite json_load_members.
    + unfold mbind, outcome_bind.
      rewrite of_pairs_NoDup.
      2: { rewrite keys_map. apply sorted_items_keys_NoDup, Hnd. }
      unfold _json_decoder_object_hook.
      fold (tagged (map (fun kv => (kv.1, sorted_copy kv.2)) (PyDict.sorted_items d))).
      rewrite (tagged_sorted_copy d Hnd), Htag. reflexivity.
    + rewrite (sorted_items_Permutation d).
      rewrite forallb_elem_of in Hall.
      rewrite Forall_forall in IH |- *.
      intros x Hx. apply IH; [exact Hx|]. apply (Hall x Hx).
  - intros Hs. cbn [storable is_path] in Hs. apply String.eqb_eq in Hs.
    transitivity (Return (VPath (Path_str p))); [reflexivity|].
    rewrite Hs. reflexivity.
Qed.

Lemma value_eqb_elements (l : list value) :
  Forall (fun v => value_eqb v (sorted_copy v) = true) l ->
  (fix all2 (l l' : list value) : bool :=
     match l, l' with
     | [], [] => true
     | x :: r, y :: r' => value_eqb x y && all2 r r'
     | _, _ => false
     end) l (map sorted_copy l) = true.
Proof.
  induction 1 as [|v l Hv _ IH]; [reflexivity|].
  cbn [map]. rewrite Hv, IH. reflexivity.
Qed.

Lemma value_eqb_items (d' d0 : list (string * value)) :
  Forall (fun kv => PyDict.get kv.1 d' = Some (sorted_copy kv.2)
                    /\ value_eqb kv.2 (sorted_copy kv.2) = true) d0 ->
  (fix each (d : list (string * value)) : bool :=
     match d with
     | [] => true
     | (k, v) :: r =>
         match PyDict.get k d' with
         | Some v' => value_eqb v v'
         | None => false
         end && each r
     end) d0 = true.
Proof.
  induction 1 as [|[k v] d [Hg Hv] _ IH]; [reflexivity|].
  cbn [fst snd] in *. rewrite Hg, Hv, IH. reflexivity.
Qed.

(** A value is equal to its sorted copy. *)
Lemma value_eqb_sorted_copy (v : value) :
  storable v = true -> value_eqb v (sorted_copy v) = true.
Proof.
  induction v as [|b|n|s|l IH|d IH|p] using value_ind; intros Hs.
  - reflexivity.
  - destruct b; reflexivity.
  - apply Z.eqb_refl.
  - apply String.eqb_refl.
  - cbn [storable] in Hs. cbn [sorted_copy value_eqb].
    apply value_eqb_elements.
    rewrite forallb_elem_of in Hs.
    rewrite Forall_forall in IH |- *.
    intros x Hx. apply IH; [exact Hx|]. apply Hs, Hx.
  - cbn [storable] in Hs.
    apply andb_true_iff in Hs as [Hs Hall].
    apply andb_true_iff in Hs as [Hnd _].
    apply bool_decide_eq_true in Hnd.
    cbn [sorted_copy value_eqb].
    apply andb_true_iff. split.
    + apply Nat.eqb_eq.
      rewrite (sorted_items_Permutation _), length_map. reflexivity.
    + apply value_eqb_items.
      rewrite forallb_elem_of in Hall.
      rewrite Forall_forall in IH |- *.
      intros [k v] Hx. cbn [fst snd]. split.
      * rewrite get_sorted_items by (rewrite keys_map; exact Hnd).
        rewrite get_map, (in_get_Some k v d Hnd Hx). reflexivity.
      * apply (IH (k, v) Hx). apply (Hall (k, v) Hx).
  - apply String.eqb_refl.
Qed.

(** *** Typed values are storable, and typed after the copy *)

Lemma is_str_storable (v : value) : is_str v = true -> storable v = true.
Proof. destruct v; simpl; congruence. Qed.

Lemma is_bool_storable (v : value) : is_bool v = true -> storable v = true.
Proof. destruct v; simpl; congruence. Qed.

Lemma is_path_storable (v : value) : is_path v = true -> storable v = true.
Proof. destruct v; simpl; congruence. Qed.

Lemma is_optional_storable (T : value -> bool) (v : value) :
  (forall x, T x = true -> storable x = true) ->
  is_optional T v = true -> storable v = true.
Proof.
  intros HT. unfold is_optional. destruct (is_None v) eqn:E.
  - destruct v; try discriminate. reflexivity.
  - simpl. apply HT.
Qed.

Lemma is_list_of_storable (T : value -> bool) (v : value) :
  (forall x, T x = true -> storable x = true) ->
  is_list_of T v = true -> storable v = true.
Proof.
  intros HT. destruct v as [| | | |l| |]; simpl; try discriminate.
  rewrite !forallb_elem_of. intros Hl x Hx. apply HT, Hl, Hx.
Qed.

Lemma is_dict_of_lists_storable (T : value -> bool) (v : value) :
  (forall x, T x = true -> storable x = true) ->
  is_dict_of (is_list_of T) v = true -> storable v = true.
Proof.
  intros HT. destruct v as [| | | | |d|]; simpl; try discriminate.
  intros Hd. apply andb_true_iff in Hd as [Hnd Hall].
  rewrite Hnd. simpl.
  assert (Htag : tagged d = false).
  { unfold tagged. destruct (PyDict.get "__type__" d) as [x|] eqn:E; [|reflexivity].
    apply get_Some_in in E. rewrite forallb_elem_of in Hall.
    specialize (Hall _ E). simpl in Hall. destruct x; try discriminate. reflexivity. }
  rewrite Htag. simpl.
  rewrite forallb_elem_of in Hall |- *.
  intros x Hx. apply (is_list_of_storable T); [exact HT | apply Hall, Hx].
Qed.

Lemma sorted_copy_list (T : value -> bool) (v : value) :
  (forall x, T x = true -> sorted_copy x = x) ->
  is_list_of T v = true -> sorted_copy v = v.
Proof.
  intros HT. destruct v as [| | | |l| |]; simpl; try discriminate.
  rewrite forallb_elem_of. intros Hl. f_equal.
  induction l as [|x l IH]; [reflexivity|]. simpl. f_equal.
  - apply HT, Hl, list_elem_of_here.
  - apply IH. intros y Hy. apply Hl, list_elem_of_further, Hy.
Qed.

Lemma sorted_copy_str (v : value) : is_str v = true -> sorted_copy v = v.
Proof. destruct v; simpl; congruence. Qed.

Lemma sorted_copy_path (v : value) : is_path v = true -> sorted_copy v = v.
Proof. destruct v; simpl; congruence. Qed.

Lemma sorted_copy_bool (v : value) : is_bool v = true -> sorted_copy v = v.
Proof. destruct v; simpl; congruence. Qed.

Lemma sorted_copy_optional (T : value -> bool) (v : value) :
  (forall x, T x = true -> sorted_copy x = x) ->
  is_optional T v = true -> sorted_copy v = v.
Proof.
  intros HT. unfold is_optional. destruct (is_None v) eqn:E.
  - destruct v; try discriminate. reflexivity.
  - simpl. apply HT.
Qed.

Lemma sorted_copy_dict_typed (T : value -> bool) (v : value) :
  (forall x, T x = true -> sorted_copy x = x) ->
  is_dict_of T v = true -> is_dict_of T (sorted_copy v) = true.
Proof.
  intros HT. destruct v as [| | | | |d|]; simpl; try discriminate.
  intros Hd. apply andb_true_iff in Hd as [Hnd Hall].
  apply bool_decide_eq_true in Hnd.
  apply andb_true_iff. split.
  - apply bool_decide_eq_true.
    apply sorted_items_keys_NoDup. rewrite keys_map. exact Hnd.
  - rewrite forallb_elem_of in Hall |- *.
    intros x Hx. rewrite sorted_items_Permutation in Hx.
    apply list_elem_of_fmap in Hx as (y & -> & Hy). simpl.
    rewrite (HT _ (Hall y Hy)). apply Hall, Hy.
Qed.

(** *** One package *)

Ltac split_typed Ht :=
  repeat (let Hf := fresh "Hf" in apply andb_true_iff in Ht as [Ht Hf]).

Ltac solve_storable :=
  first
    [ apply is_str_storable; assumption
    | apply is_bool_storable; assumption
    | apply is_path_storable; assumption
    | apply (is_optional_storable is_str); [apply is_str_storable | assumption]
    | apply (is_optional_storable is_path); [apply is_path_storable | assumption]
    | apply (is_list_of_storable is_str); [apply is_str_storable | assumption]
    | apply (is_list_of_storable is_path); [apply is_path_storable | assumption]
    | apply (is_dict_of_lists_storable is_path);
        [apply is_path_storable | assumption] ].

Ltac solve_copy :=
  first
    [ apply sorted_copy_str; assumption
    | apply sorted_copy_bool; assumption
    | apply sorted_copy_path; assumption
    | apply (sorted_copy_optional is_str); [apply sorted_copy_str | assumption]
    | apply (sorted_copy_optional is_path); [apply sorted_copy_path | assumption]
    | apply (sorted_copy_list is_str); [apply sorted_copy_str | assumption]
    | apply (sorted_copy_list is_path); [apply sorted_copy_path | assumption] ].

Lemma astuple_storable (p : PackageInfo) :
  PackageInfo_typed p = true -> storable (VList (astuple p)) = true.
Proof.
  intros Ht. unfold PackageInfo_typed in Ht. split_typed Ht.
  unfold astuple. cbn [storable forallb].
  repeat (apply andb_true_intro; split); try reflexivity; solve_storable.
Qed.

Lemma asdict_storable (p : PackageInfo) :
  PackageInfo_typed p = true -> storable (asdict p) = true.
Proof.
  intros Ht. pose proof (astuple_storable p Ht) as Hs.
  unfold astuple in Hs. cbn [storable forallb] in Hs.
  unfold asdict. cbn [storable].
  apply andb_true_intro; split; [reflexivity|].
  cbn [forallb snd]. exact Hs.
Qed.

Lemma PackageInfo_new_copy (p : PackageInfo) :
  PackageInfo_new (sorted_copy (asdict p)) = Return (PackageInfo_copy p).
Proof. destruct p. reflexivity. Qed.

Lemma suffix_of_copy (p : PackageInfo) :
  get_method (sorted_copy (asdict p)) "suffix" (VStr "")
  = Return (sorted_copy (suffix p)).
Proof. destruct p. reflexivity. Qed.

Lemma PackageInfo_eqb_copy (p : PackageInfo) :
  PackageInfo_typed p = true -> PackageInfo_eqb p (PackageInfo_copy p) = true.
Proof.
  intros Ht. unfold PackageInfo_eqb.
  change (VList (astuple (PackageInfo_copy p)))
    with (sorted_copy (VList (astuple p))).
  apply value_eqb_sorted_copy, astuple_storable, Ht.
Qed.

Lemma PackageInfo_copy_typed (p : PackageInfo) :
  PackageInfo_typed p = true -> PackageInfo_typed (PackageInfo_copy p) = true.
Proof.
  intros Ht. pose proof Ht as Ht'.
  unfold PackageInfo_typed in Ht. split_typed Ht.
  assert (Hl : forall x, is_list_of is_path x = true -> sorted_copy x = x)
    by (intros x Hx; apply (sorted_copy_list is_path);
        [apply sorted_copy_path | exact Hx]).
  pose proof (sorted_copy_dict_typed _ _ Hl Hf6) as Hd1.
  pose proof (sorted_copy_dict_typed _ _ Hl Hf1) as Hd2.
  unfold PackageInfo_typed, PackageInfo_copy. cbn -[sorted_copy].
  rewrite Hd1, Hd2.
  repeat match goal with
         | |- context [sorted_copy ?f] =>
             lazymatch f with
             | app_paths_of_dependencies _ => fail
             | man_paths_of_dependencies _ => fail
             | _ => replace (sorted_copy f) with f by (symmetry; solve_copy)
             end
         end.
  rewrite Ht, Hf13, Hf12, Hf11, Hf10, Hf9, Hf8, Hf7, Hf5, Hf4, Hf3, Hf2, Hf0, Hf.
  reflexivity.
Qed.

(** *** The whole store *)

Lemma get_sorted_copy (d : list (string * value)) (k : string) :
  NoDup (PyDict.keys d) ->
  PyDict.get k (PyDict.sorted_items (map (fun kv => (kv.1, sorted_copy kv.2)) d))
  = sorted_copy <$> PyDict.get k d.
Proof.
  intros Hnd. rewrite get_sorted_items by (rewrite keys_map; exact Hnd).
  apply get_map.
Qed.

Lemma PipxMetadata_typed_fields (m : PipxMetadata) :
  PipxMetadata_typed m = true ->
  PackageInfo_typed (main_package m) = true
  /\ is_optional is_str (python_version m) = true
  /\ is_optional is_path (source_interpreter m) = true
  /\ is_list_of is_str (venv_args m) = true
  /\ NoDup (PyDict.keys (injected_packages m))
  /\ forallb (fun np => PackageInfo_typed np.2) (injected_packages m) = true.
Proof.
  unfold PipxMetadata_typed. intros Ht.
  do 5 (let Hf := fresh "Hf" in apply andb_true_iff in Ht as [Ht Hf]).
  apply bool_decide_eq_true in Hf0. auto 10.
Qed.

Lemma to_dict_storable (m : PipxMetadata) :
  PipxMetadata_typed m = true -> storable (to_dict m) = true.
Proof.
  intros Ht.
  apply PipxMetadata_typed_fields in Ht as (Ht & Hf3 & Hf2 & Hf1 & Hf0 & Hf).
  unfold to_dict. cbn [storable].
  apply andb_true_intro; split; [reflexivity|].
  cbn [forallb snd storable].
  rewrite (asdict_storable _ Ht).
  replace (storable (python_version m)) with true by (symmetry; solve_storable).
  replace (storable (source_interpreter m)) with true by (symmetry; solve_storable).
  replace (storable (venv_args m)) with true by (symmetry; solve_storable).
  rewrite keys_map.
  rewrite (bool_decide_eq_true_2 _ Hf0).
  assert (Htag : tagged (map (fun nd => (nd.1, asdict nd.2)) (injected_packages m))
                 = false).
  { unfold tagged. rewrite get_map.
    destruct (PyDict.get "__type__" (injected_packages m)); reflexivity. }
  rewrite Htag. cbn [negb andb].
  rewrite andb_true_r. rewrite forallb_elem_of.
  intros x Hx. apply list_elem_of_fmap in Hx as (y & -> & Hy). cbn [snd].
  rewrite forallb_elem_of in Hf. apply asdict_storable, Hf, Hy.
Qed.

Lemma to_dict_keys (m : PipxMetadata) :
  forall l, to_dict m = VDict l -> NoDup (PyDict.keys l).
Proof.
  intros l [= <-]. apply (bool_decide_unpack _). reflexivity.
Qed.

Lemma subscript_copy (d : list (string * value)) (k : string) (v : value) :
  NoDup (PyDict.keys d) ->
  PyDict.get k d = Some v ->
  subscript (sorted_copy (VDict d)) k = Return (sorted_copy v)
  /\ get_method (sorted_copy (VDict d)) k VNone = Return (sorted_copy v).
Proof.
  intros Hnd Hg. cbn [sorted_copy]. unfold subscript, get_method.
  rewrite (get_sorted_copy d k Hnd), Hg. split; reflexivity.
Qed.

Lemma injected_comprehension_filing (l acc : list (string * PackageInfo)) :
  (forall np, np ∈ l -> is_str (suffix np.2) = true) ->
  injected_comprehension (map (fun np => (np.1, sorted_copy (asdict np.2))) l) acc
  = Return
      (fold_left
         (fun acc np =>
            PyDict.set (np.1 +:+ format (suffix np.2)) (PackageInfo_copy np.2) acc)
         l acc).
Proof.
  revert acc. induction l as [|[name p] l IH]; intros acc Hs; [reflexivity|].
  cbn [map fst snd injected_comprehension fold_left].
  rewrite suffix_of_copy, PackageInfo_new_copy.
  unfold mbind, outcome_bind.
  rewrite (sorted_copy_str (suffix p)) by apply (Hs (name, p)), list_elem_of_here.
  apply IH. intros np Hnp. apply Hs, list_elem_of_further, Hnp.
Qed.

(** Loading what [to_dict] gave: [from_dict] returns and assigns the copy of
    every field, the injected packages under their keys with the suffix. *)
Lemma from_dict_to_dict (m m0 : PipxMetadata) (w : world) :
  PipxMetadata_typed m = true ->
  venv_dir m0 = venv_dir m ->
  from_dict (sorted_copy (to_dict m)) (m0, w)
  = (Return tt,
     (set_injected_packages (rekeyed (injected_packages m)) (PipxMetadata_copy m), w)).
Proof.
  intros Ht Hdir.
  pose proof (PipxMetadata_typed_fields m Ht) as (Ht' & Hf3 & Hf2 & Hf1 & Hf0 & Hf).
  destruct (to_dict m) as [| | | |?|l|?] eqn:El; try discriminate.
  pose proof (to_dict_keys m l El) as Hnd.
  assert (Hget : forall k v, PyDict.get k l = Some v ->
            subscript (sorted_copy (VDict l)) k = Return (sorted_copy v)
            /\ get_method (sorted_copy (VDict l)) k VNone = Return (sorted_copy v))
    by (intros k v; apply subscript_copy, Hnd).
  injection El as <-.
  apply from_dict_returns.
  exists (sorted_copy (to_dict m)), (PackageInfo_copy (main_package m)),
    (sorted_copy (python_version m)), (sorted_copy (source_interpreter m)),
    (sorted_copy (venv_args m)), (rekeyed (injected_packages m)).
  unfold to_dict. unfold mbind, outcome_bind.
  split; [|split; [|split; [|split; [|split; [|split]]]]].
  - unfold _convert_legacy_metadata. unfold_method. cbn [fst].
    rewrite (proj1 (Hget "pipx_metadata_version" _ eq_refl)). reflexivity.
  - rewrite (proj1 (Hget "main_package" _ eq_refl)). apply PackageInfo_new_copy.
  - apply (proj1 (Hget "python_version" _ eq_refl)).
  - rewrite (proj2 (Hget "source_interpreter" _ eq_refl)).
    rewrite (proj1 (Hget "source_interpreter" _ eq_refl)).
    unfold is_optional in Hf2.
    destruct (source_interpreter m); try discriminate; reflexivity.
  - apply (proj1 (Hget "venv_args" _ eq_refl)).
  - rewrite (proj1 (Hget "injected_packages" _ eq_refl)).
    cbn [sorted_copy items_method].
    rewrite map_map. cbn [fst snd].
    rewrite (sorted_items_map (fun p => sorted_copy (asdict p))).
    apply injected_comprehension_filing.
    rewrite forallb_elem_of in Hf. intros np Hnp.
    rewrite sorted_items_Permutation in Hnp.
    specialize (Hf np Hnp). unfold PackageInfo_typed in Hf. split_typed Hf.
    assumption.
  - unfold PipxMetadata_copy, set_injected_packages. cbn. rewrite Hdir. reflexivity.
Qed.

(** Without suffixes the injected packages keep their keys. *)
Lemma rekeyed_unsuffixed (injected : list (string * PackageInfo)) :
  NoDup (PyDict.keys injected) ->
  forallb (fun np => eq_str (suffix np.2) "") injected = true ->
  rekeyed injected
  = map (fun np => (np.1, PackageInfo_copy np.2)) (PyDict.sorted_items injected).
Proof.
  intros Hnd Hs. unfold rekeyed.
  assert (Hkey : forall np, np ∈ PyDict.sorted_items injected ->
                   np.1 +:+ format (suffix np.2) = np.1).
  { rewrite forallb_elem_of in Hs. intros np Hnp.
    rewrite sorted_items_Permutation in Hnp. specialize (Hs np Hnp).
    destruct (suffix np.2) as [| | |s| | |]; try discriminate.
    apply String.eqb_eq in Hs. subst s. apply append_nil_r. }
  rewrite (filing_fresh (fun np => np.1 +:+ format (suffix np.2))
             (fun np => PackageInfo_copy np.2)).
  - cbn [app]. apply map_ext_in. intros np Hnp.
    rewrite (Hkey np) by (apply list_elem_of_In, Hnp). reflexivity.
  - cbn [PyDict.keys map app].
    erewrite map_ext_in; [apply sorted_items_keys_NoDup, Hnd|].
    intros np Hnp. apply Hkey, list_elem_of_In, Hnp.
Qed.

(** With a suffix somewhere they do not: the store read back differs. *)
Lemma rekeyed_eqb_unsuffixed (injected : list (string * PackageInfo)) :
  NoDup (PyDict.keys injected) ->
  forallb (fun np => PackageInfo_typed np.2) injected = true ->
  PyDict.eqb PackageInfo_eqb injected (rekeyed injected) = true ->
  forallb (fun np => eq_str (suffix np.2) "") injected = true.
Proof.
  intros Hnd Ht Heq.
  set (key := fun np : string * PackageInfo => np.1 +:+ format (suffix np.2)).
  set (l := PyDict.sorted_items injected).
  assert (Hperm : l ≡ₚ injected) by apply sorted_items_Permutation.
  unfold PyDict.eqb in Heq. apply andb_true_iff in Heq as [Hlen Hall].
  apply Nat.eqb_eq in Hlen. rewrite forallb_elem_of in Hall.
  assert (Hfull : rekeyed injected = map (fun np => (key np, PackageInfo_copy np.2)) l).
  { unfold rekeyed. fold l.
    apply (filing_full key (fun np => PackageInfo_copy np.2) l []).
    change (length (rekeyed injected) = length l).
    rewrite <- Hlen, Hperm. reflexivity. }
  assert (Hkeys : PyDict.keys (rekeyed injected) = map key l).
  { rewrite Hfull. unfold PyDict.keys. rewrite map_map. reflexivity. }
  assert (Hsame : PyDict.keys injected ≡ₚ map key l).
  { apply submseteq_length_Permutation.
    - apply NoDup_submseteq; [exact Hnd|].
      intros k Hk. apply list_elem_of_fmap in Hk as (np & -> & Hnp).
      rewrite <- Hkeys. specialize (Hall np Hnp).
      destruct (PyDict.get np.1 (rekeyed injected)) eqn:Hg; [|discriminate].
      destruct (decide (np.1 ∈ PyDict.keys (rekeyed injected))) as [Hin|Hnin];
        [exact Hin|].
      apply get_None_not_in in Hnin. congruence.
    - unfold PyDict.keys. rewrite !length_map, Hperm. reflexivity. }
  assert (Hsum : sum_list_with (fun np => String.length (format (suffix np.2))) l = 0).
  { assert (H1 : sum_list_with String.length (PyDict.keys injected)
                 = sum_list_with String.length (map key l))
      by (rewrite Hsame; reflexivity).
    unfold PyDict.keys in H1.
    change (map fst injected) with (fst <$> injected) in H1.
    change (map key l) with (key <$> l) in H1.
    rewrite !sum_list_with_fmap in H1.
    rewrite <- Hperm in H1. unfold key in H1.
    rewrite (sum_list_with_equal
               (fun np => String.length (np.1 +:+ format (suffix np.2)))
               (fun np => String.length np.1
                          + String.length (format (suffix np.2)))) in H1
      by (intros; apply length_append).
    rewrite sum_list_with_plus in H1. lia. }
  rewrite forallb_elem_of in Ht |- *. intros np Hnp.
  assert (Hl : np ∈ l) by (rewrite Hperm; exact Hnp).
  pose proof (sum_list_with_in np (fun np => String.length (format (suffix np.2))) l Hl)
    as Hle.
  rewrite Hsum in Hle.
  specialize (Ht np Hnp). unfold PackageInfo_typed in Ht. split_typed Ht.
  destruct (suffix np.2) as [| | |s| | |]; try discriminate.
  cbn [format] in Hle. apply String.eqb_eq.
  apply length_zero. lia.
Qed.

Lemma PipxMetadata_eqb_copy (m : PipxMetadata) :
  PipxMetadata_typed m = true -> PipxMetadata_eqb m (PipxMetadata_copy m) = true.
Proof.
  intros Ht.
  apply PipxMetadata_typed_fields in Ht as (Ht & Hf3 & Hf2 & Hf1 & Hf0 & Hf).
  unfold PipxMetadata_eqb, PipxMetadata_copy.
  cbn [venv_dir main_package python_version source_interpreter venv_args
         injected_packages].
  rewrite String.eqb_refl, (PackageInfo_eqb_copy _ Ht).
  rewrite !value_eqb_sorted_copy by solve_storable.
  cbn [andb]. unfold PyDict.eqb.
  apply andb_true_intro. split.
  - apply Nat.eqb_eq. rewrite length_map, (sorted_items_Permutation _). reflexivity.
  - rewrite forallb_elem_of in Hf |- *. intros [k p] Hx. cbn [fst snd].
    rewrite (get_map PackageInfo_copy), (get_sorted_items k _ Hf0).
    rewrite (in_get_Some k p _ Hf0 Hx). cbn.
    apply PackageInfo_eqb_copy, (Hf (k, p) Hx).
Qed.

Lemma PipxMetadata_copy_typed (m : PipxMetadata) :
  PipxMetadata_typed m = true -> PipxMetadata_typed (PipxMetadata_copy m) = true.
Proof.
  intros Ht.
  apply PipxMetadata_typed_fields in Ht as (Ht & Hf3 & Hf2 & Hf1 & Hf0 & Hf).
  unfold PipxMetadata_typed, PipxMetadata_copy.
  cbn [venv_dir main_package python_version source_interpreter venv_args
         injected_packages].
  rewrite (PackageInfo_copy_typed _ Ht).
  replace (sorted_copy (python_version m)) with (python_version m)
    by (symmetry; solve_copy).
  replace (sorted_copy (source_interpreter m)) with (source_interpreter m)
    by (symmetry; solve_copy).
  replace (sorted_copy (venv_args m)) with (venv_args m)
    by (symmetry; solve_copy).
  rewrite Hf3, Hf2, Hf1. cbn [andb].
  apply andb_true_intro. split.
  - apply bool_decide_eq_true.
    rewrite (keys_map PackageInfo_copy). apply sorted_items_keys_NoDup, Hf0.
  - rewrite forallb_elem_of in Hf |- *. intros x Hx.
    apply list_elem_of_fmap in Hx as (y & -> & Hy). cbn [snd].
    rewrite sorted_items_Permutation in Hy. apply PackageInfo_copy_typed, Hf, Hy.
Qed.

(** [write], then a new store for the same directory. *)
Lemma write_then_init (m : PipxMetadata) (w : world) :
  PipxMetadata_typed m = true ->
  main_package_valid m = true ->
  available w (venv_dir m, PIPX_INFO_FILENAME) = true ->
  exists w1 : world,
    write (m, w) = (Return tt, (m, w1))
    /\ __init__ (venv_dir m) true w1
       = (Return (set_injected_packages (rekeyed (injected_packages m))
                    (PipxMetadata_copy m)), w1).
Proof.
  intros Ht Hv Ha.
  set (path := (venv_dir m, PIPX_INFO_FILENAME)) in *.
  set (doc := json_dump (to_dict m)).
  exists {| fs := <[path := File true true doc]> (fs w); log := log w |}.
  split.
  - rewrite (write_valid_open_w m w Hv). fold path doc.
    rewrite (available_open_w w path doc Ha). reflexivity.
  - unfold __init__, read, load_from.
    unfold mbind at 1. unfold method_bind, self at 1. cbn [fst snd].
    unfold except_OSError. unfold mbind at 1. unfold method_bind.
    cbn [fst snd init_fields venv_dir]. fold path.
    unfold open_rb. cbn [fs]. rewrite lookup_insert_eq.
    unfold doc. rewrite (json_load_dump _ (to_dict_storable m Ht)).
    rewrite (from_dict_to_dict m (init_fields (venv_dir m)) _ Ht eq_refl).
    reflexivity.
Qed.

(** X18. The condition on the suffixes cannot be dropped from C1 as amended:
    if the store read back is equal to the store written, no injected package
    has a suffix. *)
Lemma round_trip_only_unsuffixed (m : PipxMetadata) (w w1 : world)
    (m' : PipxMetadata) :
  PipxMetadata_typed m = true ->
  main_package_valid m = true ->
  available w (venv_dir m, PIPX_INFO_FILENAME) = true ->
  write (m, w) = (Return tt, (m, w1)) ->
  __init__ (venv_dir m) true w1 = (Return m', w1) ->
  PipxMetadata_eqb m m' = true ->
  injected_unsuffixed m = true.
Proof.
  intros Ht Hv Ha Hwrite Hinit Heq.
  destruct (write_then_init m w Ht Hv Ha) as (w1' & Hwrite' & Hinit').
  rewrite Hwrite in Hwrite'. injection Hwrite' as <-.
  rewrite Hinit in Hinit'. injection Hinit' as ->.
  pose proof (PipxMetadata_typed_fields m Ht) as (_ & _ & _ & _ & Hnd & Hti).
  unfold PipxMetadata_eqb in Heq. apply andb_true_iff in Heq as [_ Heq].
  apply (rekeyed_eqb_unsuffixed _ Hnd Hti). exact Heq.
Qed.

(** C1, as amended.  Let a store be typed as the data model says, let its
    main package pass the gate, let every injected package have the empty
    suffix, and let the metadata file of its directory be available (it can
    be created, or is there and can be read and written).  Then [write]
    returns and leaves the store as it is, and a store made afterwards for the
    same directory, which reads the file, is equal to the first field for
    field: directory, main package, Python version, source interpreter,
    arguments and the injected packages under the same keys.  The store read
    back is typed as well: where the first holds paths (a list of paths, a
    dictionary of lists of paths, the source interpreter), it holds paths,
    not strings. *)
Theorem write_read_round_trip (m : PipxMetadata) (w : world) :
  PipxMetadata_typed m = true ->
  main_package_valid m = true ->
  injected_unsuffixed m = true ->
  available w (venv_dir m, PIPX_INFO_FILENAME) = true ->
  exists (w1 : world) (m' : PipxMetadata),
    write (m, w) = (Return tt, (m, w1))
    /\ __init__ (venv_dir m) true w1 = (Return m', w1)
    /\ PipxMetadata_eqb m m' = true
    /\ PipxMetadata_typed m' = true.
Proof.
  intros Ht Hv Hs Ha.
  destruct (write_then_init m w Ht Hv Ha) as (w1 & Hwrite & Hinit).
  pose proof (PipxMetadata_typed_fields m Ht) as (_ & _ & _ & _ & Hnd & _).
  rewrite (rekeyed_unsuffixed _ Hnd Hs) in Hinit.
  exists w1, (PipxMetadata_copy m).
  split; [exact Hwrite|]. split; [destruct m; exact Hinit|].
  split; [apply PipxMetadata_eqb_copy, Ht | apply PipxMetadata_copy_typed, Ht].
Qed.

End Properties.

(** * Concrete runs *)

Section Runs.
Import Examples.
Local Existing Instance Posix.externals.

(** The round trip of C1 on a store with a main package and an injected
    package without suffix, in a directory that has no metadata file yet. *)
Lemma write_read_round_trip_witness :
  let m := store [("bar", bar_info "")] in
  (PipxMetadata_typed m = true
   /\ main_package_valid m = true
   /\ injected_unsuffixed m = true
   /\ available no_file (venv_dir m, PIPX_INFO_FILENAME) = true)
  /\ exists (w1 : world) (m' : PipxMetadata),
       write (m, no_file) = (Return tt, (m, w1))
       /\ __init__ (venv_dir m) true w1 = (Return m', w1)
       /\ PipxMetadata_eqb m m' = true
       /\ PipxMetadata_typed m' = true.
Proof.
  intros m.
  assert (Ht : PipxMetadata_typed m = true) by (vm_compute; reflexivity).
  assert (Hv : main_package_valid m = true) by (vm_compute; reflexivity).
  assert (Hs : injected_unsuffixed m = true) by (vm_compute; reflexivity).
  assert (Ha : available no_file (venv_dir m, PIPX_INFO_FILENAME) = true)
    by (vm_compute; reflexivity).
  split; [auto|].
  exact (write_read_round_trip m no_file Ht Hv Hs Ha).
Defined.

(** C1 as stated fails.  The store is typed and passes the gate, the file can
    be created; its one injected package is kept under the key bar_x and has
    the suffix _x.  [write] stores the key as it is, [from_dict] appends the
    suffix to the stored key: the store read back has the key bar_x_x and is
    not equal to the store that was written. *)
Lemma round_trip_suffix_counterexample :
  let m := store [("bar_x", bar_info "_x")] in
  let w1 := (write (m, no_file)).2.2 in
  PipxMetadata_typed m = true
  /\ main_package_valid m = true
  /\ available no_file (venv_dir m, PIPX_INFO_FILENAME) = true
  /\ write (m, no_file) = (Return tt, (m, w1))
  /\ exists m' : PipxMetadata,
       __init__ (venv_dir m) true w1 = (Return m', w1)
       /\ PyDict.keys (injected_packages m') = ["bar_x_x"]
       /\ PipxMetadata_eqb m m' = false.
Proof.
  intros m w1.
  split; [vm_compute; reflexivity|].
  split; [vm_compute; reflexivity|].
  split; [vm_compute; reflexivity|].
  split; [vm_compute; reflexivity|].
  exists (set_injected_packages [("bar_x_x", bar_info "_x")] (PipxMetadata_copy m)).
  split; [vm_compute; reflexivity|].
  split; vm_compute; reflexivity.
Qed.

(** C2 fails on the code.  The version 5 is none of 0.1, 0.2, 0.3, 0.4 and
    0.5, yet a file whose record carries it is read without an error: the
    first test of [_convert_legacy_metadata] is [version in ("0.5")], the
    parentheses make no tuple, and 5 is a substring of 0.5.  The store,
    here fresh from [__init__], takes over the fields of the record. *)
Theorem version_5_is_read :
  let w := holding venv (json_dump (VDict (record "5"))) in
  let m := init_fields venv in
  bool_decide ("5" ∈ ["0.1"; "0.2"; "0.3"; "0.4"; "0.5"]) = false
  /\ json_load (json_dump (VDict (record "5"))) = Return (sorted_copy (VDict (record "5")))
  /\ subscript (sorted_copy (VDict (record "5"))) "pipx_metadata_version"
     = Return (VStr "5")
  /\ (read false (m, w)).1 = Return tt
  /\ package (main_package (read false (m, w)).2.1) = VStr "foo"
  /\ (read false (m, w)).2.1 <> m.
Proof.
  intros w m.
  split; [vm_compute; reflexivity|].
  split; [vm_compute; reflexivity|].
  split; [vm_compute; reflexivity|].
  split; [vm_compute; reflexivity|].
  split; [vm_compute; reflexivity|].
  intros Heq. apply (f_equal (fun x => package (main_package x))) in Heq.
  vm_compute in Heq. discriminate.
Qed.

(** C3 fails on the code.  A populated store whose metadata file cannot be
    opened keeps its fields when [read] returns (the handler of [OSError]
    assigns nothing): it is not in the state that [__init__] sets up. *)
Theorem read_failure_keeps_store :
  let m := store [("bar", bar_info "")] in
  open_rb no_file (venv_dir m, PIPX_INFO_FILENAME) = Raise OSError
  /\ read false (m, no_file) = (Return tt, (m, no_file))
  /\ package (main_package m) = VStr "foo"
  /\ package (main_package (init_fields (venv_dir m))) = VNone
  /\ PipxMetadata_eqb (read false (m, no_file)).2.1 (init_fields (venv_dir m)) = false.
Proof.
  intros m.
  assert (Ho : open_rb no_file (venv_dir m, PIPX_INFO_FILENAME) = Raise OSError)
    by (vm_compute; reflexivity).
  split; [exact Ho|].
  rewrite (read_unavailable false m no_file Ho).
  do 3 (split; [reflexivity|]). vm_compute. reflexivity.
Qed.

(** The conversion of C4 on a record of version 0.1 for the package foo, in
    the directory foo-special. *)
Lemma legacy_0_1_suffix_witness :
  let m := init_fields venv_special in
  (PyDict.get "pipx_metadata_version" record_0_1 = Some (VStr "0.1")
   /\ PyDict.get "main_package" record_0_1 = Some (VDict main_package_0_1)
   /\ PyDict.get "package" main_package_0_1 = Some (VStr "foo")
   /\ "foo" <> Path_name (venv_dir m))
  /\ (exists st : PipxMetadata * world,
        from_dict (VDict record_0_1) (m, nothing) = (Return tt, st)
        /\ suffix (main_package st.1) = VStr "-special"
        /\ source_interpreter st.1 = VNone).
Proof.
  intros m.
  assert (Hne : "foo" <> Path_name (venv_dir m)) by (vm_compute; discriminate).
  split; [repeat split; exact Hne|].
  destruct (legacy_0_1_suffix m nothing record_0_1 main_package_0_1 "foo"
              eq_refl eq_refl eq_refl Hne) as (_ & Hret & _).
  exists (from_dict (VDict record_0_1) (m, nothing)).2.
  assert (Hrun : from_dict (VDict record_0_1) (m, nothing)
                 = (Return tt, (from_dict (VDict record_0_1) (m, nothing)).2))
    by (vm_compute; reflexivity).
  split; [exact Hrun|]. exact (Hret _ Hrun).
Defined.

(** The conversion of C7 on a record of version 0.4. *)
Lemma legacy_0_4_pinned_witness :
  let m := init_fields venv in
  (PyDict.get "pipx_metadata_version" (record "0.4") = Some (VStr "0.4")
   /\ PyDict.get "main_package" (record "0.4") = Some (VDict main_package_0_4)
   /\ PyDict.get "pinned" main_package_0_4 = None)
  /\ (exists st : PipxMetadata * world,
        from_dict (VDict (record "0.4")) (m, nothing) = (Return tt, st)
        /\ pinned (main_package st.1) = VBool false).
Proof.
  intros m.
  split; [repeat split|].
  destruct (legacy_0_4_pinned m nothing (record "0.4") main_package_0_4
              eq_refl eq_refl eq_refl) as (_ & _ & Hret).
  exists (from_dict (VDict (record "0.4")) (m, nothing)).2.
  assert (Hrun : from_dict (VDict (record "0.4")) (m, nothing)
                 = (Return tt, (from_dict (VDict (record "0.4")) (m, nothing)).2))
    by (vm_compute; reflexivity).
  split; [exact Hrun|]. exact (Hret _ Hrun).
Defined.



(** C8 on a directory without a metadata file. *)
Lemma init_without_file_witness :
  open_rb no_file (venv, PIPX_INFO_FILENAME) = Raise OSError
  /\ exists m : PipxMetadata,
       __init__ venv true no_file = (Return m, no_file)
       /\ m = init_fields venv.
Proof.
  assert (Ho : open_rb no_file (venv, PIPX_INFO_FILENAME) = Raise OSError)
    by (vm_compute; reflexivity).
  split; [exact Ho|].
  destruct (init_without_file venv no_file Ho) as (m & Hm & Hfields & _).
  exists m. auto.
Defined.

(** C9 on a store written twice into a directory without a metadata file. *)
Lemma write_twice_same_content_witness :
  let m := store [("bar", bar_info "")] in
  let path := (venv_dir m, PIPX_INFO_FILENAME) in
  let st1 := (write (m, no_file)).2 in
  let st2 := (write st1).2 in
  main_package_valid m = true
  /\ fs st2.2 = fs st1.2
  /\ fs st1.2 !! path = Some (File true true (json_dump (to_dict m)))
  /\ fs st2.2 !! path = Some (File true true (json_dump (to_dict m))).
Proof.
  intros m path st1 st2.
  assert (Hv : main_package_valid m = true) by (vm_compute; reflexivity).
  split; [exact Hv|].
  destruct (write_twice_same_content m no_file Hv) as (_ & _ & _ & _ & Hfs & _).
  split; [exact Hfs|].
  split; vm_compute; reflexivity.
Defined.

(** C10 on a store with an injected package that has neither a package name
    nor a specifier and exposes no applications. *)
Lemma validation_ignores_injected_witness :
  let m := store [("blank", blank_info)] in
  main_package_valid m = true
  /\ package blank_info = VNone
  /\ package_or_url blank_info = VNone
  /\ include_apps blank_info = VBool false
  /\ _validate_before_write (m, no_file) = (Return tt, (m, no_file))
  /\ (write (m, no_file)).1 = Return tt.
Proof.
  intros m.
  assert (Hv : main_package_valid m = true) by (vm_compute; reflexivity).
  split; [exact Hv|]. do 3 (split; [reflexivity|]).
  destruct (validation_ignores_injected m no_file Hv) as (Hgate & Hwrite & _).
  split; assumption.
Defined.

(** A version such as 9.9 is refused: [read] raises the error that names the
    environment and the version, and the store keeps its fields. *)
Lemma version_9_9_is_refused :
  let w := holding venv (json_dump (VDict (record "9.9"))) in
  let m := store [("bar", bar_info "")] in
  read false (m, w)
  = (Raise (PipxError (unknown_version_message "foo" "9.9")), (m, w)).
Proof.
  intros w m.
  change (unknown_version_message "foo" "9.9")
    with (unknown_version_message (Path_name (venv_dir m)) "9.9").
  apply (read_refused (json_dump (VDict (record "9.9")))
           (PyDict.sorted_items
              (map (fun kv => (kv.1, sorted_copy kv.2)) (record "9.9"))) "9.9").
  - vm_compute. reflexivity.
  - vm_compute. reflexivity.
  - vm_compute. reflexivity.
  - vm_compute. reflexivity.
Qed.

(** A record of version 0.1 whose main package has no package name cannot be
    converted: [str.replace] does not take [None]. *)
Lemma legacy_0_1_without_package :
  let mp := PyDict.set "package" VNone main_package_0_1 in
  let md := PyDict.set "main_package" (VDict mp) record_0_1 in
  from_dict (VDict md) (init_fields venv_special, nothing)
  = (Raise TypeError, (init_fields venv_special, nothing)).
Proof. vm_compute. reflexivity. Qed.

End Runs.

(** ** More on dictionaries: what a dictionary made of pairs holds *)

Section MadeOfPairs.
Context {A : Type}.
Implicit Types (d : list (string * A)) (k : string) (v : A).

Lemma set_keys_NoDup k v d :
  NoDup (PyDict.keys d) -> NoDup (PyDict.keys (PyDict.set k v d)).
Proof.
  intros Hnd. destruct (decide (k ∈ PyDict.keys d)) as [Hin|Hnin].
  - assert (Hk : PyDict.keys (PyDict.set k v d) = PyDict.keys d); [|congruence].
    clear Hnd. induction d as [|[k' v'] d IH]; [apply elem_of_nil in Hin; contradiction|].
    cbn. destruct (String.eqb k k') eqn:E; cbn.
    + apply String.eqb_eq in E. congruence.
    + f_equal. apply IH. cbn in Hin. apply elem_of_cons in Hin as [->|Hin]; [|exact Hin].
      rewrite String.eqb_refl in E. discriminate.
  - rewrite (set_fresh k v d Hnin). unfold PyDict.keys in *.
    rewrite fmap_app. apply NoDup_app. split; [exact Hnd|]. split.
    + intros x Hx Hx'. cbn in Hx'. apply list_elem_of_singleton in Hx'.
      subst x. apply Hnin. exact Hx.
    + cbn. apply NoDup_singleton.
Qed.

Lemma set_elem_of (x : string * A) k v d :
  x ∈ PyDict.set k v d -> x = (k, v) \/ x ∈ d.
Proof.
  induction d as [|[k' v'] d IH]; cbn.
  - intros Hx. apply list_elem_of_singleton in Hx. auto.
  - destruct (String.eqb k k').
    + intros Hx. apply elem_of_cons in Hx as [->|Hx]; [auto|].
      right. apply list_elem_of_further, Hx.
    + intros Hx. apply elem_of_cons in Hx as [->|Hx].
      * right. apply list_elem_of_here.
      * destruct (IH Hx) as [->|Hd]; [auto|]. right. apply list_elem_of_further, Hd.
Qed.

End MadeOfPairs.

Section FilingMore.
Context {A B : Type} (f : B -> string) (g : B -> A).

Lemma filing_keys_NoDup (l : list B) (acc : list (string * A)) :
  NoDup (PyDict.keys acc) ->
  NoDup (PyDict.keys (fold_left (fun acc b => PyDict.set (f b) (g b) acc) l acc)).
Proof.
  revert acc. induction l as [|b l IH]; intros acc Hnd; [exact Hnd|].
  cbn. apply IH, set_keys_NoDup, Hnd.
Qed.

Lemma filing_elem_of (x : string * A) (l : list B) (acc : list (string * A)) :
  x ∈ fold_left (fun acc b => PyDict.set (f b) (g b) acc) l acc ->
  x ∈ acc \/ exists b, b ∈ l /\ x = (f b, g b).
Proof.
  revert acc. induction l as [|b l IH]; intros acc Hx; [auto|].
  cbn in Hx. destruct (IH _ Hx) as [Hs|(b' & Hb' & ->)].
  - destruct (set_elem_of _ _ _ _ Hs) as [->|Hacc]; [|auto].
    right. exists b. split; [apply list_elem_of_here | reflexivity].
  - right. exists b'. split; [apply list_elem_of_further, Hb' | reflexivity].
Qed.

End FilingMore.

(** ** The order of strings *)

Lemma leb_trans (a b c : string) :
  String.leb a b = true -> String.leb b c = true -> String.leb a c = true.
Proof.
  unfold String.leb.
  destruct (String.compare a b) eqn:Hab; try discriminate; intros _;
    destruct (String.compare b c) eqn:Hbc; try discriminate; intros _.
  - apply String.compare_eq_iff in Hab. subst. rewrite Hbc. reflexivity.
  - apply String.compare_eq_iff in Hab. subst. rewrite Hbc. reflexivity.
  - apply String.compare_eq_iff in Hbc. subst. rewrite Hab. reflexivity.
  - apply OrderedTypeEx.String_as_OT.cmp_lt in Hab, Hbc.
    pose proof (OrderedTypeEx.String_as_OT.lt_trans _ _ _ Hab Hbc) as Hac.
    apply OrderedTypeEx.String_as_OT.cmp_lt in Hac.
    unfold OrderedTypeEx.String_as_OT.cmp in Hac. rewrite Hac. reflexivity.
Qed.

Section SortingAgain.
Context {A : Type}.
Implicit Types (d s : list (string * A)) (x y : string * A).

Lemma insert_item_comm x y s :
  x.1 <> y.1 ->
  PyDict.insert_item x (PyDict.insert_item y s)
  = PyDict.insert_item y (PyDict.insert_item x s).
Proof.
  intros Hne. induction s as [|h s IH].
  - cbn. destruct (String.leb x.1 y.1) eqn:Exy, (String.leb y.1 x.1) eqn:Eyx;
      try reflexivity.
    + exfalso. apply Hne, String.leb_antisym; assumption.
    + destruct (String.leb_total x.1 y.1); congruence.
  - cbn [PyDict.insert_item].
    destruct (String.leb y.1 h.1) eqn:Eyh, (String.leb x.1 h.1) eqn:Exh;
      cbn [PyDict.insert_item]; rewrite ?Eyh, ?Exh;
      destruct (String.leb x.1 y.1) eqn:Exy, (String.leb y.1 x.1) eqn:Eyx;
      rewrite ?Exh, ?Eyh; try reflexivity; try (rewrite IH; reflexivity);
      first
        [ exfalso; apply Hne, String.leb_antisym; assumption
        | destruct (String.leb_total x.1 y.1); congruence
        | rewrite (leb_trans _ _ _ Exy Eyh) in Exh; discriminate
        | rewrite (leb_trans _ _ _ Eyx Exh) in Eyh; discriminate ].
Qed.

(** Sorting gives one result for all orders of the same items. *)
Lemma sorted_items_unique d d' :
  d ≡ₚ d' -> NoDup (PyDict.keys d) ->
  PyDict.sorted_items d = PyDict.sorted_items d'.
Proof.
  induction 1 as [|x l l' Hp IH|x y l|l l' l'' Hp1 IH1 Hp2 IH2]; intros Hnd.
  - reflexivity.
  - cbn. cbn in Hnd. apply NoDup_cons in Hnd as [_ Hnd]. rewrite (IH Hnd). reflexivity.
  - cbn. cbn in Hnd. apply NoDup_cons in Hnd as [Hy _].
    apply insert_item_comm. intros Heq. apply Hy. rewrite Heq. apply list_elem_of_here.
  - rewrite (IH1 Hnd). apply IH2. unfold PyDict.keys in *. rewrite <- Hp1. exact Hnd.
Qed.

Lemma sorted_items_of_Sorted d :
  Sorted (fun k k' => String.leb k k' = true) (PyDict.keys d) ->
  PyDict.sorted_items d = d.
Proof.
  induction d as [|x d IH]; [reflexivity|].
  cbn. intros Hs. inversion Hs as [|? ? Hs' Hhd]; subst.
  rewrite (IH Hs'). destruct d as [|y d]; [reflexivity|].
  cbn in *. inversion Hhd as [|? ? Hle]; subst. rewrite Hle. reflexivity.
Qed.

Lemma sorted_items_idemp d :
  PyDict.sorted_items (PyDict.sorted_items d) = PyDict.sorted_items d.
Proof. apply sorted_items_of_Sorted, sorted_items_Sorted. Qed.

End SortingAgain.

(** ** [str.replace] that takes a prefix away *)

Lemma prefix_append (a b : string) : String.prefix a (a +:+ b) = true.
Proof.
  induction a as [|c a IH]; [destruct b; reflexivity|].
  change (String.prefix (String c a) (String c (a +:+ b)) = true).
  cbn [String.prefix]. destruct (ascii_dec c c) as [_|Hne]; [exact IH | congruence].
Qed.

Lemma replace_from_absent (old new s : string) :
  PyStr.contains old s = false -> PyStr.replace_from old new 0 s = s.
Proof.
  induction s as [|c s IH]; [reflexivity|].
  cbn [PyStr.contains]. intros Hc.
  apply orb_false_iff in Hc as [Hp Hc].
  cbn [PyStr.replace_from]. rewrite Hp, (IH Hc). reflexivity.
Qed.

Lemma replace_from_skip (old new a s : string) :
  PyStr.replace_from old new (String.length a) (a +:+ s)
  = PyStr.replace_from old new 0 s.
Proof.
  induction a as [|c a IH]; [reflexivity|].
  change (PyStr.replace_from old new (S (String.length a)) (String c (a +:+ s))
          = PyStr.replace_from old new 0 s).
  cbn [PyStr.replace_from]. exact IH.
Qed.

(** Taking [old] out of [old + rest] leaves [rest], when [old] is not empty
    and does not occur in [rest]. *)
Lemma replace_prefix (old rest : string) :
  old <> "" ->
  PyStr.contains old rest = false ->
  PyStr.replace (old +:+ rest) old "" = rest.
Proof.
  intros Hne Hc. destruct old as [|c old]; [congruence|].
  unfold PyStr.replace.
  change (String c old +:+ rest) with (String c (old +:+ rest)).
  cbn [PyStr.replace_from].
  change (String c (old +:+ rest)) with (String c old +:+ rest).
  rewrite prefix_append.
  change (String.length (String c old) - 1) with (String.length old - 0).
  rewrite Nat.sub_0_r, replace_from_skip, (replace_from_absent _ _ _ Hc).
  reflexivity.
Qed.

Lemma append_neq_l (a b : string) : b <> "" -> a <> a +:+ b.
Proof.
  intros Hb Heq. apply (f_equal String.length) in Heq.
  rewrite length_append in Heq.
  destruct b; [congruence|]. cbn in Heq. lia.
Qed.

(** * Further properties of the module *)

Section Further.
Context `{Externals}.

(** ** What the methods leave alone *)

Lemma from_dict_frame (d : value) (m : PipxMetadata) (w : world) :
  (from_dict d (m, w)).2.2 = w
  /\ venv_dir (from_dict d (m, w)).2.1 = venv_dir m.
Proof.
  remember (from_dict d (m, w)) as r eqn:Hr.
  unfold from_dict in Hr.
  unfold mbind at 1 in Hr. unfold method_bind in Hr.
  pose proof (convert_state d (m, w)) as Hst.
  destruct (_convert_legacy_metadata d (m, w)) as [[d'|e] st0]; simpl in Hst;
    subst st0; [|subst r; split; reflexivity].
  unfold_method. simpl in Hr.
  repeat match type of Hr with
         | context [match ?x with Return _ => _ | Raise _ => _ end] =>
             destruct x; simpl in Hr
         end; subst r; split; reflexivity.
Qed.

(** X1. [read] never touches a file and never rebinds the store to another
    directory, whatever the file holds and however [read] ends; it never
    lets an [OSError] out; and the logger gets nothing, or, when [verbose]
    is set, at most the one warning. *)
Theorem read_frame (verbose : bool) (m : PipxMetadata) (w : world) :
  fs (read verbose (m, w)).2.2 = fs w
  /\ venv_dir (read verbose (m, w)).2.1 = venv_dir m
  /\ (read verbose (m, w)).1 <> Raise OSError
  /\ (log (read verbose (m, w)).2.2 = log w
      \/ verbose = true
         /\ log (read verbose (m, w)).2.2 = log w ++ [read_warning m]).
Proof.
  remember (read verbose (m, w)) as r eqn:Hr.
  unfold read, load_from in Hr.
  unfold mbind at 1 in Hr. unfold method_bind, self at 1 in Hr. cbn [fst snd] in Hr.
  unfold except_OSError in Hr. unfold mbind at 1 in Hr. unfold method_bind in Hr.
  cbn [fst snd] in Hr.
  destruct (open_rb w (venv_dir m, PIPX_INFO_FILENAME)) as [doc|e] eqn:Hopen.
  - destruct (json_load doc) as [v|e] eqn:Hload.
    + pose proof (from_dict_frame v m w) as [Hw Hdir].
      destruct (from_dict v (m, w)) as [[[]|e] [m' w']]; cbn [fst snd] in *; subst w'.
      * subst r. repeat split; [exact Hdir | discriminate | left; reflexivity].
      * destruct e, verbose; unfold_method; subst r; cbn;
          repeat split; try exact Hdir; try discriminate; auto.
    + destruct e, verbose; unfold_method; subst r; cbn;
        repeat split; try discriminate; auto.
  - apply open_rb_raises in Hopen. destruct Hopen; subst e.
    + destruct verbose; unfold_method; subst r; cbn;
        repeat split; try discriminate; auto.
    + subst r; cbn; repeat split; try discriminate; auto.
Qed.

(** X2. [write] never changes the store, never touches a file other than
    the metadata file of the store's directory, and hands the logger at
    most one record. *)
Theorem write_frame (m : PipxMetadata) (w : world) :
  (write (m, w)).2.1 = m
  /\ (forall path : string * string,
        path <> (venv_dir m, PIPX_INFO_FILENAME) ->
        fs (write (m, w)).2.2 !! path = fs w !! path)
  /\ (log (write (m, w)).2.2 = log w
      \/ exists r : log_record, log (write (m, w)).2.2 = log w ++ [r]).
Proof.
  destruct (main_package_valid m) eqn:Hv.
  - rewrite (write_valid m w Hv).
    pose proof (with_open_w_log w (venv_dir m, PIPX_INFO_FILENAME)
                  (json_dump (to_dict m))) as Hlog.
    pose proof (fun other =>
                  with_open_w_other w (venv_dir m, PIPX_INFO_FILENAME) other
                    (json_dump (to_dict m))) as Hother.
    destruct (with_open_w w _ _) as [[[]|e] w']; cbn [fst snd] in *.
    + split; [reflexivity|]. split; [exact Hother|]. left. exact Hlog.
    + split; [reflexivity|]. split; [exact Hother|].
      right. eexists. cbn [logged log]. rewrite Hlog. reflexivity.
  - rewrite (write_invalid m w Hv). cbn [fst snd].
    split; [reflexivity|]. split; [reflexivity|]. right. eexists. reflexivity.
Qed.

(** X3. When the metadata file cannot be opened, [read] returns normally;
    with [verbose] set it hands the logger exactly one warning, whose text
    (before [pipx_wrap]) names the directory and its name, and without
    [verbose] it logs nothing. *)
Theorem read_unopenable_warns (verbose : bool) (m : PipxMetadata) (w : world) :
  open_rb w (venv_dir m, PIPX_INFO_FILENAME) = Raise OSError ->
  (read verbose (m, w)).1 = Return tt
  /\ log (read verbose (m, w)).2.2
     = (if verbose then log w ++ [read_warning m] else log w)
  /\ read_warning m
     = LogWarning (pipx_wrap (read_warning_text (venv_dir m)) (PyStr.spaces 4))
  /\ exists a b c : string,
       read_warning_text (venv_dir m)
       = a +:+ venv_dir m +:+ b +:+ Path_name (venv_dir m) +:+ c.
Proof.
  intros Hopen. rewrite (read_unavailable verbose m w Hopen). cbn [fst snd].
  split; [reflexivity|]. split; [destruct verbose; reflexivity|].
  split; [reflexivity|].
  unfold read_warning_text.
  eexists (PyStr.nl +:+ PyStr.spaces 24 +:+ hazard +:+ "  Unable to read "
           +:+ PIPX_INFO_FILENAME +:+ " in" +:+ PyStr.nl +:+ PyStr.spaces 24),
    (".  This may cause this or future pipx"
       +:+ PyStr.nl +:+ PyStr.spaces 24 +:+ "operations involving "), _.
  rewrite !append_assoc. reflexivity.
Qed.

(** ** Stored versions *)

(** X4. A file whose record carries a version that is no substring of 0.5
    and none of 0.1 to 0.4 is refused: [read] raises the [PipxError] whose
    text names the environment and the version and leaves the store and the
    world as they were, and [__init__] with [read] set raises the same
    error, so that no store is made. *)
Theorem unknown_version_refused (dir : string) (w : world) (doc : json)
    (md : list (string * value)) (version : string) :
  open_rb w (dir, PIPX_INFO_FILENAME) = Return doc ->
  json_load doc = Return (VDict md) ->
  PyDict.get "pipx_metadata_version" md = Some (VStr version) ->
  refused version = true ->
  let e := PipxError (unknown_version_message (Path_name dir) version) in
  (forall (verbose : bool) (m : PipxMetadata),
     venv_dir m = dir -> read verbose (m, w) = (Raise e, (m, w)))
  /\ __init__ dir true w = (Raise e, w)
  /\ exists a b c : string,
       unknown_version_message (Path_name dir) version
       = a +:+ Path_name dir +:+ b +:+ version +:+ c.
Proof.
  intros Hopen Hload Hv Hr e.
  assert (Hread : forall verbose m, venv_dir m = dir ->
                    read verbose (m, w) = (Raise e, (m, w))).
  { intros verbose m <-. apply (read_refused doc md); assumption. }
  split; [exact Hread|]. split.
  - unfold __init__. rewrite (Hread false (init_fields dir) eq_refl). reflexivity.
  - apply unknown_version_message_names.
Qed.

(** X5. A record of version 0.2 or 0.3 is converted by setting its
    source_interpreter to [None], whether or not it had one; whenever
    [from_dict] returns on such a record, the store has no source
    interpreter. *)
Theorem legacy_0_2_0_3_source_interpreter (m : PipxMetadata) (w : world)
    (md : list (string * value)) (version : string) :
  PyDict.get "pipx_metadata_version" md = Some (VStr version) ->
  version = "0.2" \/ version = "0.3" ->
  _convert_legacy_metadata (VDict md) (m, w)
  = (Return (VDict (PyDict.set "source_interpreter" VNone md)), (m, w))
  /\ forall st : PipxMetadata * world,
       from_dict (VDict md) (m, w) = (Return tt, st) ->
       source_interpreter st.1 = VNone.
Proof.
  intros Hv Hor.
  assert (Hc : _convert_legacy_metadata (VDict md) (m, w)
               = (Return (VDict (PyDict.set "source_interpreter" VNone md)), (m, w))).
  { unfold _convert_legacy_metadata. unfold_method. unfold subscript.
    rewrite Hv. destruct Hor as [-> | ->]; reflexivity. }
  split; [exact Hc|].
  intros st Hst.
  apply from_dict_returns in Hst
    as (d' & p & pv & si & va & inj & Hd' & _ & _ & Hsi & _ & _ & ->).
  rewrite Hc in Hd'. injection Hd' as <-.
  unfold mbind, outcome_bind, get_method in Hsi.
  rewrite get_set_eq in Hsi. cbn in Hsi. cbn. congruence.
Qed.

(** The rest of [from_dict] reads five keys of the converted record and
    nothing else. *)
Lemma from_dict_same_keys (d1 d2 : value) (c1 c2 : list (string * value))
    (m : PipxMetadata) (w : world) :
  (_convert_legacy_metadata d1 (m, w)).1 = Return (VDict c1) ->
  (_convert_legacy_metadata d2 (m, w)).1 = Return (VDict c2) ->
  (forall k, k ∈ ["main_package"; "python_version"; "source_interpreter";
                  "venv_args"; "injected_packages"] ->
             PyDict.get k c1 = PyDict.get k c2) ->
  from_dict d1 (m, w) = from_dict d2 (m, w).
Proof.
  intros H1 H2 Hk.
  remember (from_dict d2 (m, w)) as r2 eqn:Hr2.
  unfold from_dict in *.
  unfold mbind at 1. unfold mbind at 1 in Hr2. unfold method_bind in *.
  pose proof (convert_state d1 (m, w)) as Hs1.
  pose proof (convert_state d2 (m, w)) as Hs2.
  destruct (_convert_legacy_metadata d1 (m, w)) as [o1 s1].
  destruct (_convert_legacy_metadata d2 (m, w)) as [o2 s2].
  cbn [fst snd] in *. subst o1 o2 s1 s2 r2.
  unfold subscript, get_method.
  rewrite !(Hk "main_package"), !(Hk "python_version"),
    !(Hk "source_interpreter"), !(Hk "venv_args"), !(Hk "injected_packages");
    try reflexivity;
    repeat first [apply list_elem_of_here | apply list_elem_of_further].
Qed.

(** X6. The conversion of version 0.4 changes nothing that [from_dict]
    reads: it sets [pinned] at the top of the record, where no field is
    looked up.  A record of version 0.4 is therefore read exactly as the
    same record under version 0.5, outcome and store alike. *)
Theorem legacy_0_4_read_as_current (m : PipxMetadata) (w : world)
    (md : list (string * value)) :
  PyDict.get "pipx_metadata_version" md = Some (VStr "0.4") ->
  from_dict (VDict md) (m, w)
  = from_dict (VDict (PyDict.set "pipx_metadata_version" (VStr "0.5") md)) (m, w).
Proof.
  intros Hv.
  apply (from_dict_same_keys _ _
           (PyDict.set "pinned" (VBool false) md)
           (PyDict.set "pipx_metadata_version" (VStr "0.5") md)).
  - unfold _convert_legacy_metadata. unfold_method. unfold subscript.
    rewrite Hv. reflexivity.
  - unfold _convert_legacy_metadata. unfold_method. unfold subscript.
    rewrite get_set_eq. reflexivity.
  - intros k Hk. rewrite !get_set_ne; [reflexivity | |];
      intros ->; repeat (apply elem_of_cons in Hk as [Hk|Hk]; [discriminate|]);
      apply elem_of_nil in Hk; exact Hk.
Qed.

(** The conversion of a record of version 0.1. *)
Lemma convert_0_1 (m : PipxMetadata) (w : world)
    (md mp : list (string * value)) (pkg : string) :
  PyDict.get "pipx_metadata_version" md = Some (VStr "0.1") ->
  PyDict.get "main_package" md = Some (VDict mp) ->
  PyDict.get "package" mp = Some (VStr pkg) ->
  _convert_legacy_metadata (VDict md) (m, w)
  = (Return
       (VDict
          (PyDict.set "source_interpreter" VNone
             (if String.eqb pkg (Path_name (venv_dir m)) then md
              else PyDict.set "main_package"
                     (VDict (PyDict.set "suffix"
                               (VStr (PyStr.replace (Path_name (venv_dir m)) pkg ""))
                               mp)) md))),
     (m, w)).
Proof.
  intros Hv Hmp Hpkg.
  unfold _convert_legacy_metadata. unfold_method. unfold subscript.
  rewrite Hv, Hmp, Hpkg.
  change (str_in (VStr "0.1") __METADATA_VERSION__) with (@Return bool false).
  change (eq_str (VStr "0.1") "0.4") with false.
  change (eq_str (VStr "0.1") "0.2" || eq_str (VStr "0.1") "0.3") with false.
  change (eq_str (VStr "0.1") "0.1") with true.
  cbn [fst snd eq_str].
  destruct (String.eqb pkg (Path_name (venv_dir m))); reflexivity.
Qed.

(** X7. A record of version 0.1 whose package name is the name of the
    environment directory gets no suffix from the conversion: the main
    package is left as stored, and whenever [from_dict] returns, the suffix
    of the store is the stored one, or the empty string when none was
    stored, and there is no source interpreter. *)
Theorem legacy_0_1_same_name (m : PipxMetadata) (w : world)
    (md mp : list (string * value)) :
  PyDict.get "pipx_metadata_version" md = Some (VStr "0.1") ->
  PyDict.get "main_package" md = Some (VDict mp) ->
  PyDict.get "package" mp = Some (VStr (Path_name (venv_dir m))) ->
  _convert_legacy_metadata (VDict md) (m, w)
  = (Return (VDict (PyDict.set "source_interpreter" VNone md)), (m, w))
  /\ forall st : PipxMetadata * world,
       from_dict (VDict md) (m, w) = (Return tt, st) ->
       suffix (main_package st.1) = default (VStr "") (PyDict.get "suffix" mp)
       /\ source_interpreter st.1 = VNone.
Proof.
  intros Hv Hmp Hpkg.
  pose proof (convert_0_1 m w md mp _ Hv Hmp Hpkg) as Hc.
  rewrite String.eqb_refl in Hc.
  split; [exact Hc|].
  intros st Hst.
  apply from_dict_returns in Hst
    as (d' & p & pv & si & va & inj & Hd' & Hnew & _ & Hsi & _ & _ & ->).
  rewrite Hc in Hd'. injection Hd' as <-.
  unfold mbind, outcome_bind, subscript, get_method in Hnew, Hsi.
  rewrite get_set_ne in Hnew by discriminate. rewrite Hmp in Hnew.
  rewrite get_set_eq in Hsi. cbn in Hsi. cbn.
  apply PackageInfo_new_defaults in Hnew as [Hsfx _].
  split; [exact Hsfx | congruence].
Qed.

(** X8. The suffix of an old installation is recovered.  For a record of
    version 0.1 in a directory named package name + suffix, where the
    package name is not empty and does not occur inside the suffix, and the
    suffix is not empty, the conversion stores exactly that suffix, and
    whenever [from_dict] returns, it is the suffix of the store's main
    package. *)
Theorem legacy_0_1_recovers_suffix (m : PipxMetadata) (w : world)
    (md mp : list (string * value)) (pkg sfx : string) :
  PyDict.get "pipx_metadata_version" md = Some (VStr "0.1") ->
  PyDict.get "main_package" md = Some (VDict mp) ->
  PyDict.get "package" mp = Some (VStr pkg) ->
  Path_name (venv_dir m) = pkg +:+ sfx ->
  pkg <> "" ->
  sfx <> "" ->
  PyStr.contains pkg sfx = false ->
  (exists md' mp' : list (string * value),
     _convert_legacy_metadata (VDict md) (m, w) = (Return (VDict md'), (m, w))
     /\ PyDict.get "main_package" md' = Some (VDict mp')
     /\ PyDict.get "suffix" mp' = Some (VStr sfx))
  /\ forall st : PipxMetadata * world,
       from_dict (VDict md) (m, w) = (Return tt, st) ->
       suffix (main_package st.1) = VStr sfx.
Proof.
  intros Hv Hmp Hpkg Hname Hpne Hsne Hc.
  pose proof (convert_0_1 m w md mp pkg Hv Hmp Hpkg) as Hconv.
  rewrite Hname in Hconv.
  rewrite (proj2 (String.eqb_neq _ _) (append_neq_l pkg sfx Hsne)) in Hconv.
  rewrite (replace_prefix pkg sfx Hpne Hc) in Hconv.
  set (mp' := PyDict.set "suffix" (VStr sfx) mp) in *.
  set (md' := PyDict.set "source_interpreter" VNone
                (PyDict.set "main_package" (VDict mp') md)) in *.
  assert (Hmp' : PyDict.get "main_package" md' = Some (VDict mp')).
  { unfold md'. rewrite get_set_ne by discriminate. apply get_set_eq. }
  split.
  - exists md', mp'. split; [exact Hconv|]. split; [exact Hmp' | apply get_set_eq].
  - intros st Hst.
    apply from_dict_returns in Hst
      as (d' & p & pv & si & va & inj & Hd' & Hnew & _ & _ & _ & _ & ->).
    rewrite Hconv in Hd'. injection Hd' as <-.
    unfold mbind, outcome_bind, subscript in Hnew. rewrite Hmp' in Hnew.
    change (suffix p = VStr sfx).
    apply PackageInfo_new_defaults in Hnew as [-> _].
    unfold mp'. rewrite get_set_eq. reflexivity.
Qed.

(** ** Making instances of [PackageInfo] *)

(** X9. [PackageInfo] made of the dictionary that [asdict] gives of an
    instance is that instance; and whatever the argument, the only error of
    the constructor is [TypeError]. *)
Theorem PackageInfo_new_asdict (p : PackageInfo) :
  PackageInfo_new (asdict p) = Return p
  /\ forall (v : value) (e : exn), PackageInfo_new v = Raise e -> e = TypeError.
Proof.
  split; [destruct p; reflexivity|].
  intros v e. unfold PackageInfo_new, required. unfold mbind, outcome_bind.
  destruct v as [| | | | |d|]; try congruence.
  destruct (forallb _ _); [|congruence].
  repeat match goal with
         | |- context [match PyDict.get ?k d with Some _ => _ | None => _ end] =>
             destruct (PyDict.get k d)
         end; congruence.
Qed.

Lemma PackageInfo_new_fits (d : list (string * value)) :
  if fits_PackageInfo d
  then exists p, PackageInfo_new (VDict d) = Return p
                 /\ forall k v, PyDict.get k d = Some v ->
                                subscript (asdict p) k = Return v
  else PackageInfo_new (VDict d) = Raise TypeError.
Proof.
  unfold fits_PackageInfo, PackageInfo_new, required. unfold mbind, outcome_bind.
  destruct (forallb (fun k => bool_decide (k ∈ PackageInfo_fields)) (PyDict.keys d))
    eqn:Hknown; cbn [andb]; [|reflexivity].
  unfold PackageInfo_required, PyDict.mem. cbn [forallb].
  repeat match goal with
         | |- context [match PyDict.get ?k d with Some _ => _ | None => _ end] =>
             let E := fresh "E" in destruct (PyDict.get k d) eqn:E; cbn [andb]
         end; try reflexivity.
  eexists. split; [reflexivity|].
  intros k x Hk.
  rewrite forallb_elem_of in Hknown.
  assert (Hin : k ∈ PackageInfo_fields).
  { apply (bool_decide_eq_true_1 _), Hknown.
    change k with (k, x).1. apply list_elem_of_fmap_2, get_Some_in, Hk. }
  unfold PackageInfo_fields in Hin.
  repeat (apply elem_of_cons in Hin as [->|Hin];
          [unfold asdict, subscript; cbn; rewrite ?Hk; cbn; congruence|]).
  apply elem_of_nil in Hin. contradiction.
Qed.

(** X10. [PackageInfo] accepts a dictionary of keyword arguments exactly
    when every key names a field and the ten fields without a default are
    given; then every argument is the value of its field, and otherwise the
    call raises [TypeError].  So a stored main package with a key that names
    no field, or without one of the ten, makes [from_dict] raise [TypeError]
    before it assigns anything. *)
Theorem PackageInfo_new_accepts (d : list (string * value)) :
  (fits_PackageInfo d = true ->
   exists p : PackageInfo,
     PackageInfo_new (VDict d) = Return p
     /\ forall k v, PyDict.get k d = Some v -> subscript (asdict p) k = Return v)
  /\ (fits_PackageInfo d = false -> PackageInfo_new (VDict d) = Raise TypeError)
  /\ (fits_PackageInfo d = false ->
      forall (record : value) (c : list (string * value))
             (m : PipxMetadata) (w : world),
        (_convert_legacy_metadata record (m, w)).1 = Return (VDict c) ->
        PyDict.get "main_package" c = Some (VDict d) ->
        from_dict record (m, w) = (Raise TypeError, (m, w))).
Proof.
  pose proof (PackageInfo_new_fits d) as Hfit.
  destruct (fits_PackageInfo d).
  - split; [intros _; exact Hfit|]. split; discriminate.
  - split; [discriminate|]. split; [intros _; exact Hfit|].
    intros _ record c m w Hc Hmp.
    unfold from_dict. unfold mbind at 1. unfold method_bind.
    pose proof (convert_state record (m, w)) as Hst.
    destruct (_convert_legacy_metadata record (m, w)) as [o st0].
    cbn [fst snd] in *. subst o st0.
    unfold_method. unfold subscript. rewrite Hmp, Hfit. reflexivity.
Qed.

(** X11. [from_dict] assigns field by field and stops at the first error:
    when the converted record has a main package that can be made but no
    key python_version, it raises [KeyError] after the main package of the
    store was replaced, and the other fields are the old ones. *)
Theorem from_dict_stops_half_way (record : value) (c : list (string * value))
    (p : PackageInfo) (m : PipxMetadata) (w : world) :
  (_convert_legacy_metadata record (m, w)).1 = Return (VDict c) ->
  (subscript (VDict c) "main_package" ≫= PackageInfo_new) = Return p ->
  PyDict.get "python_version" c = None ->
  from_dict record (m, w)
  = (Raise (KeyError "python_version"), (set_main_package p m, w)).
Proof.
  intros Hc Hp Hpv.
  unfold from_dict. unfold mbind at 1. unfold method_bind.
  pose proof (convert_state record (m, w)) as Hst.
  destruct (_convert_legacy_metadata record (m, w)) as [o st0].
  cbn [fst snd] in *. subst o st0.
  unfold_method. rewrite Hp. cbn [fst snd]. unfold subscript. rewrite Hpv.
  reflexivity.
Qed.

(** ** [to_dict] and [from_dict] without a file *)

Lemma injected_comprehension_asdict (l acc : list (string * PackageInfo)) :
  injected_comprehension (map (fun np => (np.1, asdict np.2)) l) acc
  = Return
      (fold_left
         (fun acc np => PyDict.set (np.1 +:+ format (suffix np.2)) np.2 acc) l acc).
Proof.
  revert acc. induction l as [|[name p] l IH]; intros acc; [reflexivity|].
  cbn [map fst snd injected_comprehension fold_left].
  replace (get_method (asdict p) "suffix" (VStr "")) with (Return (suffix p))
    by (destruct p; reflexivity).
  replace (PackageInfo_new (asdict p)) with (Return p)
    by (destruct p; reflexivity).
  unfold mbind, outcome_bind. apply IH.
Qed.

(** X12. [from_dict] undoes [to_dict].  For a store whose source
    interpreter is [None] or a path and whose injected packages have
    distinct keys and empty suffixes, [from_dict] of [to_dict] of the store
    returns and assigns to any store exactly the fields of the first, the
    injected packages in their order; the directory of the receiving store
    stays its own. *)
Theorem from_dict_of_to_dict (m m0 : PipxMetadata) (w : world) :
  is_optional (fun v => match v with VPath _ => true | _ => false end)
    (source_interpreter m) = true ->
  NoDup (PyDict.keys (injected_packages m)) ->
  injected_unsuffixed m = true ->
  from_dict (to_dict m) (m0, w)
  = (Return tt,
     ({| venv_dir := venv_dir m0;
         main_package := main_package m;
         python_version := python_version m;
         source_interpreter := source_interpreter m;
         venv_args := venv_args m;
         injected_packages := injected_packages m |}, w)).
Proof.
  intros Hsi Hnd Hs.
  apply from_dict_returns.
  exists (to_dict m), (main_package m), (python_version m),
    (source_interpreter m), (venv_args m), (injected_packages m).
  split; [reflexivity|].
  split.
  { change (subscript (to_dict m) "main_package" ≫= PackageInfo_new)
      with (PackageInfo_new (asdict (main_package m))).
    destruct (main_package m). reflexivity. }
  split; [reflexivity|].
  split.
  { unfold is_optional in Hsi.
    destruct (source_interpreter m) eqn:E; try discriminate;
      unfold to_dict, mbind, outcome_bind, get_method, subscript; cbn;
      rewrite E; reflexivity. }
  split; [reflexivity|].
  split; [|reflexivity].
  assert (Hinj : subscript (to_dict m) "injected_packages"
                 = Return (VDict (map (fun nd => (nd.1, asdict nd.2))
                                    (injected_packages m)))) by reflexivity.
  unfold mbind, outcome_bind. rewrite Hinj.
  cbn [items_method]. rewrite injected_comprehension_asdict.
  f_equal.
  rewrite (filing_fresh (fun np => np.1 +:+ format (suffix np.2)) (fun np => np.2)).
  - cbn [app]. unfold injected_unsuffixed in Hs. rewrite forallb_elem_of in Hs.
    rewrite <- (map_id (injected_packages m)) at 2.
    apply map_ext_in. intros [name p] Hnp. apply list_elem_of_In in Hnp.
    specialize (Hs _ Hnp). cbn [fst snd] in *.
    destruct (suffix p) as [| | |s| | |]; try discriminate.
    apply String.eqb_eq in Hs. subst s. cbn [format]. rewrite append_nil_r.
    reflexivity.
  - cbn [PyDict.keys map app].
    erewrite map_ext_in; [exact Hnd|].
    intros [name p] Hnp. apply list_elem_of_In in Hnp.
    unfold injected_unsuffixed in Hs. rewrite forallb_elem_of in Hs.
    specialize (Hs _ Hnp). cbn [fst snd] in *.
    destruct (suffix p) as [| | |s| | |]; try discriminate.
    apply String.eqb_eq in Hs. subst s. cbn [format]. apply append_nil_r.
Qed.

(** ** The encoder and the decoder hook *)

(** X13. What [json.dump] with [JsonEncoderHandlesPath] writes of a value,
    [json.load] with the decoder hook reads back as an equal value, with
    every path a path again at its place, provided the value is storable:
    its paths are path objects, its dictionaries have distinct keys and
    none has both the key __type__ with the value Path and the key
    __Path__. *)
Theorem json_round_trip (v : value) :
  storable v = true ->
  exists v' : value,
    json_load (json_dump v) = Return v'
    /\ value_eqb v v' = true
    /\ v' = sorted_copy v
    /\ storable v' = true.
Proof.
  intros Hs. exists (sorted_copy v).
  split; [apply json_load_dump, Hs|].
  split; [apply value_eqb_sorted_copy, Hs|].
  split; [reflexivity|].
  induction v as [| | | |l IH|d IH|p] using value_ind; try exact Hs.
  - cbn [storable sorted_copy] in *. rewrite forallb_elem_of in Hs |- *.
    rewrite Forall_forall in IH. intros x Hx.
    apply list_elem_of_fmap in Hx as (y & -> & Hy). apply (IH y Hy), Hs, Hy.
  - cbn [storable sorted_copy] in *.
    apply andb_true_iff in Hs as [Hs Hall].
    apply andb_true_iff in Hs as [Hnd Htag].
    apply bool_decide_eq_true in Hnd.
    rewrite sorted_items_map, (tagged_sorted_copy d Hnd), Htag.
    rewrite keys_map, (bool_decide_eq_true_2 _ (sorted_items_keys_NoDup d Hnd)).
    cbn [negb andb]. rewrite forallb_elem_of in Hall |- *.
    rewrite Forall_forall in IH. intros x Hx.
    apply list_elem_of_fmap in Hx as (y & -> & Hy). cbn [snd].
    rewrite sorted_items_Permutation in Hy. apply (IH y Hy), Hall, Hy.
Qed.

Lemma of_pairs_keys_NoDup {A : Type} (l : list (string * A)) :
  NoDup (PyDict.keys (PyDict.of_pairs l)).
Proof.
  unfold PyDict.of_pairs.
  apply (filing_keys_NoDup (fun kv : string * A => kv.1) (fun kv => kv.2)).
  apply NoDup_nil_2.
Qed.

Lemma of_pairs_elem_of {A : Type} (x : string * A) (l : list (string * A)) :
  x ∈ PyDict.of_pairs l -> x ∈ l.
Proof.
  unfold PyDict.of_pairs. intros Hx.
  destruct (filing_elem_of (fun kv : string * A => kv.1) (fun kv => kv.2) x l [] Hx)
    as [Hnil|([k v] & Hb & ->)]; [apply elem_of_nil in Hnil; contradiction|].
  exact Hb.
Qed.

(** X14. Whatever document [json.load] with the decoder hook reads, the
    value it returns is decoded throughout: at every depth the dictionaries
    have distinct keys and none of them still has the shape of an encoded
    path, because the hook has turned each of those into a path. *)
Theorem json_load_decoded (j : json) (v : value) :
  json_load j = Return v -> decoded v = true.
Proof.
  revert v. induction j as [| | | |l IH|m IH] using json_ind; intros v;
    cbn [json_load]; try (intros [= <-]; reflexivity).
  - assert (Hl : forall vs,
              (fix elements (l : list json) : outcome (list value) :=
                 match l with
                 | [] => Return []
                 | j :: r => v ← json_load j; vs ← elements r; Return (v :: vs)
                 end) l = Return vs -> forallb decoded vs = true).
    { induction IH as [|x l Hx _ IHl]; intros vs; [intros [= <-]; reflexivity|].
      unfold mbind, outcome_bind in *.
      destruct (json_load x) as [vx|] eqn:Ex; [|discriminate].
      match goal with
      | |- context [match ?t with Return _ => _ | Raise _ => _ end] =>
          destruct t as [vr|] eqn:Er; [|discriminate]
      end.
      intros [= <-]. cbn. rewrite (Hx vx eq_refl), (IHl vr eq_refl). reflexivity. }
    unfold mbind, outcome_bind.
    match goal with
    | |- context [match ?t with Return _ => _ | Raise _ => _ end] =>
        destruct t as [vs|] eqn:Es; [|discriminate]
    end.
    intros [= <-]. cbn. apply (Hl vs Es).
  - assert (Hm : forall kvs,
              (fix members (m : list (string * json))
                 : outcome (list (string * value)) :=
                 match m with
                 | [] => Return []
                 | (k, j) :: r =>
                     v ← json_load j; kvs ← members r; Return ((k, v) :: kvs)
                 end) m = Return kvs ->
              forallb (fun kv => decoded kv.2) kvs = true).
    { induction IH as [|[k x] m Hx _ IHm]; intros kvs; [intros [= <-]; reflexivity|].
      unfold mbind, outcome_bind in *. cbn [snd] in Hx.
      destruct (json_load x) as [vx|] eqn:Ex; [|discriminate].
      match goal with
      | |- context [match ?t with Return _ => _ | Raise _ => _ end] =>
          destruct t as [vr|] eqn:Er; [|discriminate]
      end.
      intros [= <-]. cbn. rewrite (Hx vx eq_refl), (IHm vr eq_refl). reflexivity. }
    unfold mbind, outcome_bind.
    match goal with
    | |- context [match ?t with Return _ => _ | Raise _ => _ end] =>
        destruct t as [kvs|] eqn:Es; [|discriminate]
    end.
    specialize (Hm kvs Es).
    unfold _json_decoder_object_hook.
    fold (tagged (PyDict.of_pairs kvs)).
    destruct (tagged (PyDict.of_pairs kvs)) eqn:Htag.
    + unfold mbind, outcome_bind.
      destruct (subscript (VDict (PyDict.of_pairs kvs)) "__Path__") as [x|];
        [|discriminate].
      destruct x; cbn; intros [= <-]; reflexivity.
    + intros [= <-]. cbn [decoded]. rewrite Htag.
      rewrite (bool_decide_eq_true_2 _ (of_pairs_keys_NoDup kvs)). cbn [negb andb].
      rewrite forallb_elem_of in Hm |- *.
      intros x Hx. apply Hm, of_pairs_elem_of, Hx.
Qed.

(** X15. The document that [json.dump] writes does not depend on the order
    in which a dictionary holds its items ([sort_keys=True]): two
    dictionaries with the same items and distinct keys are dumped alike, and
    so are two stores that differ only in the order of their injected
    packages. *)
Theorem json_dump_any_order (d d' : list (string * value)) :
  d ≡ₚ d' ->
  NoDup (PyDict.keys d) ->
  json_dump (VDict d) = json_dump (VDict d')
  /\ forall (m : PipxMetadata) (injected injected' : list (string * PackageInfo)),
       injected ≡ₚ injected' ->
       NoDup (PyDict.keys injected) ->
       json_dump (to_dict (set_injected_packages injected m))
       = json_dump (to_dict (set_injected_packages injected' m)).
Proof.
  intros Hp Hnd.
  assert (Hdump : forall d d' : list (string * value),
            d ≡ₚ d' -> NoDup (PyDict.keys d) ->
            json_dump (VDict d) = json_dump (VDict d')).
  { clear. intros d d' Hp Hnd. cbn [json_dump]. f_equal.
    apply sorted_items_unique.
    - apply Permutation_map, Hp.
    - rewrite keys_map. exact Hnd. }
  split; [apply Hdump; assumption|].
  intros m injected injected' Hpi Hndi.
  unfold to_dict. cbn [json_dump map fst snd injected_packages main_package
    python_version source_interpreter venv_args set_injected_packages].
  assert (Heq : json_dump (VDict (map (fun nd => (nd.1, asdict nd.2)) injected))
                = json_dump (VDict (map (fun nd => (nd.1, asdict nd.2)) injected'))).
  { apply Hdump.
    - apply Permutation_map, Hpi.
    - rewrite (keys_map asdict). exact Hndi. }
  cbn [json_dump] in Heq. rewrite Heq. reflexivity.
Qed.

(** ** Reading and writing again *)

Lemma json_dump_sorted_copy (v : value) : json_dump (sorted_copy v) = json_dump v.
Proof.
  induction v as [| | | |l IH|d IH|p] using value_ind; try reflexivity.
  - cbn [sorted_copy json_dump]. f_equal. rewrite map_map.
    apply map_ext_in. intros x Hx. rewrite Forall_forall in IH.
    apply IH, list_elem_of_In, Hx.
  - cbn [sorted_copy json_dump]. f_equal.
    rewrite <- (sorted_items_map json_dump), sorted_items_idemp, map_map.
    f_equal. apply map_ext_in. intros x Hx. rewrite Forall_forall in IH.
    cbn [fst snd]. f_equal. apply IH, list_elem_of_In, Hx.
Qed.

Lemma json_dump_asdict_copy (p : PackageInfo) :
  json_dump (asdict (PackageInfo_copy p)) = json_dump (asdict p).
Proof.
  destruct p. unfold asdict, PackageInfo_copy.
  cbn [json_dump map fst snd package package_or_url pip_args include_dependencies
         include_apps apps app_paths apps_of_dependencies
         app_paths_of_dependencies package_version man_pages man_paths
         man_pages_of_dependencies man_paths_of_dependencies suffix pinned].
  rewrite !json_dump_sorted_copy. reflexivity.
Qed.

Lemma to_dict_copy_dump (m : PipxMetadata) :
  json_dump (to_dict (PipxMetadata_copy m)) = json_dump (to_dict m).
Proof.
  unfold to_dict, PipxMetadata_copy.
  cbn [json_dump map fst snd injected_packages main_package python_version
         source_interpreter venv_args].
  rewrite json_dump_asdict_copy, !json_dump_sorted_copy.
  do 7 f_equal.
  rewrite !map_map. cbn [fst snd].
  rewrite (map_ext _ (fun np => (np.1, json_dump (asdict np.2))))
    by (intros; rewrite json_dump_asdict_copy; reflexivity).
  rewrite <- (sorted_items_map (fun p => json_dump (asdict p))).
  rewrite sorted_items_idemp. reflexivity.
Qed.

Lemma main_package_valid_copy (m : PipxMetadata) :
  main_package_valid (PipxMetadata_copy m) = main_package_valid m.
Proof.
  unfold main_package_valid, PipxMetadata_copy, PackageInfo_copy.
  cbn [main_package package package_or_url include_apps].
  assert (Hn : forall x, is_None (sorted_copy x) = is_None x) by (intros []; reflexivity).
  assert (Ht : forall x, truthy (sorted_copy x) = truthy x).
  { intros [| | | |l|d|]; try reflexivity.
    - destruct l; reflexivity.
    - destruct d as [|kv d]; [reflexivity|]. cbn.
      destruct (PyDict.sorted_items _) as [|kv' r]; [reflexivity|].
      cbn. destruct (String.leb _ _); reflexivity. }
  rewrite !Hn, Ht. reflexivity.
Qed.

(** X16. Writing again what was just read changes nothing.  For a typed
    store that passes the gate, with injected packages without suffix and an
    available metadata file: after [write], the store that a new
    [PipxMetadata] reads from the file writes, on its own [write], the same
    document, so that the world stays exactly as the first [write] left it. *)
Theorem rewrite_after_read (m : PipxMetadata) (w : world) :
  PipxMetadata_typed m = true ->
  main_package_valid m = true ->
  injected_unsuffixed m = true ->
  available w (venv_dir m, PIPX_INFO_FILENAME) = true ->
  exists (w1 : world) (m' : PipxMetadata),
    write (m, w) = (Return tt, (m, w1))
    /\ __init__ (venv_dir m) true w1 = (Return m', w1)
    /\ json_dump (to_dict m') = json_dump (to_dict m)
    /\ write (m', w1) = (Return tt, (m', w1)).
Proof.
  intros Ht Hv Hs Ha.
  destruct (write_then_init m w Ht Hv Ha) as (w1 & Hwrite & Hinit).
  pose proof (PipxMetadata_typed_fields m Ht) as (_ & _ & _ & _ & Hnd & _).
  rewrite (rekeyed_unsuffixed _ Hnd Hs) in Hinit.
  exists w1, (PipxMetadata_copy m).
  split; [exact Hwrite|]. split; [destruct m; exact Hinit|].
  split; [apply to_dict_copy_dump|].
  assert (Hopen : open_w w (venv_dir m, PIPX_INFO_FILENAME) (json_dump (to_dict m))
                  = Return w1).
  { rewrite (write_valid_open_w m w Hv) in Hwrite.
    rewrite (available_open_w w _ (json_dump (to_dict m)) Ha) in Hwrite |- *.
    congruence. }
  rewrite (write_valid_open_w (PipxMetadata_copy m) w1)
    by (rewrite main_package_valid_copy; exact Hv).
  rewrite to_dict_copy_dump.
  change (venv_dir (PipxMetadata_copy m)) with (venv_dir m).
  rewrite (open_w_again _ _ _ _ Hopen). reflexivity.
Qed.

(** X17. What comes back from the file in general.  For a typed store that
    passes the gate and an available metadata file, also when injected
    packages have suffixes: [write] returns, a new store for the directory
    is made, its main package, Python version, source interpreter and
    arguments are equal to those written, and its injected packages are the
    written ones filed anew: never more of them than were written, under
    distinct keys, each under the stored key followed by the suffix of its
    package. *)
Theorem write_read_fields (m : PipxMetadata) (w : world) :
  PipxMetadata_typed m = true ->
  main_package_valid m = true ->
  available w (venv_dir m, PIPX_INFO_FILENAME) = true ->
  exists (w1 : world) (m' : PipxMetadata),
    write (m, w) = (Return tt, (m, w1))
    /\ __init__ (venv_dir m) true w1 = (Return m', w1)
    /\ venv_dir m' = venv_dir m
    /\ PackageInfo_eqb (main_package m) (main_package m') = true
    /\ value_eqb (python_version m) (python_version m') = true
    /\ value_eqb (source_interpreter m) (source_interpreter m') = true
    /\ value_eqb (venv_args m) (venv_args m') = true
    /\ injected_packages m' = rekeyed (injected_packages m)
    /\ length (injected_packages m') <= length (injected_packages m)
    /\ NoDup (PyDict.keys (injected_packages m'))
    /\ forall (k : string) (p' : PackageInfo),
         (k, p') ∈ injected_packages m' ->
         exists (name : string) (p : PackageInfo),
           (name, p) ∈ injected_packages m
           /\ k = name +:+ format (suffix p)
           /\ PackageInfo_eqb p p' = true.
Proof.
  intros Ht Hv Ha.
  destruct (write_then_init m w Ht Hv Ha) as (w1 & Hwrite & Hinit).
  pose proof (PipxMetadata_typed_fields m Ht) as (Htm & Hf3 & Hf2 & Hf1 & Hnd & Hti).
  exists w1, (set_injected_packages (rekeyed (injected_packages m)) (PipxMetadata_copy m)).
  split; [exact Hwrite|]. split; [exact Hinit|].
  cbn [set_injected_packages PipxMetadata_copy venv_dir main_package python_version
         source_interpreter venv_args injected_packages].
  split; [reflexivity|].
  split; [apply PackageInfo_eqb_copy, Htm|].
  split.
  { apply value_eqb_sorted_copy, (is_optional_storable is_str);
      [apply is_str_storable | exact Hf3]. }
  split.
  { apply value_eqb_sorted_copy, (is_optional_storable is_path);
      [apply is_path_storable | exact Hf2]. }
  split.
  { apply value_eqb_sorted_copy, (is_list_of_storable is_str);
      [apply is_str_storable | exact Hf1]. }
  split; [reflexivity|].
  split.
  { unfold rekeyed.
    pose proof (filing_length (fun np : string * PackageInfo => np.1 +:+ format (suffix np.2))
                  (fun np => PackageInfo_copy np.2)
                  (PyDict.sorted_items (injected_packages m)) []) as Hle.
    rewrite (sorted_items_Permutation (injected_packages m)) in Hle at 2.
    exact Hle. }
  split.
  { unfold rekeyed. apply filing_keys_NoDup, NoDup_nil_2. }
  intros k p' Hin. unfold rekeyed in Hin.
  apply filing_elem_of in Hin as [Hnil|([name p] & Hb & Heq)];
    [apply elem_of_nil in Hnil; contradiction|].
  injection Heq as -> ->. rewrite sorted_items_Permutation in Hb.
  exists name, p. split; [exact Hb|]. split; [reflexivity|].
  rewrite forallb_elem_of in Hti. apply PackageInfo_eqb_copy, (Hti _ Hb).
Qed.

End Further.

(** * Concrete runs of the further properties *)

Section FurtherRuns.
Import Examples.
Local Existing Instance Posix.externals.

Lemma read_unopenable_warns_witness :
  let m := store [] in
  open_rb nothing (venv_dir m, PIPX_INFO_FILENAME) = Raise OSError
  /\ (read true (m, nothing)).1 = Return tt
  /\ log (read true (m, nothing)).2.2 = [read_warning m].
Proof.
  intros m.
  assert (Ho : open_rb nothing (venv_dir m, PIPX_INFO_FILENAME) = Raise OSError)
    by (vm_compute; reflexivity).
  split; [exact Ho|].
  destruct (read_unopenable_warns true m nothing Ho) as (Hret & Hlog & _).
  split; [exact Hret | exact Hlog].
Defined.

Lemma unknown_version_refused_witness :
  let doc := json_dump (VDict (record "9.9")) in
  let w := holding venv doc in
  let md := PyDict.sorted_items
              (map (fun kv => (kv.1, sorted_copy kv.2)) (record "9.9")) in
  (open_rb w (venv, PIPX_INFO_FILENAME) = Return doc
   /\ json_load doc = Return (VDict md)
   /\ PyDict.get "pipx_metadata_version" md = Some (VStr "9.9")
   /\ refused "9.9" = true)
  /\ __init__ venv true w
     = (Raise (PipxError (unknown_version_message (Path_name venv) "9.9")), w).
Proof.
  intros doc w md.
  assert (Ho : open_rb w (venv, PIPX_INFO_FILENAME) = Return doc)
    by (vm_compute; reflexivity).
  assert (Hl : json_load doc = Return (VDict md)) by (vm_compute; reflexivity).
  assert (Hv : PyDict.get "pipx_metadata_version" md = Some (VStr "9.9"))
    by (vm_compute; reflexivity).
  assert (Hr : refused "9.9" = true) by (vm_compute; reflexivity).
  split; [auto|].
  exact (proj1 (proj2 (unknown_version_refused venv w doc md "9.9" Ho Hl Hv Hr))).
Defined.

Lemma legacy_0_2_0_3_source_interpreter_witness :
  let m := init_fields venv in
  (PyDict.get "pipx_metadata_version" (record "0.3") = Some (VStr "0.3")
   /\ ("0.3" = "0.2" \/ "0.3" = "0.3"))
  /\ PyDict.get "source_interpreter" (record "0.3") = Some (VPath "/usr/bin/python3")
  /\ exists st : PipxMetadata * world,
       from_dict (VDict (record "0.3")) (m, nothing) = (Return tt, st)
       /\ source_interpreter st.1 = VNone.
Proof.
  intros m.
  split; [split; [reflexivity | right; reflexivity]|].
  split; [reflexivity|].
  destruct (legacy_0_2_0_3_source_interpreter m nothing (record "0.3") "0.3"
              eq_refl (or_intror eq_refl)) as [_ Hret].
  exists (from_dict (VDict (record "0.3")) (m, nothing)).2.
  assert (Hrun : from_dict (VDict (record "0.3")) (m, nothing)
                 = (Return tt, (from_dict (VDict (record "0.3")) (m, nothing)).2))
    by (vm_compute; reflexivity).
  split; [exact Hrun | exact (Hret _ Hrun)].
Defined.

Lemma legacy_0_4_read_as_current_witness :
  let m := init_fields venv in
  PyDict.get "pipx_metadata_version" (record "0.4") = Some (VStr "0.4")
  /\ from_dict (VDict (record "0.4")) (m, nothing)
     = from_dict (VDict (record "0.5")) (m, nothing).
Proof.
  intros m. split; [reflexivity|].
  exact (legacy_0_4_read_as_current m nothing (record "0.4") eq_refl).
Defined.

Lemma legacy_0_1_same_name_witness :
  let m := init_fields venv in
  (PyDict.get "pipx_metadata_version" record_0_1 = Some (VStr "0.1")
   /\ PyDict.get "main_package" record_0_1 = Some (VDict main_package_0_1)
   /\ PyDict.get "package" main_package_0_1 = Some (VStr (Path_name (venv_dir m))))
  /\ exists st : PipxMetadata * world,
       from_dict (VDict record_0_1) (m, nothing) = (Return tt, st)
       /\ suffix (main_package st.1) = VStr ""
       /\ source_interpreter st.1 = VNone.
Proof.
  intros m.
  assert (Hpk : PyDict.get "package" main_package_0_1
                = Some (VStr (Path_name (venv_dir m)))) by (vm_compute; reflexivity).
  split; [repeat split; exact Hpk|].
  destruct (legacy_0_1_same_name m nothing record_0_1 main_package_0_1
              eq_refl eq_refl Hpk) as [_ Hret].
  exists (from_dict (VDict record_0_1) (m, nothing)).2.
  assert (Hrun : from_dict (VDict record_0_1) (m, nothing)
                 = (Return tt, (from_dict (VDict record_0_1) (m, nothing)).2))
    by (vm_compute; reflexivity).
  split; [exact Hrun | exact (Hret _ Hrun)].
Defined.

Lemma legacy_0_1_recovers_suffix_witness :
  let m := init_fields venv_special in
  (PyDict.get "pipx_metadata_version" record_0_1 = Some (VStr "0.1")
   /\ PyDict.get "main_package" record_0_1 = Some (VDict main_package_0_1)
   /\ PyDict.get "package" main_package_0_1 = Some (VStr "foo")
   /\ Path_name (venv_dir m) = "foo" +:+ "-special"
   /\ "foo" <> ""
   /\ "-special" <> ""
   /\ PyStr.contains "foo" "-special" = false)
  /\ exists st : PipxMetadata * world,
       from_dict (VDict record_0_1) (m, nothing) = (Return tt, st)
       /\ suffix (main_package st.1) = VStr "-special".
Proof.
  intros m.
  assert (Hname : Path_name (venv_dir m) = "foo" +:+ "-special")
    by (vm_compute; reflexivity).
  assert (Hp : "foo" <> "") by discriminate.
  assert (Hs : "-special" <> "") by discriminate.
  assert (Hc : PyStr.contains "foo" "-special" = false) by (vm_compute; reflexivity).
  split; [repeat split; assumption|].
  destruct (legacy_0_1_recovers_suffix m nothing record_0_1 main_package_0_1
              "foo" "-special" eq_refl eq_refl eq_refl Hname Hp Hs Hc) as [_ Hret].
  exists (from_dict (VDict record_0_1) (m, nothing)).2.
  assert (Hrun : from_dict (VDict record_0_1) (m, nothing)
                 = (Return tt, (from_dict (VDict record_0_1) (m, nothing)).2))
    by (vm_compute; reflexivity).
  split; [exact Hrun | exact (Hret _ Hrun)].
Defined.

Lemma from_dict_stops_half_way_witness :
  let m := store [] in
  let c := record_without_python_version in
  ((_convert_legacy_metadata (VDict c) (m, nothing)).1 = Return (VDict c)
   /\ (subscript (VDict c) "main_package" ≫= PackageInfo_new) = Return info_0_4
   /\ PyDict.get "python_version" c = None)
  /\ from_dict (VDict c) (m, nothing)
     = (Raise (KeyError "python_version"), (set_main_package info_0_4 m, nothing)).
Proof.
  intros m c.
  assert (Hc : (_convert_legacy_metadata (VDict c) (m, nothing)).1 = Return (VDict c))
    by (vm_compute; reflexivity).
  assert (Hp : (subscript (VDict c) "main_package" ≫= PackageInfo_new)
               = Return info_0_4) by (vm_compute; reflexivity).
  assert (Hpv : PyDict.get "python_version" c = None) by (vm_compute; reflexivity).
  split; [auto|].
  exact (from_dict_stops_half_way (VDict c) c info_0_4 m nothing Hc Hp Hpv).
Defined.

Lemma from_dict_of_to_dict_witness :
  let m := store [("bar", bar_info ""); ("abc", bar_info "")] in
  (is_optional (fun v => match v with VPath _ => true | _ => false end)
     (source_interpreter m) = true
   /\ NoDup (PyDict.keys (injected_packages m))
   /\ injected_unsuffixed m = true)
  /\ from_dict (to_dict m) (init_fields venv, nothing) = (Return tt, (m, nothing)).
Proof.
  intros m.
  assert (Hsi : is_optional (fun v => match v with VPath _ => true | _ => false end)
                  (source_interpreter m) = true) by (vm_compute; reflexivity).
  assert (Hnd : NoDup (PyDict.keys (injected_packages m)))
    by (apply (bool_decide_unpack _); vm_compute; reflexivity).
  assert (Hs : injected_unsuffixed m = true) by (vm_compute; reflexivity).
  split; [auto|].
  exact (from_dict_of_to_dict m (init_fields venv) nothing Hsi Hnd Hs).
Defined.

Lemma json_round_trip_witness :
  let v := to_dict (store [("bar", bar_info "_x")]) in
  storable v = true
  /\ exists v' : value,
       json_load (json_dump v) = Return v'
       /\ value_eqb v v' = true
       /\ v' = sorted_copy v
       /\ storable v' = true.
Proof.
  intros v.
  assert (Hs : storable v = true) by (vm_compute; reflexivity).
  split; [exact Hs|]. exact (json_round_trip v Hs).
Defined.

Lemma json_load_decoded_witness :
  let v := VDict [("interpreter", VPath "/usr/bin/python3"); ("level", VInt 2)] in
  json_load document = Return v /\ decoded v = true.
Proof.
  intros v.
  assert (Hl : json_load document = Return v) by (vm_compute; reflexivity).
  split; [exact Hl|]. exact (json_load_decoded document v Hl).
Defined.

Lemma json_dump_any_order_witness :
  let d := [("zed", VList [VPath "/bin/zed"]); ("dep", VList [])] in
  let d' := [("dep", VList []); ("zed", VList [VPath "/bin/zed"])] in
  (d ≡ₚ d' /\ NoDup (PyDict.keys d))
  /\ json_dump (VDict d) = json_dump (VDict d').
Proof.
  intros d d'.
  assert (Hp : d ≡ₚ d') by apply Permutation_swap.
  assert (Hnd : NoDup (PyDict.keys d))
    by (apply (bool_decide_unpack _); vm_compute; reflexivity).
  split; [auto|]. exact (proj1 (json_dump_any_order d d' Hp Hnd)).
Defined.

Lemma rewrite_after_read_witness :
  let m := store [("bar", bar_info "")] in
  (PipxMetadata_typed m = true
   /\ main_package_valid m = true
   /\ injected_unsuffixed m = true
   /\ available no_file (venv_dir m, PIPX_INFO_FILENAME) = true)
  /\ exists (w1 : world) (m' : PipxMetadata),
       write (m, no_file) = (Return tt, (m, w1))
       /\ __init__ (venv_dir m) true w1 = (Return m', w1)
       /\ json_dump (to_dict m') = json_dump (to_dict m)
       /\ write (m', w1) = (Return tt, (m', w1)).
Proof.
  intros m.
  assert (Ht : PipxMetadata_typed m = true) by (vm_compute; reflexivity).
  assert (Hv : main_package_valid m = true) by (vm_compute; reflexivity).
  assert (Hs : injected_unsuffixed m = true) by (vm_compute; reflexivity).
  assert (Ha : available no_file (venv_dir m, PIPX_INFO_FILENAME) = true)
    by (vm_compute; reflexivity).
  split; [auto|]. exact (rewrite_after_read m no_file Ht Hv Hs Ha).
Defined.

Lemma write_read_fields_witness :
  let m := store [("bar", bar_info "_x")] in
  (PipxMetadata_typed m = true
   /\ main_package_valid m = true
   /\ available no_file (venv_dir m, PIPX_INFO_FILENAME) = true)
  /\ exists (w1 : world) (m' : PipxMetadata),
       write (m, no_file) = (Return tt, (m, w1))
       /\ __init__ (venv_dir m) true w1 = (Return m', w1)
       /\ PackageInfo_eqb (main_package m) (main_package m') = true
       /\ PyDict.keys (injected_packages m') = ["bar_x"].
Proof.
  intros m.
  assert (Ht : PipxMetadata_typed m = true) by (vm_compute; reflexivity).
  assert (Hv : main_package_valid m = true) by (vm_compute; reflexivity).
  assert (Ha : available no_file (venv_dir m, PIPX_INFO_FILENAME) = true)
    by (vm_compute; reflexivity).
  split; [auto|].
  destruct (write_read_fields m no_file Ht Hv Ha)
    as (w1 & m' & Hw & Hi & _ & Hmain & _ & _ & _ & Hinj & _).
  exists w1, m'. split; [exact Hw|]. split; [exact Hi|]. split; [exact Hmain|].
  rewrite Hinj. vm_compute. reflexivity.
Defined.

Lemma round_trip_only_unsuffixed_witness :
  let m := store [("bar", bar_info "")] in
  let w1 := (write (m, no_file)).2.2 in
  let m' := PipxMetadata_copy m in
  (PipxMetadata_typed m = true
   /\ main_package_valid m = true
   /\ available no_file (venv_dir m, PIPX_INFO_FILENAME) = true
   /\ write (m, no_file) = (Return tt, (m, w1))
   /\ __init__ (venv_dir m) true w1 = (Return m', w1)
   /\ PipxMetadata_eqb m m' = true)
  /\ injected_unsuffixed m = true.
Proof.
  intros m w1 m'.
  assert (Ht : PipxMetadata_typed m = true) by (vm_compute; reflexivity).
  assert (Hv : main_package_valid m = true) by (vm_compute; reflexivity).
  assert (Ha : available no_file (venv_dir m, PIPX_INFO_FILENAME) = true)
    by (vm_compute; reflexivity).
  assert (Hw : write (m, no_file) = (Return tt, (m, w1))) by (vm_compute; reflexivity).
  assert (Hi : __init__ (venv_dir m) true w1 = (Return m', w1))
    by (vm_compute; reflexivity).
  assert (He : PipxMetadata_eqb m m' = true) by (vm_compute; reflexivity).
  split; [auto 10|].
  exact (round_trip_only_unsuffixed m no_file w1 m' Ht Hv Ha Hw Hi He).
Defined.

End FurtherRuns.
